(** * NEST agent discovery and ranking: a shallow embedding

    This development embeds [nanda_core/discovery/agent_ranker.py] and
    [nanda_core/discovery/agent_discovery.py] and proves properties of the
    scoring, ranking, filtering and candidate-gathering code.  Of
    [nanda_core/core/registry_client.py] it embeds the functions the
    discovery calls, from the outcome of their HTTP requests on.

    Conventions of the embedding.
    - Agent records are the JSON objects handed out by the registry client:
      finite maps from field names to dynamically typed values ([value]).
      Every operation that Python would reject on a value of the wrong type
      returns [Raise] with the exception Python raises.
    - Python floats are modelled as exact rationals ([Q]); the decimal
      literals of the source are the rationals they denote.
    - Everything the code reads besides its arguments (the wall clock, the
      ISO timestamp parser of the standard library, the iteration order of
      string sets) is collected in an explicit environment [Env]; the
      formatting of values and floats into text is a parameter [Format]. *)

From Stdlib Require Import QArith Qminmax Lqa ZArith Lia String Ascii List.
From Stdlib Require Import Permutation Sorted.
From stdpp Require Import gmap strings list fin_maps pretty.

Set Warnings "-register-all".
Open Scope string_scope.
Open Scope list_scope.

(** ** Python values, exceptions and built-ins *)

Module Py.

(** The JSON values a field of an agent record can hold.  Integers and
    floats are both [VNum]. *)
Inductive value : Type :=
| VNone
| VBool (b : bool)
| VNum (q : Q)
| VStr (s : string)
| VList (l : list value).

Inductive exn : Type :=
| TypeError
| AttributeError
| KeyError.

Inductive result (A : Type) : Type :=
| Ok (a : A)
| Raise (e : exn).
Arguments Ok {A} a.
Arguments Raise {A} e.

#[global] Instance result_ret : MRet result := fun A a => Ok a.
#[global] Instance result_bind : MBind result :=
  fun A B f m => match m with Ok a => f a | Raise e => Raise e end.

(** [bool(v)] *)
Definition truthy (v : value) : bool :=
  match v with
  | VNone => false
  | VBool b => b
  | VNum q => negb (Qeq_bool q 0)
  | VStr s => negb (String.eqb s "")
  | VList l => match l with [] => false | _ => true end
  end.

(** [hash(v)] succeeds on everything but lists. *)
Definition hashable (v : value) : bool :=
  match v with
  | VList _ => false
  | _ => true
  end.

Definition Qbool (b : bool) : Q := if b then 1%Q else 0%Q.

(** [a == b] *)
Fixpoint py_eqb (a b : value) {struct a} : bool :=
  match a, b with
  | VNone, VNone => true
  | VBool x, VBool y => Bool.eqb x y
  | VBool x, VNum q => Qeq_bool (Qbool x) q
  | VNum q, VBool x => Qeq_bool q (Qbool x)
  | VNum p, VNum q => Qeq_bool p q
  | VStr s, VStr t => String.eqb s t
  | VList l, VList l' =>
      (fix go (l l' : list value) {struct l} : bool :=
         match l, l' with
         | [], [] => true
         | x :: xs, y :: ys => py_eqb x y && go xs ys
         | _, _ => false
         end) l l'
  | _, _ => false
  end.

(** A dict from strings to [V], as received from JSON. *)
Abbreviation dict V := (gmap string V).

(** [d.get(k, dflt)] and [d.get(k)] *)
Definition get {V} (k : string) (dflt : V) (d : dict V) : V :=
  default dflt (d !! k).
Definition get_none (k : string) (d : dict value) : value :=
  get k VNone d.

(** A dict literal, in insertion order, and [d[k]]. *)
Fixpoint assoc {V} (k : string) (d : list (string * V)) : option V :=
  match d with
  | [] => None
  | (k', v) :: d' => if String.eqb k k' then Some v else assoc k d'
  end.
Definition getitem {V} (k : string) (d : list (string * V)) : result V :=
  match assoc k d with
  | Some v => Ok v
  | None => Raise KeyError
  end.

(** [str.lower], on the ASCII letters. *)
Definition lower_ascii (c : ascii) : ascii :=
  let n := nat_of_ascii c in
  if (65 <=? n)%nat && (n <=? 90)%nat then ascii_of_nat (n + 32) else c.
Fixpoint lower (s : string) : string :=
  match s with
  | EmptyString => EmptyString
  | String c s' => String (lower_ascii c) (lower s')
  end.

(** [v.lower()]: only strings have the method. *)
Definition str_lower (v : value) : result string :=
  match v with
  | VStr s => Ok (lower s)
  | _ => Raise AttributeError
  end.

(** [sub in s] on strings *)
Fixpoint contains (sub s : string) : bool :=
  String.prefix sub s ||
  match s with
  | EmptyString => false
  | String _ s' => contains sub s'
  end.

(** [s.replace('Z', '+00:00')] *)
Fixpoint replace_Z (s : string) : string :=
  match s with
  | EmptyString => EmptyString
  | String c s' =>
      if Ascii.eqb c "Z"%char then String.append "+00:00" (replace_Z s')
      else String c (replace_Z s')
  end.

(** [sep.join(l)] *)
Definition join (sep : string) (l : list string) : string := String.concat sep l.

(** [iter(v)]: lists yield their elements, strings their characters. *)
Fixpoint chars (s : string) : list value :=
  match s with
  | EmptyString => []
  | String c s' => VStr (String c EmptyString) :: chars s'
  end.
Definition iter (v : value) : result (list value) :=
  match v with
  | VList l => Ok l
  | VStr s => Ok (chars s)
  | _ => Raise TypeError
  end.

(** Sets are kept as duplicate-free lists. *)
Fixpoint dedup {A} (eqb : A -> A -> bool) (l : list A) : list A :=
  match l with
  | [] => []
  | x :: l' => if existsb (eqb x) l' then dedup eqb l' else x :: dedup eqb l'
  end.

(** [set(l)] on values: every element is hashed. *)
Definition set_of (l : list value) : result (list value) :=
  if forallb hashable l then Ok (dedup py_eqb l) else Raise TypeError.

(** [set(l)] on strings *)
Definition str_set (l : list string) : list string := dedup String.eqb l.

Definition mem (s : string) (l : list string) : bool := existsb (String.eqb s) l.

(** [v in s] for a set of values: [v] is hashed, then compared. *)
Definition set_mem (v : value) (s : list value) : result bool :=
  if hashable v then Ok (existsb (py_eqb v) s) else Raise TypeError.

(** [v in d] and [d[v]] for a dict keyed by strings: [v] is hashed, and
    only a string can be found. *)
Definition lookup_value {V} (v : value) (d : dict V) : result (option V) :=
  if hashable v then
    Ok (match v with VStr s => d !! s | _ => None end)
  else Raise TypeError.

(** [not d] for a dict *)
Definition is_empty {V} (d : dict V) : bool :=
  match map_to_list d with
  | [] => true
  | _ => false
  end.

(** [sorted(d.items())]: the keys of a dict are distinct, so the pairs are
    ordered by key alone and the values are never compared. *)
Fixpoint insert_item (kv : string * value) (l : list (string * value))
  : list (string * value) :=
  match l with
  | [] => [kv]
  | kv' :: l' =>
      if String.ltb (fst kv') (fst kv) then kv' :: insert_item kv l'
      else kv :: kv' :: l'
  end.
Definition sorted_items (d : dict value) : list (string * value) :=
  foldr insert_item [] (map_to_list d).

(** [t1 == t2] on tuples of items *)
Fixpoint items_eqb (t1 t2 : list (string * value)) : bool :=
  match t1, t2 with
  | [], [] => true
  | (k1, v1) :: t1', (k2, v2) :: t2' =>
      String.eqb k1 k2 && py_eqb v1 v2 && items_eqb t1' t2'
  | _, _ => false
  end.

(** [[x for x in l if p(x)]] with a test that may raise *)
Fixpoint filter_each {A} (p : A -> result bool) (l : list A) : result (list A) :=
  match l with
  | [] => Ok []
  | x :: l' =>
      b ← p x;
      ys ← filter_each p l';
      Ok (if b : bool then x :: ys else ys)
  end.

(** The operand of float arithmetic: numbers, and booleans as 0 and 1. *)
Definition num (v : value) : result Q :=
  match v with
  | VNum q => Ok q
  | VBool b => Ok (Qbool b)
  | _ => Raise TypeError
  end.

(** [min(a, b)] and [max(a, b)] on two floats: the first argument wins ties. *)
Definition min (a b : Q) : Q := if Qle_bool a b then a else b.
Definition max (a b : Q) : Q := if Qle_bool b a then a else b.

(** [len(l)] as a float operand *)
Definition len {A} (l : list A) : Q := inject_Z (Z.of_nat (length l)).

(** [l[:n]] for a Python int [n]: a negative bound counts from the end. *)
Definition slice_to {A} (l : list A) (n : Z) : list A :=
  if (0 <=? n)%Z then firstn (Z.to_nat n) l
  else firstn (Z.to_nat (Z.of_nat (length l) + n)) l.

(** [l.sort(key=key, reverse=True)]: a stable sort, descending by key.
    Insertion from the right puts an element in front of the first element
    whose key is not greater, so equal keys keep their input order. *)
Fixpoint insert_desc {A} (key : A -> Q) (x : A) (l : list A) : list A :=
  match l with
  | [] => [x]
  | y :: l' =>
      if Qle_bool (key y) (key x) then x :: y :: l'
      else y :: insert_desc key x l'
  end.
Fixpoint sort_desc {A} (key : A -> Q) (l : list A) : list A :=
  match l with
  | [] => []
  | x :: l' => insert_desc key x (sort_desc key l')
  end.

(** [for x in l: ys.append(f(x))], stopping at the first exception. *)
Fixpoint for_each {A B} (f : A -> result B) (l : list A) : result (list B) :=
  match l with
  | [] => Ok []
  | x :: l' =>
      y ← f x;
      ys ← for_each f l';
      Ok (y :: ys)
  end.

End Py.
Import Py.

(** ** The interpreter environment *)

(** What the code reads besides its arguments: [datetime.now()] and the
    parsed value of [datetime.fromisoformat], both as microseconds of naive
    wall-clock time; the order in which a set of strings and a set of item
    tuples is iterated (it depends on the string hash seed of the process);
    and the difference of the two [time.time()] readings taken by
    [discover_agents]. *)
Record Env : Type := {
  now : Z;
  fromisoformat : string -> option Z;
  set_iter : list string -> list string;
  record_iter : list (list (string * value)) -> list (list (string * value));
  elapsed : Q
}.

(** The formatting built-ins the code relies on: [str(v)], which an
    f-string applies to a value, and the [:.2f] format of a float. *)
Record Format : Type := {
  str_of : value -> string;
  fixed2 : Q -> string
}.

(** [str] of a string is the string. *)
Definition format_ok (fmt : Format) : Prop :=
  forall s, str_of fmt (VStr s) = s.

(** [timedelta(minutes=5)], [timedelta(hours=1)], [timedelta(days=1)] *)
Definition minutes (n : Z) : Z := (n * 60 * 1000000)%Z.
Definition hours (n : Z) : Z := (n * 3600 * 1000000)%Z.
Definition days (n : Z) : Z := (n * 86400 * 1000000)%Z.

(** ** The task analysis *)

Module Task.

(** Modelled from the spec: the [TaskAnalysis] dataclass of
    [task_analyzer.py], which is not among the sources; the fields are the
    ones the spec lists and the ranker reads. *)
Record TaskAnalysis : Type := {
  task_type : string;
  domain : string;
  complexity : string;
  required_capabilities : list string;
  keywords : list string;
  confidence : Q
}.

End Task.
Abbreviation TaskAnalysis := Task.TaskAnalysis.

(** ** agent_ranker.py *)

Module AgentRanker.

Record AgentScore : Type := {
  agent_id : value;
  score : Q;
  confidence : Q;
  match_reasons : list string;
  metadata : list (string * Q)
}.

(** [self.weights] *)
Definition weights : list (string * Q) :=
  [ ("capability_match", 0.35%Q);
    ("domain_match", 0.25%Q);
    ("keyword_match", 0.20%Q);
    ("performance", 0.10%Q);
    ("availability", 0.05%Q);
    ("load", 0.05%Q) ].

(** The strings of a set that compare equal to a member of another set:
    [agent_capabilities.intersection(required_capabilities)]. *)
Definition intersection (vs : list value) (ss : list string) : list string :=
  List.filter (fun s => existsb (py_eqb (VStr s)) vs) ss.

Definition _score_capabilities (env : Env) (agent : dict value)
    (task_analysis : TaskAnalysis) (match_reasons : list string)
  : result (Q * list string) :=
  elems ← Py.iter (Py.get "capabilities" (VList []) agent);
  agent_capabilities ← Py.set_of elems;
  let required_capabilities := Py.str_set (Task.required_capabilities task_analysis) in
  match required_capabilities with
  | [] => Ok (0.7%Q, match_reasons)
  | _ =>
  match agent_capabilities with
  | [] => Ok (0.3%Q, match_reasons)
  | _ =>
    let matching_caps := intersection agent_capabilities required_capabilities in
    let match_ratio := (Py.len matching_caps / Py.len required_capabilities)%Q in
    let match_reasons :=
      match matching_caps with
      | [] => match_reasons
      | _ => match_reasons ++
             ["Matching capabilities: " +:+ Py.join ", " (set_iter env matching_caps)]
      end in
    let match_ratio :=
      if (length matching_caps =? length required_capabilities)%nat then
        let extra_relevant :=
          (Z.of_nat (length agent_capabilities)
           - Z.of_nat (length required_capabilities))%Z in
        let bonus := Py.min 0.2%Q (inject_Z extra_relevant * 0.05)%Q in
        (match_ratio + bonus)%Q
      else match_ratio in
    Ok (Py.min 1.0%Q match_ratio, match_reasons)
  end
  end.

(** [related_domains], in the order the dict literal lists it. *)
Definition related_domains : list (string * list string) :=
  [ ("technology", ["software"; "it"; "programming"; "tech"]);
    ("finance", ["banking"; "trading"; "accounting"; "fintech"]);
    ("healthcare", ["medical"; "clinical"; "pharmaceutical"]);
    ("marketing", ["advertising"; "sales"; "promotion"]);
    ("education", ["learning"; "training"; "academic"]) ].

(** The loop over [related_domains.items()]. *)
Fixpoint domain_similarity_loop (table : list (string * list string))
    (domain1 domain2 : string) : Q :=
  match table with
  | [] => 0.2%Q
  | (main_domain, related) :: table' =>
      if Py.mem domain1 related && Py.mem domain2 related then 0.8%Q
      else if (String.eqb domain1 main_domain && Py.mem domain2 related)
              || (String.eqb domain2 main_domain && Py.mem domain1 related)
      then 0.9%Q
      else domain_similarity_loop table' domain1 domain2
  end.

Definition _calculate_domain_similarity (domain1 domain2 : string) : Q :=
  domain_similarity_loop related_domains domain1 domain2.

Definition _score_domain (agent : dict value) (task_analysis : TaskAnalysis)
    (match_reasons : list string) : result (Q * list string) :=
  agent_domain ← Py.str_lower (Py.get "domain" (VStr "") agent);
  let task_domain := Py.lower (Task.domain task_analysis) in
  if String.eqb task_domain "general" then Ok (0.7%Q, match_reasons)
  else if String.eqb agent_domain "" || String.eqb agent_domain "general"
  then Ok (0.5%Q, match_reasons)
  else if String.eqb agent_domain task_domain
  then Ok (1.0%Q, match_reasons ++ ["Domain expertise: " +:+ task_domain])
  else
    let domain_similarity := _calculate_domain_similarity agent_domain task_domain in
    let match_reasons :=
      if negb (Qle_bool domain_similarity 0.5%Q)
      then match_reasons ++ ["Related domain: " +:+ agent_domain]
      else match_reasons in
    Ok (domain_similarity, match_reasons).

(** [set(word.lower() for word in ...)] over the elements of a value *)
Definition lowered_set (v : value) : result (list string) :=
  elems ← Py.iter v;
  words ← Py.for_each Py.str_lower elems;
  Ok (Py.str_set words).

(** [a.union(b)] on sets of strings *)
Definition union (a b : list string) : list string := Py.str_set (a ++ b).

Definition _score_keywords (env : Env) (agent : dict value)
    (task_analysis : TaskAnalysis) (match_reasons : list string)
  : result (Q * list string) :=
  agent_keywords ← lowered_set (Py.get "keywords" (VList []) agent);
  agent_description ← Py.str_lower (Py.get "description" (VStr "") agent);
  let task_keywords := Py.str_set (List.map Py.lower (Task.keywords task_analysis)) in
  match task_keywords with
  | [] => Ok (0.7%Q, match_reasons)
  | _ =>
    let direct_matches :=
      List.filter (fun k => Py.mem k agent_keywords) task_keywords in
    let description_matches :=
      List.filter (fun keyword => Py.contains keyword agent_description) task_keywords in
    let all_matches := union direct_matches description_matches in
    let match_reasons :=
      match all_matches with
      | [] => match_reasons
      | _ => match_reasons ++
             ["Keyword matches: " +:+ Py.join ", " (set_iter env all_matches)]
      end in
    let match_ratio := (Py.len all_matches / Py.len task_keywords)%Q in
    Ok (Py.min 1.0%Q match_ratio, match_reasons)
  end.

Definition _score_performance (agent : dict value)
    (performance_data : option (dict (dict value))) : result Q :=
  match performance_data with
  | None => Ok 0.7%Q
  | Some performance_data =>
    if Py.is_empty performance_data then Ok 0.7%Q
    else
      let agent_id := Py.get_none "agent_id" agent in
      found ← Py.lookup_value agent_id performance_data;
      match found with
      | None => Ok 0.7%Q
      | Some perf =>
        let success_rate := Py.get "success_rate" (VNum 0.7) perf in
        let avg_response_time := Py.get "avg_response_time" (VNum 5.0) perf in
        let reliability := Py.get "reliability" (VNum 0.7) perf in
        avg_response_time ← Py.num avg_response_time;
        let time_score := Py.max 0.0%Q (1.0 - avg_response_time / 30.0)%Q in
        success_rate ← Py.num success_rate;
        reliability ← Py.num reliability;
        let performance_score :=
          (success_rate * 0.5 + time_score * 0.3 + reliability * 0.2)%Q in
        Ok (Py.min 1.0%Q performance_score)
      end
  end.

(** The body of the [try] block: [None] stands for any exception raised in
    it (no [replace] method, or a string [fromisoformat] rejects), which the
    bare [except] swallows. *)
Definition parse_last_seen (env : Env) (last_seen_str : value) : option Z :=
  match last_seen_str with
  | VStr s => fromisoformat env (Py.replace_Z s)
  | _ => None
  end.

Definition _score_availability (env : Env) (agent : dict value) : result Q :=
  status ← Py.str_lower (Py.get "status" (VStr "unknown") agent);
  let last_seen_str := Py.get_none "last_seen" agent in
  if String.eqb status "offline" then Ok 0.0%Q
  else if String.eqb status "busy" then Ok 0.3%Q
  else if String.eqb status "available" || String.eqb status "online" then Ok 1.0%Q
  else if Py.truthy last_seen_str then
    match parse_last_seen env last_seen_str with
    | Some last_seen =>
        let time_diff := (now env - last_seen)%Z in
        if (time_diff <? minutes 5)%Z then Ok 1.0%Q
        else if (time_diff <? hours 1)%Z then Ok 0.8%Q
        else if (time_diff <? days 1)%Z then Ok 0.5%Q
        else Ok 0.2%Q
    | None => Ok 0.5%Q
    end
  else Ok 0.5%Q.

Definition _score_load (agent : dict value) : result Q :=
  current_load ← Py.num (Py.get "current_load" (VNum 0.5) agent);
  Ok (1.0 - current_load)%Q.

Definition _calculate_confidence (agent : dict value)
    (task_analysis : TaskAnalysis) : Q :=
  let confidence := 0.5%Q in
  let confidence :=
    if Py.truthy (Py.get_none "capabilities" agent)
    then (confidence + 0.2)%Q else confidence in
  let confidence :=
    if Py.truthy (Py.get_none "description" agent)
    then (confidence + 0.1)%Q else confidence in
  let confidence :=
    if Py.truthy (Py.get_none "domain" agent)
    then (confidence + 0.1)%Q else confidence in
  let confidence :=
    if Py.truthy (Py.get_none "last_seen" agent)
    then (confidence + 0.05)%Q else confidence in
  let confidence :=
    if Py.truthy (Py.get_none "status" agent)
    then (confidence + 0.05)%Q else confidence in
  let confidence := (confidence * Task.confidence task_analysis)%Q in
  Py.min 1.0%Q confidence.

Definition _score_agent (env : Env) (agent : dict value)
    (task_analysis : TaskAnalysis)
    (performance_data : option (dict (dict value))) : result AgentScore :=
  let agent_id := Py.get "agent_id" (VStr "unknown") agent in
  let match_reasons := [] in
  '(capability_score, match_reasons) ←
    _score_capabilities env agent task_analysis match_reasons;
  '(domain_score, match_reasons) ←
    _score_domain agent task_analysis match_reasons;
  '(keyword_score, match_reasons) ←
    _score_keywords env agent task_analysis match_reasons;
  performance_score ← _score_performance agent performance_data;
  availability_score ← _score_availability env agent;
  load_score ← _score_load agent;
  w_capability ← Py.getitem "capability_match" weights;
  w_domain ← Py.getitem "domain_match" weights;
  w_keyword ← Py.getitem "keyword_match" weights;
  w_performance ← Py.getitem "performance" weights;
  w_availability ← Py.getitem "availability" weights;
  w_load ← Py.getitem "load" weights;
  let total_score :=
    (capability_score * w_capability +
     domain_score * w_domain +
     keyword_score * w_keyword +
     performance_score * w_performance +
     availability_score * w_availability +
     load_score * w_load)%Q in
  let confidence := _calculate_confidence agent task_analysis in
  Ok {| agent_id := agent_id;
        score := total_score;
        confidence := confidence;
        match_reasons := match_reasons;
        metadata :=
          [ ("capability_score", capability_score);
            ("domain_score", domain_score);
            ("keyword_score", keyword_score);
            ("performance_score", performance_score);
            ("availability_score", availability_score);
            ("load_score", load_score) ] |}.

Definition rank_agents (env : Env) (agents : list (dict value))
    (task_analysis : TaskAnalysis)
    (performance_data : option (dict (dict value))) : result (list AgentScore) :=
  agent_scores ←
    Py.for_each (fun agent => _score_agent env agent task_analysis performance_data)
                agents;
  Ok (Py.sort_desc score agent_scores).

Definition get_top_recommendations (agent_scores : list AgentScore)
    (limit : Z) (min_score : Q) : list AgentScore :=
  let filtered :=
    List.filter
      (fun s => Qle_bool min_score (score s) && Qle_bool 0.4%Q (confidence s))
      agent_scores in
  Py.slice_to filtered limit.

(** The line break that joins the lines of an explanation. *)
Definition newline : string := String "010"%char EmptyString.

Definition explain_ranking (fmt : Format) (agent_score : AgentScore) : string :=
  let explanations := [] in
  let explanations :=
    explanations ++
    [ "Overall score: " +:+ fixed2 fmt (score agent_score)
      +:+ " (confidence: " +:+ fixed2 fmt (confidence agent_score) +:+ ")" ] in
  let explanations :=
    match match_reasons agent_score with
    | [] => explanations
    | reasons =>
        (explanations ++ ["Match reasons:"])
        ++ List.map (fun reason => "  - " +:+ reason) reasons
    end in
  let metadata := metadata agent_score in
  let entry name := fixed2 fmt (default 0%Q (Py.assoc name metadata)) in
  let explanations :=
    explanations ++
    [ "Score breakdown:";
      "  - Capability match: " +:+ entry "capability_score";
      "  - Domain expertise: " +:+ entry "domain_score";
      "  - Keyword relevance: " +:+ entry "keyword_score";
      "  - Performance: " +:+ entry "performance_score";
      "  - Availability: " +:+ entry "availability_score";
      "  - Load: " +:+ entry "load_score" ] in
  Py.join newline explanations.

End AgentRanker.
Import AgentRanker.

(** ** registry_client.py *)

Module Registry.

(** What an HTTP request of the client ends in: a reply with a status code
    and a body whose JSON decoding gives a list of records or fails, or an
    exception of the transport. *)
Inductive outcome : Type :=
| Reply (status_code : Z) (json : option (list (dict value)))
| Failed.

(** [list_agents], from the outcome of [GET /list]. *)
Definition list_agents (listing : outcome) : list (dict value) :=
  match listing with
  | Reply status_code json =>
      if (status_code =? 200)%Z then
        match json with
        | Some agents => agents
        | None => []
        end
      else []
  | Failed => []
  end.

(** [get_agent_metadata], from the result of [lookup_agent]. *)
Definition get_agent_metadata (agent_info : option (dict value)) (agent_id : string)
  : option (dict value) :=
  match agent_info with
  | None => None
  | Some agent_info =>
      if Py.is_empty agent_info then None
      else
        Some (list_to_map
                [ ("agent_id", VStr agent_id);
                  ("agent_url", Py.get_none "agent_url" agent_info);
                  ("api_url", Py.get_none "api_url" agent_info);
                  ("last_seen", Py.get_none "last_seen" agent_info);
                  ("capabilities", Py.get "capabilities" (VList []) agent_info);
                  ("description", Py.get "description" (VStr "") agent_info);
                  ("tags", Py.get "tags" (VList []) agent_info) ])
  end.

(** [any(x in container for x in wanted)] for a non-empty [wanted]: a list
    is searched for an equal element, a string for a substring, and nothing
    else supports [in]. *)
Definition any_in (wanted : list string) (container : value) : result bool :=
  match container with
  | VList l => Ok (existsb (fun x => existsb (Py.py_eqb (VStr x)) l) wanted)
  | VStr s => Ok (existsb (fun x => Py.contains x s) wanted)
  | _ => Raise TypeError
  end.

(** One turn of the loop of [_filter_agents_locally]: whether the agent is
    appended. *)
Definition matches_locally (fmt : Format) (query : string)
    (capabilities tags : option (list string)) (agent : dict value) : result bool :=
  let query_ok :=
    if negb (String.eqb query "") then
      let agent_text :=
        str_of fmt (Py.get "agent_id" (VStr "") agent) +:+ " "
        +:+ str_of fmt (Py.get "description" (VStr "") agent) in
      Py.contains (Py.lower query) (Py.lower agent_text)
    else true in
  if negb query_ok then Ok false
  else
    caps_ok ←
      match capabilities with
      | Some (c :: cs) => any_in (c :: cs) (Py.get "capabilities" (VList []) agent)
      | _ => Ok true
      end;
    if negb caps_ok then Ok false
    else
      match tags with
      | Some (t :: ts) => any_in (t :: ts) (Py.get "tags" (VList []) agent)
      | _ => Ok true
      end.

Definition _filter_agents_locally (fmt : Format) (listing : outcome)
    (query : string) (capabilities tags : option (list string))
  : result (list (dict value)) :=
  let all_agents := list_agents listing in
  Py.filter_each (matches_locally fmt query capabilities tags) all_agents.

(** [search_agents], from the outcomes of [GET /search] and [GET /list].
    An exception of the local filtering escapes: inside the [try] it is
    caught, but the handler runs the same filtering again. *)
Definition search_agents (fmt : Format) (search listing : outcome)
    (query : string) (capabilities tags : option (list string))
  : result (list (dict value)) :=
  match search with
  | Reply status_code (Some agents) =>
      if (status_code =? 200)%Z then Ok agents
      else _filter_agents_locally fmt listing query capabilities tags
  | _ => _filter_agents_locally fmt listing query capabilities tags
  end.

End Registry.

(** ** agent_discovery.py *)

Module AgentDiscovery.

(** The answers of the registry client ([registry_client.py]) to the calls
    the discovery makes: [search_agents(query, capabilities)] and
    [list_agents()].  The client catches its own network failures and
    answers with a list in every case. *)
Record RegistryClient : Type := {
  search_agents : string -> option (list string) -> list (dict value);
  list_agents : list (dict value)
}.

Record DiscoveryResult : Type := {
  task_analysis : TaskAnalysis;
  recommended_agents : list AgentScore;
  total_agents_evaluated : nat;
  search_time_seconds : Q;
  suggestions : list string
}.

(** [tuple(sorted(agent.items()))] as a member of a set: the tuple is hashed,
    which hashes every value in it. *)
Definition record_key (agent : dict value) : result (list (string * value)) :=
  let items := Py.sorted_items agent in
  if forallb (fun kv => Py.hashable (snd kv)) items then Ok items
  else Raise TypeError.

(** [agents.add(t)] *)
Definition set_add (t : list (string * value)) (agents : list (list (string * value)))
  : list (list (string * value)) :=
  if existsb (Py.items_eqb t) agents then agents else agents ++ [t].

(** [agents.update(tuple(sorted(agent.items())) for agent in found)] *)
Fixpoint update (agents : list (list (string * value))) (found : list (dict value))
  : result (list (list (string * value))) :=
  match found with
  | [] => Ok agents
  | agent :: found' =>
      t ← record_key agent;
      update (set_add t agents) found'
  end.

(** [k in filters] followed by [filters[k]] *)
Definition filter_key (k : string) (filters : dict value) : option value :=
  filters !! k.

Definition _apply_filters (agents : list (dict value)) (filters : dict value)
  : result (list (dict value)) :=
  let filtered := agents in
  filtered ←
    match filter_key "status" filters with
    | Some wanted =>
        Ok (List.filter (fun a => Py.py_eqb (Py.get_none "status" a) wanted) filtered)
    | None => Ok filtered
    end;
  (* "min_score" in filters: pass *)
  filtered ←
    match filter_key "exclude_agents" filters with
    | Some excluded =>
        elems ← Py.iter excluded;
        exclude_set ← Py.set_of elems;
        Py.filter_each
          (fun a => b ← Py.set_mem (Py.get_none "agent_id" a) exclude_set; Ok (negb b))
          filtered
    | None => Ok filtered
    end;
  match filter_key "domain" filters with
  | Some d =>
      domain_filter ← Py.str_lower d;
      Py.filter_each
        (fun a => ad ← Py.str_lower (Py.get "domain" (VStr "") a);
                  Ok (String.eqb ad domain_filter))
        filtered
  | None => Ok filtered
  end.

(** [if filters:] for the optional dict *)
Definition given (filters : option (dict value)) : option (dict value) :=
  match filters with
  | Some f => if Py.is_empty f then None else Some f
  | None => None
  end.

(** The deduplicated union of the three searches, as the set [agents]. *)
Definition gather (registry : RegistryClient) (task_analysis : TaskAnalysis)
  : result (list (list (string * value))) :=
  let agents := [] in
  agents ←
    match Task.required_capabilities task_analysis with
    | [] => Ok agents
    | caps => update agents (search_agents registry "" (Some caps))
    end;
  agents ←
    (if negb (String.eqb (Task.domain task_analysis) "")
        && negb (String.eqb (Task.domain task_analysis) "general")
     then update agents (search_agents registry (Task.domain task_analysis) None)
     else Ok agents);
  match Task.keywords task_analysis with
  | [] => Ok agents
  | kws =>
      let keyword_query := Py.join " " (firstn 3 kws) in
      update agents (search_agents registry keyword_query None)
  end.

Definition _get_relevant_agents (env : Env) (registry : RegistryClient)
    (task_analysis : TaskAnalysis) (filters : option (dict value))
  : result (list (dict value)) :=
  agents ← gather registry task_analysis;
  let agent_list : list (dict value) :=
    List.map (fun agent => list_to_map agent) (record_iter env agents) in
  agent_list ←
    match given filters with
    | Some f => _apply_filters agent_list f
    | None => Ok agent_list
    end;
  let agent_list :=
    match agent_list with
    | [] => list_agents registry
    | _ => agent_list
    end in
  Ok agent_list.

Definition _generate_suggestions (task_analysis : TaskAnalysis)
    (recommendations : list AgentScore) : list string :=
  let suggestions := [] in
  let suggestions :=
    match recommendations with
    | [] =>
        suggestions ++
        [ "No agents found matching your requirements";
          "Try searching for agents with '" +:+ Task.domain task_analysis
            +:+ "' domain expertise";
          "Consider breaking down your task into smaller components";
          "Check if your required capabilities are too specific" ]
    | [_] =>
        suggestions ++
        [ "Only one agent found - consider broadening your search criteria" ]
    | _ =>
        if String.eqb (Task.complexity task_analysis) "complex" then
          suggestions ++
          [ "This appears to be a complex task";
            "Consider using multiple agents for different components";
            "Review the top agents' capabilities to ensure full coverage" ]
        else suggestions
    end in
  let suggestions :=
    if String.eqb (Task.task_type task_analysis) "data_analysis" then
      suggestions ++
      [ "For data analysis tasks, ensure agents have visualization capabilities" ]
    else if String.eqb (Task.task_type task_analysis) "automation" then
      suggestions ++
      [ "For automation, look for agents with workflow management features" ]
    else suggestions in
  match recommendations with
  | top :: _ =>
      if negb (Qle_bool 0.7%Q (score top)) then
        suggestions ++
        [ "Match confidence is moderate - review agent details carefully" ]
      else suggestions
  | [] => suggestions
  end.

(** [discover_agents], from the task analysis on: the analyzer is a
    collaborator outside the sources and its result is an input here.
    [performance_cache] is [self.performance_cache]. *)
Definition discover_agents (env : Env) (registry : RegistryClient)
    (performance_cache : dict (dict value)) (analysis : TaskAnalysis)
    (limit : Z) (min_score : Q) (filters : option (dict value))
  : result DiscoveryResult :=
  agents ← _get_relevant_agents env registry analysis filters;
  let performance_data := Some performance_cache in
  agent_scores ← rank_agents env agents analysis performance_data;
  let recommendations := get_top_recommendations agent_scores limit min_score in
  let suggestions := _generate_suggestions analysis recommendations in
  Ok {| task_analysis := analysis;
        recommended_agents := recommendations;
        total_agents_evaluated := length agents;
        search_time_seconds := elapsed env;
        suggestions := suggestions |}.

(** [self.performance_cache[agent_id] = performance_metrics] *)
Definition update_performance_data (performance_cache : dict (dict value))
    (agent_id : string) (performance_metrics : dict value) : dict (dict value) :=
  <[agent_id := performance_metrics]> performance_cache.

Definition _get_performance_data (performance_cache : dict (dict value))
  : dict (dict value) :=
  performance_cache.

(** [', '.join(v)] for a field value: the elements must be strings. *)
Definition join_field (sep : string) (v : value) : result string :=
  elems ← Py.iter v;
  parts ← Py.for_each
             (fun e => match e with
                       | VStr s => Ok s
                       | _ => Raise TypeError
                       end) elems;
  Ok (Py.join sep parts).

(** The pseudo-task that [get_similar_agents] describes. *)
Definition similar_task_description (fmt : Format) (target_agent : dict value)
  : result string :=
  let task_desc :=
    "Task requiring " +:+ str_of fmt (Py.get "domain" (VStr "general") target_agent)
    +:+ " domain expertise" in
  if Py.truthy (Py.get_none "capabilities" target_agent) then
    caps ← join_field ", " (Py.get_none "capabilities" target_agent);
    Ok (task_desc +:+ " with capabilities: " +:+ caps)
  else Ok task_desc.

(** [get_similar_agents]: [agent_info] is what the registry answers to the
    lookup of [agent_id], [analyze_task] is the task analyzer. *)
Definition get_similar_agents (env : Env) (fmt : Format) (registry : RegistryClient)
    (performance_cache : dict (dict value)) (analyze_task : string -> TaskAnalysis)
    (agent_info : option (dict value)) (agent_id : string) (limit : Z)
  : result (list AgentScore) :=
  match Registry.get_agent_metadata agent_info agent_id with
  | None => Ok []
  | Some target_agent =>
      task_desc ← similar_task_description fmt target_agent;
      result ← discover_agents env registry performance_cache
                  (analyze_task task_desc) (limit + 1)%Z 0.3%Q None;
      let similar :=
        List.filter (fun agent => negb (Py.py_eqb (AgentRanker.agent_id agent) (VStr agent_id)))
                    (recommended_agents result) in
      Ok (Py.slice_to similar limit)
  end.

(** The lines [explain_recommendations] prints for the recommended agent
    numbered [i]. *)
Definition agent_lines (fmt : Format) (i : nat) (agent_score : AgentScore)
  : list string :=
  [ newline +:+ pretty i +:+ ". Agent: " +:+ str_of fmt (AgentRanker.agent_id agent_score);
    "   Score: " +:+ fixed2 fmt (score agent_score);
    "   Confidence: " +:+ fixed2 fmt (AgentRanker.confidence agent_score) ]
  ++ match match_reasons agent_score with
     | [] => []
     | reasons =>
         "   Match Reasons:" :: List.map (fun reason => "     - " +:+ reason) reasons
     end.

(** [for i, agent_score in enumerate(recommended_agents, i)] *)
Fixpoint numbered_lines (fmt : Format) (i : nat) (agents : list AgentScore)
  : list string :=
  match agents with
  | [] => []
  | agent_score :: agents' =>
      agent_lines fmt i agent_score ++ numbered_lines fmt (S i) agents'
  end.

(** The list [lines] of [explain_recommendations]. *)
Definition explanation_lines (fmt : Format) (discovery_result : DiscoveryResult)
  : list string :=
  let task := task_analysis discovery_result in
  let lines :=
    [ "=== Task Analysis ===";
      "Task Type: " +:+ Task.task_type task;
      "Domain: " +:+ Task.domain task;
      "Complexity: " +:+ Task.complexity task;
      "Required Capabilities: " +:+ Py.join ", " (Task.required_capabilities task);
      "Key Keywords: " +:+ Py.join ", " (firstn 5 (Task.keywords task));
      "Analysis Confidence: " +:+ fixed2 fmt (Task.confidence task);
      "";
      "=== Search Results ===";
      "Total Agents Evaluated: " +:+ pretty (total_agents_evaluated discovery_result);
      "Agents Recommended: " +:+ pretty (length (recommended_agents discovery_result));
      "Search Time: " +:+ fixed2 fmt (search_time_seconds discovery_result)
        +:+ " seconds";
      "" ] in
  let lines :=
    match recommended_agents discovery_result with
    | [] => lines ++ ["=== No Agents Found ==="]
    | agents => (lines ++ ["=== Recommended Agents ==="]) ++ numbered_lines fmt 1 agents
    end in
  match suggestions discovery_result with
  | [] => lines
  | some =>
      (lines ++ [newline +:+ "=== Suggestions ==="])
      ++ List.map (fun suggestion => "- " +:+ suggestion) some
  end.

Definition explain_recommendations (fmt : Format) (discovery_result : DiscoveryResult)
  : string :=
  Py.join newline (explanation_lines fmt discovery_result).

End AgentDiscovery.
Import AgentDiscovery.

(** ** A concrete environment *)

(** A parser for timestamps written [YYYY-MM-DDTHH:MM:SS]: on such a string
    it returns the instant [datetime.fromisoformat] returns, in microseconds
    since 0001-01-01T00:00:00.  It is used to run the code on concrete
    records. *)
Module Iso.

Definition digit (c : ascii) : option Z :=
  let n := Z.of_nat (nat_of_ascii c) in
  if (48 <=? n)%Z && (n <=? 57)%Z then Some (n - 48)%Z else None.

Definition number (cs : list ascii) : option Z :=
  foldl (fun acc c => a ← acc; d ← digit c; Some (a * 10 + d)%Z) (Some 0%Z) cs.

Definition is_leap (y : Z) : bool :=
  ((y mod 4 =? 0) && (negb (y mod 100 =? 0) || (y mod 400 =? 0)))%Z.

Definition days_in_month (y m : Z) : Z :=
  if (m =? 2)%Z then (if is_leap y then 29 else 28)%Z
  else if ((m =? 4) || (m =? 6) || (m =? 9) || (m =? 11))%Z then 30%Z
  else 31%Z.

Definition days_before_year (y : Z) : Z :=
  let y' := (y - 1)%Z in
  (y' * 365 + y' / 4 - y' / 100 + y' / 400)%Z.

Fixpoint days_before_month (y : Z) (m : nat) : Z :=
  match m with
  | O => 0%Z
  | S m' => (days_before_month y m' + days_in_month y (Z.of_nat m))%Z
  end.

Definition parse (s : string) : option Z :=
  match list_ascii_of_string s with
  | [y1; y2; y3; y4; "-"; m1; m2; "-"; d1; d2; "T";
     h1; h2; ":"; n1; n2; ":"; s1; s2]%char =>
      y ← number [y1; y2; y3; y4];
      m ← number [m1; m2];
      d ← number [d1; d2];
      h ← number [h1; h2];
      n ← number [n1; n2];
      sec ← number [s1; s2];
      if ((1 <=? y) && (1 <=? m) && (m <=? 12) && (1 <=? d)
          && (d <=? days_in_month y m) && (h <? 24) && (n <? 60) && (sec <? 60))%Z
      then
        let ordinal :=
          (days_before_year y + days_before_month y (Z.to_nat (m - 1)) + d)%Z in
        Some ((((ordinal - 1) * 86400 + h * 3600 + n * 60 + sec) * 1000000)%Z)
      else None
  | _ => None
  end.

End Iso.

(** An environment whose clock reads [t] and whose sets iterate in the order
    of the lists that represent them. *)
Definition env_at (t : Z) : Env :=
  {| now := t;
     fromisoformat := Iso.parse;
     set_iter := fun l => l;
     record_iter := fun l => l;
     elapsed := 0%Q |}.

(** The iteration orders of an environment enumerate the set they are given. *)
Definition env_ok (env : Env) : Prop :=
  (forall l, Permutation (set_iter env l) l) /\
  (forall l, Permutation (record_iter env l) l).

(** ** Agent records as the spec types them *)

Definition is_str (v : value) : bool :=
  match v with VStr _ => true | _ => false end.
Definition is_num (v : value) : bool :=
  match v with VNum _ => true | _ => false end.
Definition is_str_list (v : value) : bool :=
  match v with VList l => forallb is_str l | _ => false end.

(** An absent field is well typed; a present one satisfies [p]. *)
Definition field (p : value -> bool) (k : string) (agent : dict value) : bool :=
  match agent !! k with
  | Some v => p v
  | None => true
  end.

(** The fields the ranker reads hold values of the types of the data model:
    strings, lists of strings, and a number for the load.  [last_seen] is
    free: any value is accepted there. *)
Definition well_typed (agent : dict value) : bool :=
  field is_str "agent_id" agent
  && field is_str_list "capabilities" agent
  && field is_str "domain" agent
  && field is_str_list "keywords" agent
  && field is_str "description" agent
  && field is_str "status" agent
  && field is_num "current_load" agent.

Definition in_unit (v : value) : bool :=
  match v with
  | VNum q => Qle_bool 0 q && Qle_bool q 1
  | _ => false
  end.
Definition non_negative (v : value) : bool :=
  match v with
  | VNum q => Qle_bool 0 q
  | _ => false
  end.

(** [current_load] lies in [0,1]. *)
Definition load_in_range (agent : dict value) : bool :=
  field in_unit "current_load" agent.

(** The metrics of a performance entry lie in their ranges: the two rates
    in [0,1], the response time not negative. *)
Definition metrics_in_range (perf : dict value) : bool :=
  field in_unit "success_rate" perf
  && field non_negative "avg_response_time" perf
  && field in_unit "reliability" perf.

Definition snapshot_in_range (performance_data : option (dict (dict value))) : bool :=
  match performance_data with
  | None => true
  | Some pd => forallb (fun e => metrics_in_range (snd e)) (map_to_list pd)
  end.

Definition total (l : list (string * Q)) : Q :=
  fold_right (fun e acc => (snd e + acc)%Q) 0%Q l.

(** ** Concrete records, tasks and registries *)

(** The sub-scores an [AgentScore] reports, in the order of its metadata. *)
Definition sub_score_names : list string :=
  [ "capability_score"; "domain_score"; "keyword_score";
    "performance_score"; "availability_score"; "load_score" ].

(** The scenario of the spec: agent [A] and its task. *)
Definition agent_A : dict value :=
  list_to_map
    [ ("capabilities", VList [VStr "nlp"; VStr "search"]);
      ("domain", VStr "technology");
      ("status", VStr "online");
      ("current_load", VNum 0.2) ].

(** Agent [A] registered under the id "A". *)
Definition agent_A_named : dict value := <["agent_id" := VStr "A"]> agent_A.

(** A performance snapshot with an entry for "A". *)
Definition snapshot_A : dict (dict value) :=
  list_to_map
    [ ("A", list_to_map [ ("success_rate", VNum 0.9);
                          ("avg_response_time", VNum 3);
                          ("reliability", VNum 0.95) ]) ].

Definition task_A : TaskAnalysis :=
  {| Task.task_type := "general";
     Task.domain := "technology";
     Task.complexity := "simple";
     Task.required_capabilities := ["nlp"; "search"];
     Task.keywords := ["search"];
     Task.confidence := 0.9 |}.

(** The metrics of every performance entry are numbers. *)
Definition metrics_typed (perf : dict value) : bool :=
  field is_num "success_rate" perf
  && field is_num "avg_response_time" perf
  && field is_num "reliability" perf.

Definition snapshot_typed (performance_data : option (dict (dict value))) : bool :=
  match performance_data with
  | None => true
  | Some pd => forallb (fun e => metrics_typed (snd e)) (map_to_list pd)
  end.

(** A score entry with the given name, score and confidence. *)
Definition entry (name : string) (s c : Q) : AgentScore :=
  {| agent_id := VStr name;
     score := s;
     confidence := c;
     match_reasons := [];
     metadata := [] |}.

Definition two_entries : list AgentScore :=
  [ entry "a" 0.9 0.9; entry "b" 0.8 0.9 ].

(** A record without a status, last seen at noon on 2024-01-01. *)
Definition agent_seen : dict value :=
  list_to_map
    [ ("agent_id", VStr "seen");
      ("last_seen", VStr "2024-01-01T12:00:00") ].

(** 2024-01-01T12:01:00 and 2024-01-03T12:00:00 on the clock of [env_at]. *)
Definition one_minute_later : Z := 63839707260000000%Z.
Definition two_days_later : Z := 63839880000000000%Z.

(** A task analysis of confidence 0. *)
Definition task_unsure : TaskAnalysis :=
  {| Task.task_type := "general";
     Task.domain := "general";
     Task.complexity := "simple";
     Task.required_capabilities := [];
     Task.keywords := [];
     Task.confidence := 0 |}.

(** Two records without list-valued fields, a registry whose searches find
    the first and whose listing holds both, a filter on the status and a task
    that triggers the keyword search only. *)
Definition agent_offline : dict value :=
  list_to_map [ ("agent_id", VStr "a1"); ("status", VStr "offline") ].

Definition agent_online : dict value :=
  list_to_map [ ("agent_id", VStr "a2"); ("status", VStr "online") ].

Definition registry_plain : RegistryClient :=
  {| search_agents := fun _ _ => [agent_offline];
     list_agents := [agent_offline; agent_online] |}.

Definition only_online : dict value :=
  list_to_map [ ("status", VStr "online") ].

Definition task_search : TaskAnalysis :=
  {| Task.task_type := "general";
     Task.domain := "general";
     Task.complexity := "simple";
     Task.required_capabilities := [];
     Task.keywords := ["search"];
     Task.confidence := 0.9 |}.

(** A registry that knows agent A, whose capabilities are a list. *)
Definition registry_A : RegistryClient :=
  {| search_agents := fun _ _ => [agent_A];
     list_agents := [agent_A] |}.

(** A second offline record, equal to [agent_offline] but for its id. *)
Definition agent_offline' : dict value :=
  list_to_map [ ("agent_id", VStr "a3"); ("status", VStr "offline") ].

(** A registry whose searches overlap: the capability search and the domain
    search both find [agent_online], the capability search and the keyword
    search both find [agent_offline]. *)
Definition registry_mixed : RegistryClient :=
  {| search_agents := fun query capabilities =>
       match capabilities with
       | Some _ => [agent_offline; agent_online]
       | None =>
           if String.eqb query "finance" then [agent_online; agent_offline']
           else [agent_offline]
       end;
     list_agents := [agent_offline; agent_online; agent_offline'] |}.

(** A task for which all three searches are made. *)
Definition task_mixed : TaskAnalysis :=
  {| Task.task_type := "general";
     Task.domain := "finance";
     Task.complexity := "simple";
     Task.required_capabilities := ["translate"];
     Task.keywords := ["search"];
     Task.confidence := 0.9 |}.
(** ** Reference definitions, written after the spec *)

(** An entry is retained when [score >= min_score] and [confidence >= 0.4]. *)
Definition retained (min_score : Q) (s : AgentScore) : bool :=
  Qle_bool min_score (score s) && Qle_bool 0.4%Q (confidence s).

(** [top_n]: walk the scores in order, keep the retained entries and stop
    once [limit] of them have been kept. *)
Fixpoint top_n (scores : list AgentScore) (limit : nat) (min_score : Q)
  : list AgentScore :=
  match scores with
  | [] => []
  | s :: rest =>
      match limit with
      | O => []
      | S n =>
          if retained min_score s then s :: top_n rest n min_score
          else top_n rest limit min_score
      end
  end.

(** Descending by key: every element has a key at least as large as the key
    of each element after it. *)
Definition key_ge {A} (key : A -> Q) (a b : A) : Prop := (key b <= key a)%Q.

Definition descending (l : list AgentScore) : Prop :=
  StronglySorted (key_ge score) l.

(** The entries of a list that have a given score, in the order of the list. *)
Definition with_score (q : Q) (l : list AgentScore) : list AgentScore :=
  List.filter (fun s => Qeq_bool (score s) q) l.

(** The domain score as the spec words it.  Two domains are synonyms of one
    cluster when some cluster lists both; a name and a synonym when some
    cluster is named by one and lists the other. *)
Definition same_cluster (d1 d2 : string) : bool :=
  existsb (fun c => Py.mem d1 (snd c) && Py.mem d2 (snd c)) related_domains.

Definition name_and_synonym (d1 d2 : string) : bool :=
  existsb (fun c => (String.eqb d1 (fst c) && Py.mem d2 (snd c))
                    || (String.eqb d2 (fst c) && Py.mem d1 (snd c)))
          related_domains.

Definition domain_score_spec (agent_domain task_domain : string) : Q :=
  if String.eqb task_domain "general" then 0.7%Q
  else if String.eqb agent_domain "" || String.eqb agent_domain "general" then 0.5%Q
  else if String.eqb agent_domain task_domain then 1.0%Q
  else if same_cluster agent_domain task_domain then 0.8%Q
  else if name_and_synonym agent_domain task_domain then 0.9%Q
  else 0.2%Q.

(** No cluster of a table is named by a synonym of a cluster of the table. *)
Definition names_apart (table : list (string * list string)) : bool :=
  forallb (fun c => forallb (fun c' => negb (Py.mem (fst c) (snd c'))) table) table.

(** The statuses the availability score recognises. *)
Definition recognised (status : string) : bool :=
  String.eqb status "offline" || String.eqb status "busy"
  || String.eqb status "available" || String.eqb status "online".

(** The metadata of a score reports the value [q] under [name]. *)
Definition reports (s : AgentScore) (name : string) (q : Q) : Prop :=
  exists v, Py.assoc name (metadata s) = Some v /\ (v == q)%Q.

(** The availability score of a record does not consult the clock: its
    status is recognised, or it has no [last_seen] to date. *)
Definition clock_free (agent : dict value) : bool :=
  match Py.get "status" (VStr "unknown") agent with
  | VStr st => recognised (Py.lower st)
  | _ => false
  end
  || negb (Py.truthy (Py.get_none "last_seen" agent)).

(** Two environments iterate sets of strings alike. *)
Definition same_iteration (env1 env2 : Env) : Prop :=
  forall l, set_iter env1 l = set_iter env2 l.

(** Two environments read the same clock and parse timestamps alike. *)
Definition same_clock (env1 env2 : Env) : Prop :=
  now env1 = now env2 /\ forall s, fromisoformat env1 s = fromisoformat env2 s.

(** A record passes the caller's filters: its status equals the wanted one,
    its id is not in the set of excluded ids, and its domain equals the
    wanted one up to case.  A filter that is absent lets every record pass. *)
Definition passes (filters : dict value) (a : dict value) : bool :=
  match filters !! "status" with
  | Some wanted => Py.py_eqb (Py.get_none "status" a) wanted
  | None => true
  end
  && match filters !! "exclude_agents" with
     | Some excluded =>
         match Py.iter excluded ≫= Py.set_of with
         | Ok exclude_set =>
             match Py.set_mem (Py.get_none "agent_id" a) exclude_set with
             | Ok b => negb b
             | Raise _ => false
             end
         | Raise _ => false
         end
     | None => true
     end
  && match filters !! "domain" with
     | Some d =>
         match Py.str_lower d, Py.str_lower (Py.get "domain" (VStr "") a) with
         | Ok wanted, Ok ad => String.eqb ad wanted
         | _, _ => false
         end
     | None => true
     end.

(** Candidate gathering as the spec words it: the deduplicated union of the
    query results, replaced by the full listing when it is empty, and the
    caller's filters applied to the candidates that are returned. *)
Definition gather_candidates_spec (env : Env) (registry : RegistryClient)
    (task : TaskAnalysis) (filters : option (dict value))
  : result (list (dict value)) :=
  agents ← gather registry task;
  let union : list (dict value) :=
    List.map (fun agent => list_to_map agent) (record_iter env agents) in
  let candidates :=
    match union with
    | [] => list_agents registry
    | _ => union
    end in
  match given filters with
  | Some f => Ok (List.filter (passes f) candidates)
  | None => Ok candidates
  end.

(** The records the searches of a task find, in the order of the queries. *)
Definition found (registry : RegistryClient) (task : TaskAnalysis)
  : list (dict value) :=
  match Task.required_capabilities task with
  | [] => []
  | caps => search_agents registry "" (Some caps)
  end
  ++ (if negb (String.eqb (Task.domain task) "")
         && negb (String.eqb (Task.domain task) "general")
      then search_agents registry (Task.domain task) None
      else [])
  ++ match Task.keywords task with
     | [] => []
     | kws => search_agents registry (Py.join " " (firstn 3 kws)) None
     end.

(** No member of a set of item tuples equals a member before it. *)
Definition distinct (agents : list (list (string * value))) : Prop :=
  forall l1 t l2, agents = l1 ++ t :: l2 -> existsb (Py.items_eqb t) l1 = false.

(** Splits a conjunction of boolean field tests into its parts. *)
Ltac split_fields H :=
  repeat (let H' := fresh "Hf" in
          apply andb_prop in H; destruct H as [H H']).

(** ** Reference definitions for the scorers *)

(** The required capabilities, without repetition, that a list of agent
    capabilities holds. *)
Definition covered (caps : list value) (required : list string) : list string :=
  List.filter (fun s => existsb (Py.py_eqb (VStr s)) caps) (Py.str_set required).

(** The task keywords, lower-cased and without repetition. *)
Definition task_words (task : TaskAnalysis) : list string :=
  Py.str_set (List.map Py.lower (Task.keywords task)).

(** The task keywords found among the agent's keywords or inside its
    description, all compared in lower case. *)
Definition keyword_hits (agent_keywords : list string) (description : string)
    (task : TaskAnalysis) : list string :=
  List.filter
    (fun k => Py.mem k (List.map Py.lower agent_keywords)
              || Py.contains k (Py.lower description))
    (task_words task).

(** The three metrics of a performance entry, with their defaults. *)
Definition has_metrics (perf : dict value) (success_rate avg_response_time reliability : Q)
  : Prop :=
  Py.get "success_rate" (VNum 0.7) perf = VNum success_rate
  /\ Py.get "avg_response_time" (VNum 5.0) perf = VNum avg_response_time
  /\ Py.get "reliability" (VNum 0.7) perf = VNum reliability.

(** The fields of a record that scoring reads. *)
Definition scored_fields : list string :=
  [ "agent_id"; "capabilities"; "domain"; "keywords"; "description";
    "status"; "last_seen"; "current_load" ].

(** Proves that a literal field name is one of [scored_fields]. *)
Ltac field_in := unfold scored_fields; simpl; tauto.

(** The five fields whose presence raises the confidence. *)
Definition described_by (agent : dict value) (k : string) : bool :=
  Py.truthy (Py.get_none k agent).

(** A record with keywords and a description, and a task with three
    keywords of which it matches two. *)
Definition agent_words : dict value :=
  list_to_map
    [ ("agent_id", VStr "w1");
      ("keywords", VList [VStr "Search"; VStr "NLP"]);
      ("description", VStr "Finds Documents fast") ].

Definition task_words3 : TaskAnalysis :=
  {| Task.task_type := "general";
     Task.domain := "general";
     Task.complexity := "simple";
     Task.required_capabilities := [];
     Task.keywords := ["search"; "document"; "translate"];
     Task.confidence := 0.9 |}.

(** Two performance entries for "A": the second is better on every metric. *)
Definition entry_slow : dict value :=
  list_to_map [ ("success_rate", VNum 0.5);
                ("avg_response_time", VNum 20);
                ("reliability", VNum 0.6) ].

Definition entry_fast : dict value :=
  list_to_map [ ("success_rate", VNum 0.9);
                ("avg_response_time", VNum 3);
                ("reliability", VNum 0.95) ].

(** Agent [A] with two fields that scoring does not read. *)
Definition agent_A_tagged : dict value :=
  <["agent_url" := VStr "http://localhost:6000"]>
    (<["tags" := VList [VStr "beta"]]> agent_A).

(** A record whose status is the JSON null. *)
Definition agent_null_status : dict value :=
  list_to_map [ ("agent_id", VStr "n1"); ("status", VNone) ].

(** Membership of a literal in a literal list, and its refutation. *)
Ltac in_list := simpl; repeat first [left; reflexivity | right].
Ltac not_in H :=
  simpl in H; repeat (destruct H as [H | H]; [try discriminate H |]);
  try contradiction.

(** The filters a caller can give are well formed: the excluded ids are a
    list of hashable values and the domain is a string. *)
Definition filters_typed (filters : dict value) : bool :=
  field (fun v => match v with
                  | VList l => forallb Py.hashable l
                  | _ => false
                  end) "exclude_agents" filters
  && field is_str "domain" filters.

(** A record can be filtered: its id is hashable and its domain a string. *)
Definition filterable (a : dict value) : bool :=
  field Py.hashable "agent_id" a && field is_str "domain" a.

(** Filters that exclude two ids and ask for a domain, and three records. *)
Definition filters_sample : dict value :=
  list_to_map [ ("exclude_agents", VList [VStr "a1"; VStr "a9"]);
                ("domain", VStr "Finance") ].

Definition agent_finance : dict value :=
  list_to_map [ ("agent_id", VStr "f1"); ("domain", VStr "FINANCE") ].

Definition agent_finance_excluded : dict value :=
  list_to_map [ ("agent_id", VStr "a1"); ("domain", VStr "finance") ].

(** A record whose id is a list. *)
Definition agent_list_id : dict value :=
  list_to_map [ ("agent_id", VList [VStr "x"]) ].

(** What a registry answers to the lookup of an agent, an analyzer that
    reads every description as [task_search], and a formatter that prints
    strings as they are. *)
Definition info_sample : dict value :=
  list_to_map [ ("agent_id", VStr "other");
                ("agent_url", VStr "http://localhost:6001");
                ("domain", VStr "finance");
                ("capabilities", VList [VStr "nlp"; VStr "search"]) ].

Definition analyze_sample (task_description : string) : TaskAnalysis := task_search.

Definition format_plain : Format :=
  {| str_of := fun v => match v with VStr s => s | _ => "?" end;
     fixed2 := fun _ => "0.00" |}.

(** ** Reference definitions for the registry client *)

(** A value that supports [in]: a list or a string. *)
Definition container (v : value) : bool :=
  match v with
  | VList _ | VStr _ => true
  | _ => false
  end.

(** The capabilities and tags of a record, when present, support [in]. *)
Definition searchable (a : dict value) : bool :=
  field container "capabilities" a && field container "tags" a.

(** The query occurs, whatever its case, in the id and description of the
    record, joined by a space; an empty query always does. *)
Definition query_matches (fmt : Format) (query : string) (a : dict value) : bool :=
  String.eqb query ""
  || Py.contains (Py.lower query)
       (Py.lower (str_of fmt (Py.get "agent_id" (VStr "") a) +:+ " "
                  +:+ str_of fmt (Py.get "description" (VStr "") a))).

(** One of the wanted strings is an element of the list, or a part of the
    string; no wanted strings, or an empty list of them, always match. *)
Definition has_any (wanted : option (list string)) (v : value) : bool :=
  match wanted with
  | None | Some [] => true
  | Some ws =>
      match v with
      | VList l => existsb (fun w => existsb (Py.py_eqb (VStr w)) l) ws
      | VStr s => existsb (fun w => Py.contains w s) ws
      | _ => false
      end
  end.

Definition matches_all (fmt : Format) (query : string)
    (capabilities tags : option (list string)) (a : dict value) : bool :=
  query_matches fmt query a
  && has_any capabilities (Py.get "capabilities" (VList []) a)
  && has_any tags (Py.get "tags" (VList []) a).

(** The search endpoint gave no usable answer. *)
Definition unanswered (search : Registry.outcome) : bool :=
  match search with
  | Registry.Reply status_code (Some _) => negb (status_code =? 200)%Z
  | _ => true
  end.

(** Three registered agents and a listing that holds them. *)
Definition agent_translator : dict value :=
  list_to_map [ ("agent_id", VStr "Translator-1");
                ("description", VStr "Translates documents");
                ("capabilities", VList [VStr "translate"; VStr "nlp"]) ].

Definition agent_null_caps : dict value :=
  list_to_map [ ("agent_id", VStr "legacy"); ("capabilities", VNone) ].

Definition listing_sample : Registry.outcome :=
  Registry.Reply 200 (Some [agent_translator; agent_offline; agent_A]).

Definition listing_legacy : Registry.outcome :=
  Registry.Reply 200 (Some [agent_translator; agent_null_caps]).

(** ** Facts about the built-ins *)

Section Builtins.

Lemma min_cases (a b : Q) :
  (Py.min a b = a /\ (a <= b)%Q) \/ (Py.min a b = b /\ (b < a)%Q).
Proof.
  unfold Py.min. destruct (Qle_bool a b) eqn:E.
  - left. split; [reflexivity | now apply Qle_bool_iff].
  - right. split; [reflexivity |]. apply Qnot_le_lt. intros H.
    apply Qle_bool_iff in H. congruence.
Qed.

Lemma max_cases (a b : Q) :
  (Py.max a b = a /\ (b <= a)%Q) \/ (Py.max a b = b /\ (a < b)%Q).
Proof.
  unfold Py.max. destruct (Qle_bool b a) eqn:E.
  - left. split; [reflexivity | now apply Qle_bool_iff].
  - right. split; [reflexivity |]. apply Qnot_le_lt. intros H.
    apply Qle_bool_iff in H. congruence.
Qed.

Lemma min_one_bounds (x : Q) : (0 <= x)%Q -> (0 <= Py.min 1.0 x <= 1)%Q.
Proof.
  intros Hx. destruct (min_cases 1.0 x) as [[-> H] | [-> H]]; lra.
Qed.

Lemma Qle_bool_false (a b : Q) : Qle_bool a b = false -> (b < a)%Q.
Proof.
  intros E. apply Qnot_le_lt. intros H. apply Qle_bool_iff in H. congruence.
Qed.

Lemma mem_In (s : string) (l : list string) : Py.mem s l = true <-> In s l.
Proof.
  unfold Py.mem. rewrite existsb_exists. split.
  - intros [x [Hx E]]. apply String.eqb_eq in E. now subst.
  - intros H. exists s. split; [assumption | apply String.eqb_refl].
Qed.

Lemma dedup_incl {A} (eqb : A -> A -> bool) (l : list A) (x : A) :
  In x (Py.dedup eqb l) -> In x l.
Proof.
  induction l as [| y l IH]; simpl; [tauto |].
  destruct (existsb (eqb y) l); simpl; intuition.
Qed.

Lemma str_set_In (l : list string) (x : string) : In x (Py.str_set l) <-> In x l.
Proof.
  unfold Py.str_set. split; [apply dedup_incl |].
  induction l as [| y l IH]; simpl; [tauto |].
  intros [-> | H].
  - destruct (existsb (String.eqb x) l) eqn:E.
    + apply IH. now apply mem_In.
    + now left.
  - destruct (existsb (String.eqb y) l); [| right]; now apply IH.
Qed.

Lemma str_set_NoDup (l : list string) : List.NoDup (Py.str_set l).
Proof.
  unfold Py.str_set. induction l as [| y l IH]; simpl; [constructor |].
  destruct (existsb (String.eqb y) l) eqn:E; [assumption |].
  constructor; [| assumption].
  intros H. apply dedup_incl in H. apply mem_In in H.
  unfold Py.mem in H. congruence.
Qed.

Lemma len_nonneg {A} (l : list A) : (0 <= Py.len l)%Q.
Proof.
  unfold Py.len. change 0%Q with (inject_Z 0). rewrite <- Zle_Qle. lia.
Qed.

Lemma len_pos {A} (l : list A) : l <> [] -> (0 < Py.len l)%Q.
Proof.
  intros H. unfold Py.len. change 0%Q with (inject_Z 0). rewrite <- Zlt_Qlt.
  destruct l; [congruence | simpl; lia].
Qed.

Lemma len_le {A B} (l : list A) (l' : list B) :
  (length l <= length l')%nat -> (Py.len l <= Py.len l')%Q.
Proof. intros H. unfold Py.len. rewrite <- Zle_Qle. lia. Qed.

(** A count divided by a larger, positive count is a fraction. *)
Lemma ratio_bounds {A B} (l : list A) (l' : list B) :
  l' <> [] -> (length l <= length l')%nat ->
  (0 <= Py.len l / Py.len l' <= 1)%Q.
Proof.
  intros Hne Hle. pose proof (len_pos l' Hne) as Hpos.
  pose proof (len_nonneg l) as H0. pose proof (len_le l l' Hle) as H1.
  split.
  - apply Qle_shift_div_l; [assumption | lra].
  - apply Qle_shift_div_r; [assumption | lra].
Qed.

Lemma ratio_full {A B} (l : list A) (l' : list B) :
  l' <> [] -> length l = length l' -> (Py.len l / Py.len l' == 1)%Q.
Proof.
  intros Hne E. pose proof (len_pos l' Hne) as Hpos.
  unfold Py.len in *. rewrite E. field. lra.
Qed.

End Builtins.
(** ** Reading typed fields *)

Section Fields.

Lemma get_field (p : value -> bool) (k : string) (dflt : value) (d : dict value) :
  field p k d = true -> p dflt = true -> p (Py.get k dflt d) = true.
Proof.
  unfold field, Py.get. destruct (d !! k); simpl; auto.
Qed.

Lemma is_str_inv (v : value) : is_str v = true -> exists s, v = VStr s.
Proof. destruct v; simpl; try discriminate. eauto. Qed.

Lemma is_num_inv (v : value) : is_num v = true -> exists q, v = VNum q.
Proof. destruct v; simpl; try discriminate. eauto. Qed.

Lemma is_str_list_inv (v : value) :
  is_str_list v = true -> exists l, v = VList l /\ forallb is_str l = true.
Proof. destruct v; simpl; try discriminate. eauto. Qed.

Lemma in_unit_inv (v : value) :
  in_unit v = true -> exists q, v = VNum q /\ (0 <= q <= 1)%Q.
Proof.
  destruct v; simpl; try discriminate. intros H.
  apply andb_prop in H. destruct H as [H0 H1].
  apply Qle_bool_iff in H0, H1. eauto.
Qed.

Lemma non_negative_inv (v : value) :
  non_negative v = true -> exists q, v = VNum q /\ (0 <= q)%Q.
Proof.
  destruct v; simpl; try discriminate. intros H.
  apply Qle_bool_iff in H. eauto.
Qed.

Lemma strings_hashable (l : list value) :
  forallb is_str l = true -> forallb Py.hashable l = true.
Proof.
  induction l as [| v l IH]; simpl; [reflexivity |].
  intros H. apply andb_prop in H. destruct H as [Hv Hl].
  rewrite (IH Hl). destruct v; simpl in *; congruence.
Qed.

Lemma for_each_lower (l : list value) :
  forallb is_str l = true -> exists ws, Py.for_each Py.str_lower l = Ok ws.
Proof.
  induction l as [| v l IH]; simpl; [eauto |].
  intros H. apply andb_prop in H. destruct H as [Hv Hl].
  destruct (is_str_inv v Hv) as [s ->]. destruct (IH Hl) as [ws ->].
  simpl. eauto.
Qed.

End Fields.

(** ** The capability score *)

Section Capabilities.

Lemma py_eqb_str (s : string) (v : value) :
  Py.py_eqb (VStr s) v = true -> v = VStr s.
Proof.
  destruct v; simpl; try discriminate.
  intros H. apply String.eqb_eq in H. now subst.
Qed.

Lemma intersection_incl (vs : list value) (ss : list string) (s : string) :
  In s (intersection vs ss) -> In s ss /\ In (VStr s) vs.
Proof.
  unfold intersection. rewrite filter_In, existsb_exists.
  intros [Hs [v [Hv E]]]. apply py_eqb_str in E. subst. auto.
Qed.

Lemma intersection_length_req (vs : list value) (ss : list string) :
  (length (intersection vs ss) <= length ss)%nat.
Proof. unfold intersection. apply List.filter_length_le. Qed.

Lemma intersection_length_caps (vs : list value) (ss : list string) :
  List.NoDup ss -> (length (intersection vs ss) <= length vs)%nat.
Proof.
  intros Hnd. rewrite <- (List.length_map VStr).
  apply List.NoDup_incl_length.
  - apply Finite.Injective_map_NoDup.
    + intros a b E. congruence.
    + unfold intersection. now apply List.NoDup_filter.
  - intros v Hv. apply in_map_iff in Hv. destruct Hv as [s [<- Hs]].
    now apply intersection_incl in Hs.
Qed.

(** Whenever the capability field can be made a set, the score is a value
    of [0,1]. *)
Lemma score_capabilities_range env agent task reasons l :
  Py.get "capabilities" (VList []) agent = VList l ->
  forallb Py.hashable l = true ->
  exists q reasons',
    _score_capabilities env agent task reasons = Ok (q, reasons')
    /\ (0 <= q <= 1)%Q.
Proof.
  intros Hget Hhash. unfold _score_capabilities. rewrite Hget. simpl.
  unfold Py.set_of. rewrite Hhash. simpl.
  pose proof (str_set_NoDup (Task.required_capabilities task)) as Hnd.
  set (req := Py.str_set (Task.required_capabilities task)) in *.
  set (caps := Py.dedup Py.py_eqb l).
  destruct req as [| r0 req'] eqn:Ereq; [do 2 eexists; split; [reflexivity | lra] |].
  destruct caps as [| c0 caps'] eqn:Ecaps; [do 2 eexists; split; [reflexivity | lra] |].
  rewrite <- Ereq, <- Ecaps.
  assert (Hne : req <> []) by (rewrite Ereq; discriminate).
  set (matching := intersection caps req).
  pose proof (intersection_length_req caps req) as Hle. fold matching in Hle.
  pose proof (ratio_bounds matching req Hne Hle) as Hratio.
  do 2 eexists. split; [reflexivity |].
  apply min_one_bounds.
  destruct (length matching =? length req)%nat eqn:Elen; [| lra].
  apply Nat.eqb_eq in Elen.
  assert (Hcaps : (length req <= length caps)%nat).
  { rewrite <- Elen. apply intersection_length_caps. now rewrite Ereq. }
  assert (Hextra : (0 <= inject_Z (Z.of_nat (length caps) - Z.of_nat (length req)))%Q).
  { change 0%Q with (inject_Z 0). rewrite <- Zle_Qle. lia. }
  destruct (min_cases 0.2 (inject_Z (Z.of_nat (length caps) - Z.of_nat (length req)) * 0.05))
    as [[-> _] | [-> _]]; lra.
Qed.

End Capabilities.
(** ** The other five scores *)

Section Scores.

Lemma domain_similarity_values table d1 d2 :
  let q := domain_similarity_loop table d1 d2 in
  q = 0.8%Q \/ q = 0.9%Q \/ q = 0.2%Q.
Proof.
  induction table as [| [main related] table IH]; simpl; [auto |].
  destruct (Py.mem d1 related && Py.mem d2 related); [auto |].
  destruct ((String.eqb d1 main && Py.mem d2 related)
            || (String.eqb d2 main && Py.mem d1 related)); auto.
Qed.

Lemma score_domain_range agent task reasons s :
  Py.get "domain" (VStr "") agent = VStr s ->
  exists q reasons',
    _score_domain agent task reasons = Ok (q, reasons') /\ (0 <= q <= 1)%Q.
Proof.
  intros Hget. unfold _score_domain. rewrite Hget. simpl.
  destruct (String.eqb (Py.lower (Task.domain task)) "general");
    [do 2 eexists; split; [reflexivity | lra] |].
  destruct (String.eqb (Py.lower s) "" || String.eqb (Py.lower s) "general");
    [do 2 eexists; split; [reflexivity | lra] |].
  destruct (String.eqb (Py.lower s) (Py.lower (Task.domain task)));
    [do 2 eexists; split; [reflexivity | lra] |].
  do 2 eexists. split; [reflexivity |].
  unfold _calculate_domain_similarity.
  destruct (domain_similarity_values related_domains (Py.lower s)
              (Py.lower (Task.domain task))) as [-> | [-> | ->]]; lra.
Qed.

Lemma union_length (a b ks : list string) :
  incl a ks -> incl b ks -> List.NoDup ks ->
  (length (union a b) <= length ks)%nat.
Proof.
  intros Ha Hb _. unfold union. apply List.NoDup_incl_length.
  - apply str_set_NoDup.
  - intros x Hx. apply (proj1 (str_set_In _ _)) in Hx. apply in_app_or in Hx.
    destruct Hx; auto.
Qed.

Lemma score_keywords_range env agent task reasons l :
  Py.get "keywords" (VList []) agent = VList l ->
  forallb is_str l = true ->
  is_str (Py.get "description" (VStr "") agent) = true ->
  exists q reasons',
    _score_keywords env agent task reasons = Ok (q, reasons') /\ (0 <= q <= 1)%Q.
Proof.
  intros Hget Hstr Hdesc. unfold _score_keywords, lowered_set.
  rewrite Hget. simpl.
  destruct (for_each_lower l Hstr) as [ws ->]. simpl.
  destruct (is_str_inv _ Hdesc) as [d ->]. simpl.
  pose proof (str_set_NoDup (List.map Py.lower (Task.keywords task))) as Hnd.
  set (tk := Py.str_set (List.map Py.lower (Task.keywords task))) in *.
  destruct tk as [| k0 tk'] eqn:Etk; [do 2 eexists; split; [reflexivity | lra] |].
  rewrite <- Etk.
  assert (Hne : tk <> []) by (rewrite Etk; discriminate).
  do 2 eexists. split; [reflexivity |].
  apply min_one_bounds. apply ratio_bounds; [assumption |].
  apply union_length; [| | now rewrite Etk];
    intros x Hx; apply filter_In in Hx; tauto.
Qed.

Lemma snapshot_entry (pd : dict (dict value)) (k : string) (perf : dict value) :
  snapshot_in_range (Some pd) = true -> pd !! k = Some perf ->
  metrics_in_range perf = true.
Proof.
  simpl. intros Hall Hk. rewrite forallb_forall in Hall.
  apply (Hall (k, perf)). apply list_elem_of_In.
  now apply elem_of_map_to_list.
Qed.

Lemma score_performance_range agent pd :
  field is_str "agent_id" agent = true ->
  snapshot_in_range pd = true ->
  exists q, _score_performance agent pd = Ok q /\ (0 <= q <= 1)%Q.
Proof.
  intros Hid Hpd. unfold _score_performance.
  destruct pd as [pd |]; [| eexists; split; [reflexivity | lra]].
  destruct (Py.is_empty pd); [eexists; split; [reflexivity | lra] |].
  assert (Hlook : exists o, Py.lookup_value (Py.get_none "agent_id" agent) pd = Ok o
                            /\ (forall perf, o = Some perf -> exists k, pd !! k = Some perf)).
  { unfold Py.get_none, Py.get, field in *.
    destruct (agent !! "agent_id") as [v |]; simpl.
    - destruct (is_str_inv v Hid) as [s ->]. simpl. eexists. split; [reflexivity |].
      intros perf E. eauto.
    - eexists. split; [reflexivity |]. discriminate. }
  destruct Hlook as [o [-> Ho]]. simpl.
  destruct o as [perf |]; [| eexists; split; [reflexivity | lra]].
  destruct (Ho perf eq_refl) as [k Hk].
  pose proof (snapshot_entry pd k perf Hpd Hk) as Hm.
  unfold metrics_in_range in Hm.
  apply andb_prop in Hm. destruct Hm as [Hm Hrel].
  apply andb_prop in Hm. destruct Hm as [Hsucc Htime].
  apply (get_field _ _ (VNum 0.7)) in Hsucc; [| reflexivity].
  apply (get_field _ _ (VNum 5.0)) in Htime; [| reflexivity].
  apply (get_field _ _ (VNum 0.7)) in Hrel; [| reflexivity].
  destruct (in_unit_inv _ Hsucc) as [sr [-> Hsr]].
  destruct (non_negative_inv _ Htime) as [t [-> Ht]].
  destruct (in_unit_inv _ Hrel) as [rel [-> Hrel']].
  simpl. eexists. split; [reflexivity |].
  apply min_one_bounds.
  destruct (max_cases 0.0 (1.0 - t / 30.0)) as [[-> H] | [-> H]]; lra.
Qed.

(** The availability score is one of six constants. *)
Lemma score_availability_values env agent s :
  Py.get "status" (VStr "unknown") agent = VStr s ->
  exists q, _score_availability env agent = Ok q
    /\ (q = 0.0 \/ q = 0.3 \/ q = 1.0 \/ q = 0.8 \/ q = 0.5 \/ q = 0.2)%Q.
Proof.
  intros Hget. unfold _score_availability. rewrite Hget. simpl.
  repeat match goal with
         | |- context [if ?b then _ else _] => destruct b
         | |- context [match ?o with Some _ => _ | None => _ end] => destruct o
         end; eexists; split; try reflexivity; tauto.
Qed.

Lemma score_availability_range env agent s :
  Py.get "status" (VStr "unknown") agent = VStr s ->
  exists q, _score_availability env agent = Ok q /\ (0 <= q <= 1)%Q.
Proof.
  intros Hget. destruct (score_availability_values env agent s Hget) as [q [E H]].
  exists q. split; [assumption |].
  destruct H as [-> | [-> | [-> | [-> | [-> | ->]]]]]; lra.
Qed.

Lemma score_load_range agent :
  load_in_range agent = true ->
  exists q, _score_load agent = Ok q /\ (0 <= q <= 1)%Q.
Proof.
  intros H. unfold load_in_range in H.
  apply (get_field _ _ (VNum 0.5)) in H; [| reflexivity].
  destruct (in_unit_inv _ H) as [q [E Hq]].
  unfold _score_load. rewrite E. simpl. eexists. split; [reflexivity | lra].
Qed.

End Scores.

(** ** The combined score *)

Section Combined.

Lemma field_weaken (p p' : value -> bool) k (d : dict value) :
  (forall v, p v = true -> p' v = true) ->
  field p k d = true -> field p' k d = true.
Proof. unfold field. destruct (d !! k); auto. Qed.

Lemma in_unit_num v : in_unit v = true -> is_num v = true.
Proof. destruct v; simpl; congruence. Qed.

Lemma non_negative_num v : non_negative v = true -> is_num v = true.
Proof. destruct v; simpl; congruence. Qed.

Lemma metrics_in_range_typed perf :
  metrics_in_range perf = true -> metrics_typed perf = true.
Proof.
  unfold metrics_in_range, metrics_typed. intros H. split_fields H.
  rewrite (field_weaken _ _ _ _ in_unit_num H).
  rewrite (field_weaken _ _ _ _ non_negative_num Hf0).
  now rewrite (field_weaken _ _ _ _ in_unit_num Hf).
Qed.

Lemma snapshot_in_range_typed pd :
  snapshot_in_range pd = true -> snapshot_typed pd = true.
Proof.
  destruct pd as [pd |]; simpl; [| reflexivity].
  rewrite !forallb_forall. intros H e He.
  apply metrics_in_range_typed. now apply H.
Qed.

Lemma load_in_range_typed agent :
  load_in_range agent = true -> field is_num "current_load" agent = true.
Proof. apply field_weaken, in_unit_num. Qed.

Lemma score_performance_total agent pd :
  field is_str "agent_id" agent = true ->
  snapshot_typed pd = true ->
  exists q, _score_performance agent pd = Ok q.
Proof.
  intros Hid Hpd. unfold _score_performance.
  destruct pd as [pd |]; [| eauto].
  destruct (Py.is_empty pd); [eauto |].
  assert (Hlook : exists o, Py.lookup_value (Py.get_none "agent_id" agent) pd = Ok o
                            /\ (forall perf, o = Some perf -> exists k, pd !! k = Some perf)).
  { unfold Py.get_none, Py.get, field in *.
    destruct (agent !! "agent_id") as [v |]; simpl.
    - destruct (is_str_inv v Hid) as [s ->]. simpl. eexists. split; [reflexivity |].
      intros perf E. eauto.
    - eexists. split; [reflexivity |]. discriminate. }
  destruct Hlook as [o [-> Ho]]. simpl.
  destruct o as [perf |]; [| eauto].
  destruct (Ho perf eq_refl) as [k Hk].
  assert (Hm : metrics_typed perf = true).
  { simpl in Hpd. rewrite forallb_forall in Hpd.
    apply (Hpd (k, perf)). apply list_elem_of_In. now apply elem_of_map_to_list. }
  unfold metrics_typed in Hm. split_fields Hm.
  apply (get_field _ _ (VNum 0.7)) in Hm; [| reflexivity].
  apply (get_field _ _ (VNum 5.0)) in Hf0; [| reflexivity].
  apply (get_field _ _ (VNum 0.7)) in Hf; [| reflexivity].
  destruct (is_num_inv _ Hm) as [sr ->].
  destruct (is_num_inv _ Hf0) as [t ->].
  destruct (is_num_inv _ Hf) as [rel ->].
  simpl. eauto.
Qed.

(** The result of [_score_agent] once its six scorers have answered. *)
Lemma score_agent_eq env agent task pd q1 r1 q2 r2 q3 r3 q4 q5 q6 :
  _score_capabilities env agent task [] = Ok (q1, r1) ->
  _score_domain agent task r1 = Ok (q2, r2) ->
  _score_keywords env agent task r2 = Ok (q3, r3) ->
  _score_performance agent pd = Ok q4 ->
  _score_availability env agent = Ok q5 ->
  _score_load agent = Ok q6 ->
  _score_agent env agent task pd =
  Ok {| agent_id := Py.get "agent_id" (VStr "unknown") agent;
        score := (q1 * 0.35 + q2 * 0.25 + q3 * 0.20 + q4 * 0.10
                  + q5 * 0.05 + q6 * 0.05)%Q;
        confidence := _calculate_confidence agent task;
        match_reasons := r3;
        metadata := [ ("capability_score", q1); ("domain_score", q2);
                      ("keyword_score", q3); ("performance_score", q4);
                      ("availability_score", q5); ("load_score", q6) ] |}.
Proof.
  intros E1 E2 E3 E4 E5 E6. unfold _score_agent.
  rewrite E1. simpl. rewrite E2. simpl. rewrite E3. simpl.
  rewrite E4. simpl. rewrite E5. simpl. rewrite E6. reflexivity.
Qed.

(** Conversely, a result of [_score_agent] comes from six answers. *)
Lemma score_agent_inv env agent task pd s :
  _score_agent env agent task pd = Ok s ->
  exists q1 r1 q2 r2 q3 r3 q4 q5 q6,
    _score_capabilities env agent task [] = Ok (q1, r1)
    /\ _score_domain agent task r1 = Ok (q2, r2)
    /\ _score_keywords env agent task r2 = Ok (q3, r3)
    /\ _score_performance agent pd = Ok q4
    /\ _score_availability env agent = Ok q5
    /\ _score_load agent = Ok q6.
Proof.
  unfold _score_agent. intros H.
  destruct (_score_capabilities env agent task []) as [[q1 r1] |] eqn:E1;
    [| discriminate].
  simpl in H.
  destruct (_score_domain agent task r1) as [[q2 r2] |] eqn:E2; [| discriminate].
  simpl in H.
  destruct (_score_keywords env agent task r2) as [[q3 r3] |] eqn:E3;
    [| discriminate].
  simpl in H.
  destruct (_score_performance agent pd) as [q4 |] eqn:E4; [| discriminate].
  simpl in H.
  destruct (_score_availability env agent) as [q5 |] eqn:E5; [| discriminate].
  simpl in H.
  destruct (_score_load agent) as [q6 |] eqn:E6; [| discriminate].
  exists q1, r1, q2, r2, q3, r3, q4, q5, q6. auto 10.
Qed.

Lemma well_typed_fields agent :
  well_typed agent = true ->
  field is_str "agent_id" agent = true
  /\ (exists caps, Py.get "capabilities" (VList []) agent = VList caps
                   /\ forallb is_str caps = true)
  /\ (exists d, Py.get "domain" (VStr "") agent = VStr d)
  /\ (exists kws, Py.get "keywords" (VList []) agent = VList kws
                  /\ forallb is_str kws = true)
  /\ is_str (Py.get "description" (VStr "") agent) = true
  /\ (exists st, Py.get "status" (VStr "unknown") agent = VStr st)
  /\ field is_num "current_load" agent = true.
Proof.
  intros Hwt. unfold well_typed in Hwt. split_fields Hwt.
  rename Hwt into Hid, Hf4 into Hcaps, Hf3 into Hdom, Hf2 into Hkw,
         Hf1 into Hdesc, Hf0 into Hstatus, Hf into Hload.
  apply (get_field _ _ (VList [])) in Hcaps; [| reflexivity].
  apply (get_field _ _ (VStr "")) in Hdom; [| reflexivity].
  apply (get_field _ _ (VList [])) in Hkw; [| reflexivity].
  apply (get_field _ _ (VStr "")) in Hdesc; [| reflexivity].
  apply (get_field _ _ (VStr "unknown")) in Hstatus; [| reflexivity].
  repeat split; auto using is_str_list_inv, is_str_inv.
Qed.

(** A well-typed record is scored without an exception, in every
    environment and against every well-typed snapshot. *)
Lemma score_agent_total env agent task pd :
  well_typed agent = true -> snapshot_typed pd = true ->
  exists s, _score_agent env agent task pd = Ok s.
Proof.
  intros Hwt Hpd.
  destruct (well_typed_fields agent Hwt)
    as (Hid & (caps & Ecaps & Hcs) & (d & Ed) & (kws & Ekws & Hks) & Hdesc
        & (st & Est) & Hload).
  destruct (score_capabilities_range env agent task [] caps Ecaps
              (strings_hashable _ Hcs)) as [q1 [r1 [E1 _]]].
  destruct (score_domain_range agent task r1 d Ed) as [q2 [r2 [E2 _]]].
  destruct (score_keywords_range env agent task r2 kws Ekws Hks Hdesc)
    as [q3 [r3 [E3 _]]].
  destruct (score_performance_total agent pd Hid Hpd) as [q4 E4].
  destruct (score_availability_range env agent st Est) as [q5 [E5 _]].
  assert (E6 : exists q6, _score_load agent = Ok q6).
  { apply (get_field _ _ (VNum 0.5)) in Hload; [| reflexivity].
    destruct (is_num_inv _ Hload) as [q E]. unfold _score_load. rewrite E.
    simpl. eauto. }
  destruct E6 as [q6 E6].
  rewrite (score_agent_eq _ _ _ _ _ _ _ _ _ _ _ _ _ E1 E2 E3 E4 E5 E6). eauto.
Qed.

End Combined.

(** C1. For every well-typed agent record whose [current_load] lies in
    [0,1], every task analysis and every performance snapshot whose metrics
    lie in their ranges, [_score_agent] returns a score; each of the six
    sub-scores it reports lies in [0,1]; the six weights sum to exactly 1;
    and the combined score lies in [0,1]. *)
Theorem score_agent_bounds env agent task pd :
  well_typed agent = true ->
  load_in_range agent = true ->
  snapshot_in_range pd = true ->
  exists s,
    _score_agent env agent task pd = Ok s
    /\ List.map fst (metadata s) = sub_score_names
    /\ (forall k v, In (k, v) (metadata s) -> (0 <= v <= 1)%Q)
    /\ length weights = 6%nat
    /\ (total weights == 1)%Q
    /\ (0 <= score s <= 1)%Q.
Proof.
  intros Hwt Hload Hpd.
  destruct (well_typed_fields agent Hwt)
    as (Hid & (caps & Ecaps & Hcs) & (d & Ed) & (kws & Ekws & Hks) & Hdesc
        & (st & Est) & _).
  destruct (score_capabilities_range env agent task [] caps Ecaps
              (strings_hashable _ Hcs)) as [q1 [r1 [E1 B1]]].
  destruct (score_domain_range agent task r1 d Ed) as [q2 [r2 [E2 B2]]].
  destruct (score_keywords_range env agent task r2 kws Ekws Hks Hdesc)
    as [q3 [r3 [E3 B3]]].
  destruct (score_performance_range agent pd Hid Hpd) as [q4 [E4 B4]].
  destruct (score_availability_range env agent st Est) as [q5 [E5 B5]].
  destruct (score_load_range agent Hload) as [q6 [E6 B6]].
  eexists. split; [apply (score_agent_eq _ _ _ _ _ _ _ _ _ _ _ _ _ E1 E2 E3 E4 E5 E6) |].
  simpl. split; [reflexivity |]. split.
  - intros k v H.
    repeat (destruct H as [H | H]; [injection H as _ <-; assumption |]).
    destruct H.
  - split; [reflexivity |]. split; [reflexivity |]. lra.
Qed.

Lemma score_agent_bounds_witness :
  well_typed agent_A_named = true
  /\ load_in_range agent_A_named = true
  /\ snapshot_in_range (Some snapshot_A) = true
  /\ exists s,
       _score_agent (env_at 0) agent_A_named task_A (Some snapshot_A) = Ok s
       /\ List.map fst (metadata s) = sub_score_names
       /\ (forall k v, In (k, v) (metadata s) -> (0 <= v <= 1)%Q)
       /\ length weights = 6%nat
       /\ (total weights == 1)%Q
       /\ (0 <= score s <= 1)%Q.
Proof.
  split; [vm_compute; reflexivity |].
  split; [vm_compute; reflexivity |].
  split; [vm_compute; reflexivity |].
  apply (score_agent_bounds (env_at 0) agent_A_named task_A (Some snapshot_A));
    vm_compute; reflexivity.
Defined.

(** With the snapshot, the performance score of A is 0.91 and the combined
    score 0.781. *)
Example score_agent_with_snapshot :
  exists s,
    _score_agent (env_at 0) agent_A_named task_A (Some snapshot_A) = Ok s
    /\ reports s "performance_score" 0.91
    /\ (score s == 0.781)%Q.
Proof.
  eexists. split; [vm_compute; reflexivity |].
  split; [eexists; split; reflexivity | reflexivity].
Qed.

(** ** Filtering the recommendations *)

Section TopN.

Lemma top_n_filter scores limit min_score :
  top_n scores limit min_score
  = firstn limit (List.filter (retained min_score) scores).
Proof.
  revert limit. induction scores as [| s rest IH]; intros limit.
  - simpl. now rewrite firstn_nil.
  - simpl. destruct limit as [| n].
    + reflexivity.
    + destruct (retained min_score s); simpl; [now rewrite IH | apply IH].
Qed.

Lemma firstn_incl {A} (n : nat) (l : list A) (x : A) :
  In x (firstn n l) -> In x l.
Proof.
  revert n. induction l as [| y l IH]; intros [| n]; simpl; try tauto.
  intros [-> | H]; [now left | right; eauto].
Qed.

Lemma top_n_retained scores limit min_score s :
  In s (top_n scores limit min_score) ->
  (min_score <= score s)%Q /\ (0.4 <= confidence s)%Q.
Proof.
  rewrite top_n_filter. intros H. apply firstn_incl in H.
  apply filter_In in H. destruct H as [_ H]. unfold retained in H.
  apply andb_prop in H. destruct H as [H1 H2].
  split; now apply Qle_bool_iff.
Qed.

Lemma get_top_recommendations_prefix scores limit min_score :
  exists k, get_top_recommendations scores limit min_score
            = top_n scores k min_score.
Proof.
  unfold get_top_recommendations, Py.slice_to.
  destruct (0 <=? limit)%Z; eexists; rewrite top_n_filter; reflexivity.
Qed.

End TopN.

(** C2 (amended). For every list of scores and every [min_score]: with a
    limit that is not negative, [get_top_recommendations] returns exactly the
    entries with [score >= min_score] and [confidence >= 0.4], in their
    original order, cut to the first [limit] of them; with any limit, also a
    negative one, it returns a prefix of those entries, so that no returned
    entry has [confidence < 0.4] or [score < min_score]. *)
Theorem get_top_recommendations_spec scores limit min_score :
  ((0 <= limit)%Z ->
   get_top_recommendations scores limit min_score
   = top_n scores (Z.to_nat limit) min_score)
  /\ (exists k, get_top_recommendations scores limit min_score
                = top_n scores k min_score)
  /\ (forall s, In s (get_top_recommendations scores limit min_score) ->
                (min_score <= score s)%Q /\ (0.4 <= confidence s)%Q).
Proof.
  split; [| split].
  - intros Hl. unfold get_top_recommendations, Py.slice_to.
    apply Z.leb_le in Hl. rewrite Hl. now rewrite top_n_filter.
  - apply get_top_recommendations_prefix.
  - intros s. destruct (get_top_recommendations_prefix scores limit min_score)
      as [k ->]. apply top_n_retained.
Qed.

Lemma get_top_recommendations_spec_witness :
  (0 <= 1)%Z
  /\ get_top_recommendations two_entries 1 0.3
     = top_n two_entries (Z.to_nat 1) 0.3.
Proof.
  split; [lia |].
  apply (proj1 (get_top_recommendations_spec two_entries 1 0.3)). lia.
Defined.

(** With the limit -1 the slice drops the last retained entry instead of
    keeping none. *)
Lemma get_top_recommendations_negative_limit :
  get_top_recommendations two_entries (-1) 0 = [entry "a" 0.9 0.9]
  /\ get_top_recommendations two_entries (-1) 0
     <> top_n two_entries (Z.to_nat (-1)) 0.
Proof. split; [reflexivity | vm_compute; discriminate]. Qed.

(** ** Ranking *)

Section Sorting.

Context {A : Type} (key : A -> Q).

Lemma insert_desc_perm (x : A) (l : list A) :
  Permutation (x :: l) (Py.insert_desc key x l).
Proof.
  induction l as [| y l IH]; simpl; [reflexivity |].
  destruct (Qle_bool (key y) (key x)); [reflexivity |].
  rewrite perm_swap. now constructor.
Qed.

Lemma sort_desc_perm (l : list A) : Permutation l (Py.sort_desc key l).
Proof.
  induction l as [| x l IH]; simpl; [reflexivity |].
  rewrite <- insert_desc_perm. now constructor.
Qed.

Lemma insert_desc_sorted (x : A) (l : list A) :
  StronglySorted (key_ge key) l -> StronglySorted (key_ge key) (Py.insert_desc key x l).
Proof.
  induction 1 as [| y l Hs IH Hy]; simpl.
  - repeat constructor.
  - destruct (Qle_bool (key y) (key x)) eqn:E.
    + apply Qle_bool_iff in E. constructor; [now constructor |].
      constructor; [exact E |].
      apply List.Forall_impl with (P := key_ge key y); [| exact Hy].
      intros z Hz. unfold key_ge in *. lra.
    + apply Qle_bool_false in E. constructor; [exact IH |].
      apply (Permutation_Forall (insert_desc_perm x l)).
      constructor; [unfold key_ge; lra | exact Hy].
Qed.

Lemma sort_desc_sorted (l : list A) : StronglySorted (key_ge key) (Py.sort_desc key l).
Proof.
  induction l as [| x l IH]; simpl; [constructor | now apply insert_desc_sorted].
Qed.

(** Inserting keeps the order of the elements that share a key. *)
Lemma insert_desc_stable (q : Q) (x : A) (l : list A) :
  List.filter (fun a => Qeq_bool (key a) q) (Py.insert_desc key x l)
  = List.filter (fun a => Qeq_bool (key a) q) (x :: l).
Proof.
  induction l as [| y l IH]; [reflexivity |].
  simpl. destruct (Qle_bool (key y) (key x)) eqn:E; [reflexivity |].
  apply Qle_bool_false in E. simpl in *. rewrite IH.
  destruct (Qeq_bool (key x) q) eqn:Ex; [| reflexivity].
  destruct (Qeq_bool (key y) q) eqn:Ey; [| reflexivity].
  apply Qeq_bool_iff in Ex, Ey. lra.
Qed.

Lemma sort_desc_stable (q : Q) (l : list A) :
  List.filter (fun a => Qeq_bool (key a) q) (Py.sort_desc key l)
  = List.filter (fun a => Qeq_bool (key a) q) l.
Proof.
  induction l as [| x l IH]; [reflexivity |].
  simpl Py.sort_desc. rewrite insert_desc_stable. simpl. now rewrite IH.
Qed.

End Sorting.

Section Ranking.

Lemma for_each_Forall2 {A B} (f : A -> result B) (l : list A) (ys : list B) :
  Py.for_each f l = Ok ys <-> List.Forall2 (fun x y => f x = Ok y) l ys.
Proof.
  revert ys. induction l as [| x l IH]; intros ys; simpl.
  - split.
    + intros E. injection E as <-. constructor.
    + intros H. inversion H. reflexivity.
  - split.
    + intros E. destruct (f x) as [y |] eqn:Ex; [| discriminate]. simpl in E.
      destruct (Py.for_each f l) as [ys' |] eqn:El; [| discriminate].
      injection E as <-. constructor; [exact Ex | now apply IH].
    + intros H. inversion H as [| x' y l' ys' Ex Hl]; subst.
      rewrite Ex. simpl. apply IH in Hl. rewrite Hl. reflexivity.
Qed.

Lemma for_each_total {A B} (f : A -> result B) (l : list A) :
  List.Forall (fun x => exists y, f x = Ok y) l ->
  exists ys, Py.for_each f l = Ok ys.
Proof.
  induction 1 as [| x l [y Ey] _ [ys Eys]]; simpl; [eauto |].
  rewrite Ey. simpl. rewrite Eys. simpl. eauto.
Qed.

(** What [rank_agents] returns, whenever it returns. *)
Lemma rank_agents_inv env agents task pd ranked :
  rank_agents env agents task pd = Ok ranked ->
  exists scores,
    List.Forall2 (fun a s => _score_agent env a task pd = Ok s) agents scores
    /\ ranked = Py.sort_desc score scores.
Proof.
  unfold rank_agents. intros H.
  destruct (Py.for_each _ agents) as [scores |] eqn:E; [| discriminate].
  injection H as <-. exists scores. split; [| reflexivity].
  now apply for_each_Forall2.
Qed.

Lemma rank_agents_total env agents task pd :
  List.Forall (fun a => well_typed a = true) agents ->
  snapshot_typed pd = true ->
  exists ranked, rank_agents env agents task pd = Ok ranked.
Proof.
  intros Hwt Hpd. unfold rank_agents.
  destruct (for_each_total
              (fun agent => _score_agent env agent task pd) agents) as [scores ->].
  - apply List.Forall_impl with (2 := Hwt). intros a Ha.
    now apply score_agent_total.
  - simpl. eauto.
Qed.

End Ranking.

(** C3. For every list of well-typed agent records, every task analysis and
    every well-typed performance snapshot, [rank_agents] returns a list that
    is a permutation of the per-agent scores, sorted descending by score, in
    which the entries of equal score keep the relative order their agents
    had in the input. *)
Theorem rank_agents_sorted_stable env agents task pd :
  List.Forall (fun a => well_typed a = true) agents ->
  snapshot_typed pd = true ->
  exists scores ranked,
    List.Forall2 (fun a s => _score_agent env a task pd = Ok s) agents scores
    /\ rank_agents env agents task pd = Ok ranked
    /\ Permutation scores ranked
    /\ descending ranked
    /\ (forall q, with_score q ranked = with_score q scores).
Proof.
  intros Hwt Hpd.
  destruct (rank_agents_total env agents task pd Hwt Hpd) as [ranked Hr].
  destruct (rank_agents_inv _ _ _ _ _ Hr) as [scores [Hs ->]].
  exists scores, (Py.sort_desc score scores).
  split; [exact Hs |]. split; [exact Hr |].
  split; [apply sort_desc_perm |].
  split; [apply sort_desc_sorted |].
  intros q. apply sort_desc_stable.
Qed.

Lemma rank_agents_sorted_stable_witness :
  List.Forall (fun a => well_typed a = true)
              [agent_offline; agent_online; agent_offline'; agent_A]
  /\ snapshot_typed None = true
  /\ exists scores ranked,
       List.Forall2 (fun a s => _score_agent (env_at 0) a task_A None = Ok s)
                    [agent_offline; agent_online; agent_offline'; agent_A] scores
       /\ rank_agents (env_at 0)
            [agent_offline; agent_online; agent_offline'; agent_A] task_A None
          = Ok ranked
       /\ Permutation scores ranked
       /\ descending ranked
       /\ (forall q, with_score q ranked = with_score q scores).
Proof.
  split; [repeat constructor |]. split; [reflexivity |].
  apply (rank_agents_sorted_stable (env_at 0)
           [agent_offline; agent_online; agent_offline'; agent_A] task_A None).
  - repeat constructor.
  - reflexivity.
Defined.

(** The two offline records score alike and keep their input order, in
    whichever order they come. *)
Example rank_agents_tie :
  (ranked ← rank_agents (env_at 0)
              [agent_offline; agent_online; agent_offline'; agent_A] task_A None;
   Ok (List.map agent_id ranked))
  = Ok [VStr "unknown"; VStr "a2"; VStr "a1"; VStr "a3"]
  /\ (ranked ← rank_agents (env_at 0)
                 [agent_offline'; agent_A; agent_offline; agent_online] task_A None;
      Ok (List.map agent_id ranked))
     = Ok [VStr "unknown"; VStr "a2"; VStr "a3"; VStr "a1"].
Proof. split; vm_compute; reflexivity. Qed.

(** ** The domain score *)

Section Domain.

(** The loop over a table whose names are no synonyms returns 0.8 when some
    cluster lists both domains, else 0.9 when some cluster is named by one
    and lists the other, else 0.2: the order of the clusters plays no part. *)
Lemma domain_similarity_loop_spec (table : list (string * list string)) d1 d2 :
  (forall c c', In c table -> In c' table -> Py.mem (fst c) (snd c') = false) ->
  domain_similarity_loop table d1 d2 =
  if existsb (fun c => Py.mem d1 (snd c) && Py.mem d2 (snd c)) table then 0.8%Q
  else if existsb (fun c => (String.eqb d1 (fst c) && Py.mem d2 (snd c))
                            || (String.eqb d2 (fst c) && Py.mem d1 (snd c))) table
  then 0.9%Q else 0.2%Q.
Proof.
  induction table as [| [main related] table IH]; intros Hapart; [reflexivity |].
  simpl. destruct (Py.mem d1 related && Py.mem d2 related) eqn:Eboth;
    [reflexivity |].
  simpl.
  destruct ((String.eqb d1 main && Py.mem d2 related)
            || (String.eqb d2 main && Py.mem d1 related)) eqn:Ename.
  - simpl.
    assert (Hno : existsb (fun c => Py.mem d1 (snd c) && Py.mem d2 (snd c)) table
                  = false).
    { apply not_true_is_false. intros Hex. apply existsb_exists in Hex.
      destruct Hex as [c' [Hc' Hboth]].
      apply andb_prop in Hboth. destruct Hboth as [H1 H2].
      assert (Hm : Py.mem main (snd c') = false).
      { apply (Hapart (main, related) c'); simpl; auto. }
      apply orb_prop in Ename.
      destruct Ename as [E | E]; apply andb_prop in E; destruct E as [E _];
        apply String.eqb_eq in E; subst; congruence. }
    now rewrite Hno.
  - apply IH. intros c c' Hc Hc'. apply Hapart; simpl; auto.
Qed.

Lemma names_apart_spec table :
  names_apart table = true ->
  forall c c', In c table -> In c' table -> Py.mem (fst c) (snd c') = false.
Proof.
  unfold names_apart. intros H c c' Hc Hc'.
  rewrite forallb_forall in H. specialize (H c Hc).
  rewrite forallb_forall in H. specialize (H c' Hc').
  now apply negb_true_iff in H.
Qed.

Lemma calculate_domain_similarity_spec d1 d2 :
  _calculate_domain_similarity d1 d2 =
  if same_cluster d1 d2 then 0.8%Q
  else if name_and_synonym d1 d2 then 0.9%Q else 0.2%Q.
Proof.
  unfold _calculate_domain_similarity, same_cluster, name_and_synonym.
  apply domain_similarity_loop_spec. now apply names_apart_spec.
Qed.

(** The two related cases exclude each other, so the order in which the
    reference score tests them is immaterial. *)
Lemma related_cases_exclusive d1 d2 :
  same_cluster d1 d2 = true -> name_and_synonym d1 d2 = false.
Proof.
  unfold same_cluster, name_and_synonym. intros Hs.
  apply not_true_is_false. intros Hn.
  apply existsb_exists in Hs. destruct Hs as [c [Hc Hboth]].
  apply existsb_exists in Hn. destruct Hn as [c' [Hc' Hname]].
  apply andb_prop in Hboth. destruct Hboth as [H1 H2].
  pose proof (names_apart_spec related_domains eq_refl c' c Hc' Hc) as Hm.
  apply orb_prop in Hname.
  destruct Hname as [E | E]; apply andb_prop in E; destruct E as [E _];
    apply String.eqb_eq in E; subst; congruence.
Qed.

End Domain.

(** C7. For every agent whose domain is a string (or absent) and every task,
    the domain score is, on the lower-cased domains: 0.7 when the task domain
    is "general"; else 0.5 when the agent domain is empty or "general"; else
    1.0 when the two are equal; else 0.8 when both are synonyms of one
    cluster, 0.9 when one names a cluster and the other is one of its
    synonyms, and 0.2 for every other pair. *)
Theorem score_domain_spec agent task reasons d :
  Py.get "domain" (VStr "") agent = VStr d ->
  exists reasons',
    _score_domain agent task reasons
    = Ok (domain_score_spec (Py.lower d) (Py.lower (Task.domain task)), reasons').
Proof.
  intros Hget. unfold _score_domain, domain_score_spec. rewrite Hget. simpl.
  destruct (String.eqb (Py.lower (Task.domain task)) "general"); [eauto |].
  destruct (String.eqb (Py.lower d) "" || String.eqb (Py.lower d) "general");
    [eauto |].
  destruct (String.eqb (Py.lower d) (Py.lower (Task.domain task))); [eauto |].
  rewrite calculate_domain_similarity_spec. eauto.
Qed.

Lemma score_domain_spec_witness :
  Py.get "domain" (VStr "") agent_A = VStr "technology"
  /\ exists reasons',
       _score_domain agent_A task_A []
       = Ok (domain_score_spec (Py.lower "technology")
                               (Py.lower (Task.domain task_A)), reasons').
Proof.
  split; [reflexivity |].
  apply (score_domain_spec agent_A task_A [] "technology"). reflexivity.
Defined.

(** The values the spec names: an exact match up to case scores 1.0, two
    unrelated clusters 0.2, two synonyms 0.8, a name and its synonym 0.9. *)
Example domain_score_examples :
  domain_score_spec (Py.lower "Technology") (Py.lower "TECHNOLOGY") = 1.0%Q
  /\ domain_score_spec "technology" "healthcare" = 0.2%Q
  /\ domain_score_spec "software" "tech" = 0.8%Q
  /\ domain_score_spec "banking" "finance" = 0.9%Q
  /\ domain_score_spec "finance" "banking" = 0.9%Q
  /\ domain_score_spec "software" "banking" = 0.2%Q.
Proof. repeat split; reflexivity. Qed.

(** ** The availability score *)

Section Availability.



End Availability.



(** ** The scenario of the spec *)

Section Scenario.

Lemma scenario_performance pd : _score_performance agent_A pd = Ok 0.7%Q.
Proof.
  unfold _score_performance. destruct pd as [d |]; [| reflexivity].
  destruct (Py.is_empty d); reflexivity.
Qed.

Lemma scenario_capabilities env :
  exists reasons,
    _score_capabilities env agent_A task_A [] = Ok (1.0%Q, reasons).
Proof. eexists. vm_compute. reflexivity. Qed.

Lemma scenario_keywords env reasons :
  exists q reasons',
    _score_keywords env agent_A task_A reasons = Ok (q, reasons') /\ (q == 0)%Q.
Proof. do 2 eexists. split; [vm_compute; reflexivity | reflexivity]. Qed.

Lemma score_performance_le_one agent pd q :
  _score_performance agent pd = Ok q -> (q <= 1)%Q.
Proof.
  unfold _score_performance. destruct pd as [d |].
  - destruct (Py.is_empty d); [intros H; injection H as <-; lra |].
    destruct (Py.lookup_value _ d) as [[perf |] |]; simpl; try discriminate.
    + destruct (Py.num (Py.get "avg_response_time" _ perf)) as [t |];
        [| discriminate].
      simpl. destruct (Py.num (Py.get "success_rate" _ perf)) as [sr |];
        [| discriminate].
      simpl. destruct (Py.num (Py.get "reliability" _ perf)) as [rel |];
        [| discriminate].
      simpl. intros H. injection H as <-.
      match goal with
      | |- (Py.min ?a ?b <= 1)%Q =>
          destruct (min_cases a b) as [[-> Hm] | [-> Hm]]; lra
      end.
    + intros H. injection H as <-. lra.
  - intros H. injection H as <-. lra.
Qed.

(** Registered under an id, A can have performance data; whatever they are,
    the combined score does not exceed 0.79. *)
Lemma scenario_named_below env pd s :
  _score_agent env agent_A_named task_A pd = Ok s -> (score s <= 0.79)%Q.
Proof.
  intros H.
  destruct (score_agent_inv _ _ _ _ _ H)
    as (q1 & r1 & q2 & r2 & q3 & r3 & q4 & q5 & q6 & E1 & E2 & E3 & E4 & E5 & E6).
  rewrite (score_agent_eq _ _ _ _ _ _ _ _ _ _ _ _ _ E1 E2 E3 E4 E5 E6) in H.
  injection H as <-. simpl.
  pose proof (score_performance_le_one _ _ _ E4) as H4.
  assert (H1 : q1 = 1.0%Q) by (vm_compute in E1; congruence).
  assert (H2 : q2 = 1.0%Q) by (vm_compute in E2; congruence).
  assert (H3 : (q3 == 0)%Q).
  { vm_compute in E3. injection E3 as <- _. reflexivity. }
  assert (H5 : q5 = 1.0%Q) by (vm_compute in E5; congruence).
  assert (H6 : (q6 == 0.8)%Q).
  { vm_compute in E6. injection E6 as <-. reflexivity. }
  subst q1 q2 q5. rewrite H3, H6. lra.
Qed.

End Scenario.

(** C9 (amended). For agent A (capabilities nlp and search, domain
    technology, status online, load 0.2) and its task (the same two
    capabilities, domain technology, keyword search, confidence 0.9), in
    every environment and with every performance snapshot, [_score_agent]
    reports capability 1.0, domain 1.0, availability 1.0 and load 0.8; the
    keyword score is 0, since A has neither keywords nor a description, the
    performance score is the neutral 0.7, and the combined score is 0.76. *)
Theorem scenario_scores env pd :
  exists s,
    _score_agent env agent_A task_A pd = Ok s
    /\ reports s "capability_score" 1.0
    /\ reports s "domain_score" 1.0
    /\ reports s "availability_score" 1.0
    /\ reports s "load_score" 0.8
    /\ reports s "keyword_score" 0
    /\ reports s "performance_score" 0.7
    /\ (score s == 0.76)%Q.
Proof.
  destruct (scenario_capabilities env) as [r1 E1].
  assert (E2 : _score_domain agent_A task_A r1
               = Ok (1.0%Q, r1 ++ ["Domain expertise: technology"]))
    by reflexivity.
  destruct (scenario_keywords env (r1 ++ ["Domain expertise: technology"]))
    as [q3 [r3 [E3 H3]]].
  assert (E5 : _score_availability env agent_A = Ok 1.0%Q) by reflexivity.
  assert (E6 : exists q6, _score_load agent_A = Ok q6 /\ (q6 == 0.8)%Q).
  { eexists. split; [vm_compute; reflexivity | reflexivity]. }
  destruct E6 as [q6 [E6 H6]].
  eexists. split;
    [apply (score_agent_eq _ _ _ _ _ _ _ _ _ _ _ _ _ E1 E2 E3
              (scenario_performance pd) E5 E6) |].
  unfold reports. simpl.
  repeat (split; [eexists; split; [reflexivity | try reflexivity; assumption] |]).
  rewrite H3, H6. reflexivity.
Qed.

(** On the scenario the combined score stays under 0.85. *)
Lemma scenario_score_below :
  exists s,
    _score_agent (env_at 0) agent_A task_A None = Ok s
    /\ (score s == 0.76)%Q
    /\ ~ (0.85 <= score s)%Q.
Proof.
  eexists. split; [vm_compute; reflexivity |]. simpl.
  split; [reflexivity |]. intros H. vm_compute in H. now apply H.
Qed.

(** ** Confidence *)

Section Confidence.

Lemma calculate_confidence_zero agent task :
  (Task.confidence task == 0)%Q -> (_calculate_confidence agent task == 0)%Q.
Proof.
  intros Hc. unfold _calculate_confidence.
  repeat match goal with |- context [if ?b then _ else _] => destruct b end;
    match goal with
    | |- (Py.min ?a ?b == 0)%Q =>
        destruct (min_cases a b) as [[-> H] | [-> H]]; lra
    end.
Qed.

Lemma score_agent_confidence env agent task pd s :
  _score_agent env agent task pd = Ok s ->
  confidence s = _calculate_confidence agent task.
Proof.
  intros H.
  destruct (score_agent_inv _ _ _ _ _ H)
    as (q1 & r1 & q2 & r2 & q3 & r3 & q4 & q5 & q6 & E1 & E2 & E3 & E4 & E5 & E6).
  rewrite (score_agent_eq _ _ _ _ _ _ _ _ _ _ _ _ _ E1 E2 E3 E4 E5 E6) in H.
  injection H as <-. reflexivity.
Qed.

Lemma filter_none {A} (p : A -> bool) (l : list A) :
  (forall x, In x l -> p x = false) -> List.filter p l = [].
Proof.
  induction l as [| x l IH]; intros H; simpl; [reflexivity |].
  rewrite (H x (or_introl eq_refl)). apply IH. intros y Hy. apply H. now right.
Qed.

Lemma slice_to_nil {A} (n : Z) : Py.slice_to (@nil A) n = [].
Proof. unfold Py.slice_to. destruct (0 <=? n)%Z; apply firstn_nil. Qed.

Lemma Forall2_In_r {A B} (R : A -> B -> Prop) l l' y :
  List.Forall2 R l l' -> In y l' -> exists x, In x l /\ R x y.
Proof.
  induction 1 as [| a b l l' Hab _ IH]; simpl; [tauto |].
  intros [<- | Hy]; [eauto |]. destruct (IH Hy) as [x [Hx HR]]. eauto.
Qed.

Lemma no_recommendation_without_confidence scores limit min_score :
  (forall s, In s scores -> (confidence s == 0)%Q) ->
  get_top_recommendations scores limit min_score = [].
Proof.
  intros H. unfold get_top_recommendations. rewrite filter_none.
  - apply slice_to_nil.
  - intros s Hs. apply andb_false_intro2. apply not_true_is_false.
    intros Hle. apply Qle_bool_iff in Hle. rewrite (H s Hs) in Hle. lra.
Qed.

End Confidence.

(** C10. When the task analysis has confidence 0: every score that
    [_score_agent] returns has confidence 0; ranking a list of well-typed
    agents returns, and the recommendations drawn from any ranking are empty
    for every limit and minimum score; and every result of [discover_agents]
    has an empty list of recommended agents, for every registry, filter,
    limit and minimum score. *)
Theorem zero_confidence_recommends_nothing task :
  (Task.confidence task == 0)%Q ->
  (forall env agent pd s,
      _score_agent env agent task pd = Ok s -> (confidence s == 0)%Q)
  /\ (forall env agents pd,
        List.Forall (fun a => well_typed a = true) agents ->
        snapshot_typed pd = true ->
        exists ranked, rank_agents env agents task pd = Ok ranked)
  /\ (forall env agents pd ranked limit min_score,
        rank_agents env agents task pd = Ok ranked ->
        get_top_recommendations ranked limit min_score = [])
  /\ (forall env registry cache limit min_score filters r,
        discover_agents env registry cache task limit min_score filters = Ok r ->
        recommended_agents r = []).
Proof.
  intros Hc.
  assert (Hscore : forall env agent pd s,
             _score_agent env agent task pd = Ok s -> (confidence s == 0)%Q).
  { intros env agent pd s H. rewrite (score_agent_confidence _ _ _ _ _ H).
    now apply calculate_confidence_zero. }
  assert (Hrank : forall env agents pd ranked limit min_score,
             rank_agents env agents task pd = Ok ranked ->
             get_top_recommendations ranked limit min_score = []).
  { intros env agents pd ranked limit min_score H.
    destruct (rank_agents_inv _ _ _ _ _ H) as [scores [Hs ->]].
    apply no_recommendation_without_confidence. intros s Hin.
    apply (Permutation_in _ (Permutation_sym (sort_desc_perm score scores))) in Hin.
    destruct (Forall2_In_r _ _ _ _ Hs Hin) as [a [_ Ha]]. eauto. }
  split; [exact Hscore |]. split; [| split; [exact Hrank |]].
  - intros env agents pd. apply rank_agents_total.
  - intros env registry cache limit min_score filters r H.
    unfold discover_agents in H.
    destruct (_get_relevant_agents env registry task filters) as [agents |];
      [| discriminate].
    simpl in H.
    destruct (rank_agents env agents task (Some cache)) as [ranked |] eqn:E;
      [| discriminate].
    simpl in H. injection H as <-. simpl. eauto.
Qed.

Lemma zero_confidence_recommends_nothing_witness :
  (Task.confidence task_unsure == 0)%Q
  /\ (exists ranked,
        rank_agents (env_at 0) [agent_A; agent_seen] task_unsure None = Ok ranked
        /\ get_top_recommendations ranked 5 0 = [])
  /\ (exists r,
        discover_agents (env_at 0) registry_plain ∅ task_unsure 5 0 None = Ok r
        /\ total_agents_evaluated r = 2%nat
        /\ recommended_agents r = []).
Proof.
  split; [reflexivity |].
  destruct (zero_confidence_recommends_nothing task_unsure) as (_ & Ht & Hr & Hd);
    [reflexivity |].
  split.
  - destruct (Ht (env_at 0) [agent_A; agent_seen] None) as [ranked E];
      [repeat constructor | reflexivity |].
    exists ranked. split; [exact E |]. exact (Hr _ _ _ _ 5%Z 0%Q E).
  - eexists. split; [vm_compute; reflexivity |]. split; [reflexivity |].
    apply (Hd (env_at 0) registry_plain ∅ 5%Z 0%Q None). vm_compute. reflexivity.
Defined.

(** ** What scoring reads from the environment *)

Section Environment.

Variables env1 env2 : Env.

Lemma score_capabilities_env agent task reasons :
  same_iteration env1 env2 ->
  _score_capabilities env1 agent task reasons
  = _score_capabilities env2 agent task reasons.
Proof.
  intros Hit. unfold _score_capabilities.
  destruct (Py.iter (Py.get "capabilities" (VList []) agent)) as [elems |];
    [| reflexivity].
  simpl. destruct (Py.set_of elems) as [caps |]; [| reflexivity]. simpl.
  destruct (Py.str_set (Task.required_capabilities task)); [reflexivity |].
  destruct caps; [reflexivity |]. now rewrite Hit.
Qed.

Lemma score_keywords_env agent task reasons :
  same_iteration env1 env2 ->
  _score_keywords env1 agent task reasons
  = _score_keywords env2 agent task reasons.
Proof.
  intros Hit. unfold _score_keywords.
  destruct (lowered_set (Py.get "keywords" (VList []) agent)) as [kws |];
    [| reflexivity].
  simpl. destruct (Py.str_lower (Py.get "description" (VStr "") agent)) as [d |];
    [| reflexivity].
  simpl. destruct (Py.str_set (List.map Py.lower (Task.keywords task)));
    [reflexivity |].
  now rewrite Hit.
Qed.

Lemma score_availability_env agent :
  clock_free agent = true \/ same_clock env1 env2 ->
  _score_availability env1 agent = _score_availability env2 agent.
Proof.
  intros H. unfold _score_availability.
  destruct (Py.get "status" (VStr "unknown") agent) as [| b | q | st | l] eqn:Est;
    try reflexivity.
  simpl.
  destruct (String.eqb (Py.lower st) "offline") eqn:E1; [reflexivity |].
  destruct (String.eqb (Py.lower st) "busy") eqn:E2; [reflexivity |].
  destruct (String.eqb (Py.lower st) "available" || String.eqb (Py.lower st) "online")
    eqn:E3; [reflexivity |].
  destruct (Py.truthy (Py.get_none "last_seen" agent)) eqn:Et; [| reflexivity].
  destruct H as [H | [Hnow Hparse]].
  - unfold clock_free, recognised in H. rewrite Est, E1, E2, Et in H.
    simpl in H. rewrite E3 in H. discriminate.
  - unfold parse_last_seen.
    destruct (Py.get_none "last_seen" agent); try reflexivity.
    now rewrite Hparse, Hnow.
Qed.

End Environment.

(** C5 (amended). Scoring is a function of the agent record, the task
    analysis, the performance snapshot and the environment: two evaluations
    on identical arguments yield the same result (the same score,
    confidence, reasons and metadata, or the same exception) whenever the two
    environments iterate sets of strings alike and either the record does not
    consult the clock (its status is recognised, or it has no [last_seen]) or
    the two environments read the same clock and parse timestamps alike. *)
Theorem score_agent_deterministic env1 env2 agent task pd :
  same_iteration env1 env2 ->
  clock_free agent = true \/ same_clock env1 env2 ->
  _score_agent env1 agent task pd = _score_agent env2 agent task pd.
Proof.
  intros Hit Hclock. unfold _score_agent.
  rewrite (score_capabilities_env env1 env2 agent task [] Hit).
  destruct (_score_capabilities env2 agent task []) as [[q1 r1] |];
    [| reflexivity].
  simpl. destruct (_score_domain agent task r1) as [[q2 r2] |]; [| reflexivity].
  simpl. rewrite (score_keywords_env env1 env2 agent task r2 Hit).
  destruct (_score_keywords env2 agent task r2) as [[q3 r3] |]; [| reflexivity].
  simpl. destruct (_score_performance agent pd) as [q4 |]; [| reflexivity].
  simpl. now rewrite (score_availability_env env1 env2 agent Hclock).
Qed.

Lemma score_agent_deterministic_witness :
  same_iteration (env_at one_minute_later) (env_at two_days_later)
  /\ clock_free agent_A = true
  /\ _score_agent (env_at one_minute_later) agent_A task_A None
     = _score_agent (env_at two_days_later) agent_A task_A None.
Proof.
  split; [intros l; reflexivity |]. split; [reflexivity |].
  apply (score_agent_deterministic (env_at one_minute_later)
           (env_at two_days_later) agent_A task_A None).
  - intros l. reflexivity.
  - left. reflexivity.
Defined.

(** The same record, task and snapshot, scored one minute and two days after
    the record was last seen: the availability score and the combined score
    differ. *)
Lemma score_agent_depends_on_clock :
  exists s1 s2,
    _score_agent (env_at one_minute_later) agent_seen task_A None = Ok s1
    /\ _score_agent (env_at two_days_later) agent_seen task_A None = Ok s2
    /\ reports s1 "availability_score" 1.0
    /\ reports s2 "availability_score" 0.2
    /\ ~ (score s1 == score s2)%Q.
Proof.
  do 2 eexists.
  split; [vm_compute; reflexivity |]. split; [vm_compute; reflexivity |].
  split; [eexists; split; reflexivity |].
  split; [eexists; split; reflexivity |].
  simpl. intros H. vm_compute in H. discriminate.
Qed.

(** ** The union of the searches *)

Section Union.

Lemma py_eqb_refl_hashable (v : value) :
  Py.hashable v = true -> Py.py_eqb v v = true.
Proof.
  destruct v as [| b | q | s | l]; simpl; try discriminate; intros _.
  - reflexivity.
  - now destruct b.
  - apply Qeq_bool_iff. reflexivity.
  - apply String.eqb_refl.
Qed.

Lemma items_eqb_refl (t : list (string * value)) :
  forallb (fun kv => Py.hashable (snd kv)) t = true -> Py.items_eqb t t = true.
Proof.
  induction t as [| [k v] t IH]; simpl; [reflexivity |].
  intros H. apply andb_prop in H. destruct H as [Hv Ht].
  now rewrite String.eqb_refl, (py_eqb_refl_hashable v Hv), (IH Ht).
Qed.

Lemma record_key_inv (a : dict value) (t : list (string * value)) :
  record_key a = Ok t ->
  t = Py.sorted_items a /\ Py.items_eqb t t = true.
Proof.
  unfold record_key.
  destruct (forallb _ (Py.sorted_items a)) eqn:E; [| discriminate].
  intros H. injection H as <-. split; [reflexivity | now apply items_eqb_refl].
Qed.

Lemma set_add_distinct t agents :
  distinct agents -> distinct (set_add t agents).
Proof.
  unfold set_add. destruct (existsb (Py.items_eqb t) agents) eqn:E; [auto |].
  intros Hd l1 t' l2 Hsplit.
  destruct l2 as [| t'' l2'] using rev_ind.
  - apply app_inj_tail in Hsplit. destruct Hsplit as [<- <-]. exact E.
  - clear IHl2'. rewrite app_comm_cons, app_assoc in Hsplit.
    apply app_inj_tail in Hsplit. destruct Hsplit as [-> _].
    now apply (Hd l1 t' l2').
Qed.

Lemma set_add_member t agents :
  Py.items_eqb t t = true ->
  exists m, In m (set_add t agents) /\ Py.items_eqb t m = true.
Proof.
  intros Hr. unfold set_add.
  destruct (existsb (Py.items_eqb t) agents) eqn:E.
  - apply existsb_exists in E. exact E.
  - exists t. split; [apply in_or_app; right; now left | exact Hr].
Qed.

Lemma set_add_incl t agents m : In m agents -> In m (set_add t agents).
Proof.
  unfold set_add. destruct (existsb (Py.items_eqb t) agents); [auto |].
  intros H. apply in_or_app. now left.
Qed.

Lemma set_add_inv t agents m : In m (set_add t agents) -> In m agents \/ m = t.
Proof.
  unfold set_add. destruct (existsb (Py.items_eqb t) agents); [auto |].
  intros H. apply in_app_or in H. destruct H as [H | [H | []]]; auto.
Qed.

(** [update] adds the keys of the records it is given, and only those; it
    keeps what the set held and adds no key the set holds already. *)
Lemma update_spec (records : list (dict value)) :
  forall agents agents',
    update agents records = Ok agents' ->
    (forall m, In m agents -> In m agents')
    /\ (forall m, In m agents' ->
                  In m agents \/ exists a, In a records /\ m = Py.sorted_items a)
    /\ (forall a, In a records ->
                  exists m, In m agents' /\ Py.items_eqb (Py.sorted_items a) m = true)
    /\ (distinct agents -> distinct agents').
Proof.
  induction records as [| a records IH]; intros agents agents' H; simpl in H.
  - injection H as <-. repeat split; auto. intros a [].
  - destruct (record_key a) as [t |] eqn:Ek; [| discriminate]. simpl in H.
    destruct (record_key_inv a t Ek) as [-> Hr].
    destruct (IH _ _ H) as (Hkeep & Hfrom & Hall & Hdist).
    repeat split.
    + intros m Hm. apply Hkeep. now apply set_add_incl.
    + intros m Hm. destruct (Hfrom m Hm) as [Hin | [a' [Ha' ->]]].
      * apply set_add_inv in Hin. destruct Hin as [Hin | ->]; [now left |].
        right. exists a. split; [now left | reflexivity].
      * right. exists a'. split; [now right | reflexivity].
    + intros a' [<- | Ha'].
      * destruct (set_add_member (Py.sorted_items a) agents Hr) as [m [Hm Em]].
        exists m. split; [now apply Hkeep | exact Em].
      * now apply Hall.
    + intros Hd. apply Hdist. now apply set_add_distinct.
Qed.

Lemma update_app (r r' : list (dict value)) :
  forall agents,
    update agents (r ++ r') = (update agents r ≫= fun s => update s r').
Proof.
  induction r as [| a r IH]; intros agents; simpl; [reflexivity |].
  destruct (record_key a) as [t |]; simpl; [apply IH | reflexivity].
Qed.

(** The three conditional searches amount to one update with all that is
    found. *)
Lemma gather_found registry task :
  gather registry task = update [] (found registry task).
Proof.
  unfold gather, found.
  destruct (Task.required_capabilities task) as [| c caps];
    destruct (negb (String.eqb (Task.domain task) "")
              && negb (String.eqb (Task.domain task) "general"));
    destruct (Task.keywords task) as [| k kws];
    simpl; rewrite ?app_nil_r;
    repeat (repeat rewrite update_app; simpl;
            match goal with
            | |- context [update ?s ?r ≫= _] => destruct (update s r); simpl
            end);
    reflexivity.
Qed.

(** [gather] returns the deduplicated union of what the searches find: its
    members are keys of found records, every found record has its key among
    them up to equality, and no two members are equal. *)
Lemma gather_union registry task agents :
  gather registry task = Ok agents ->
  (forall m, In m agents ->
             exists a, In a (found registry task) /\ m = Py.sorted_items a)
  /\ (forall a, In a (found registry task) ->
                exists m, In m agents /\ Py.items_eqb (Py.sorted_items a) m = true)
  /\ distinct agents.
Proof.
  rewrite gather_found. intros H.
  destruct (update_spec _ _ _ H) as (_ & Hfrom & Hall & Hdist).
  repeat split.
  - intros m Hm. destruct (Hfrom m Hm) as [[] | Ha]. exact Ha.
  - exact Hall.
  - apply Hdist. intros l1 t l2 E. now destruct l1.
Qed.

End Union.

(** ** Candidate gathering *)

Section Filters.

Lemma filter_each_filter {A} (p : A -> result bool) (l l' : list A) :
  Py.filter_each p l = Ok l' ->
  l' = List.filter (fun a => match p a with Ok b => b | Raise _ => false end) l.
Proof.
  revert l'. induction l as [| x l IH]; intros l' H; simpl in *.
  - now injection H as <-.
  - destruct (p x) as [b |]; [| discriminate]. simpl in H.
    destruct (Py.filter_each p l) as [ys |]; [| discriminate].
    simpl in H. injection H as <-. rewrite <- (IH ys eq_refl).
    reflexivity.
Qed.

Lemma filter_twice {A} (f g : A -> bool) (l : list A) :
  List.filter g (List.filter f l) = List.filter (fun x => f x && g x) l.
Proof.
  induction l as [| x l IH]; simpl; [reflexivity |].
  destruct (f x); simpl; [| exact IH].
  destruct (g x); now rewrite IH.
Qed.

(** The three passes of [_apply_filters] keep the records that pass. *)
Lemma apply_filters_spec (l l' : list (dict value)) (f : dict value) :
  _apply_filters l f = Ok l' -> l' = List.filter (passes f) l.
Proof.
  unfold _apply_filters, filter_key. intros H.
  set (p1 := fun a : dict value =>
               match f !! "status" with
               | Some wanted => Py.py_eqb (Py.get_none "status" a) wanted
               | None => true
               end).
  assert (H1 : (match f !! "status" with
                | Some wanted =>
                    Ok (List.filter
                          (fun a => Py.py_eqb (Py.get_none "status" a) wanted) l)
                | None => Ok l
                end) = Ok (List.filter p1 l)).
  { unfold p1. destruct (f !! "status"); [reflexivity |].
    f_equal. clear. induction l as [| x l IH]; simpl; congruence. }
  rewrite H1 in H. simpl in H. clear H1.
  set (l1 := List.filter p1 l) in *.
  set (p2 := fun a : dict value =>
               match f !! "exclude_agents" with
               | Some excluded =>
                   match Py.iter excluded ≫= Py.set_of with
                   | Ok exclude_set =>
                       match Py.set_mem (Py.get_none "agent_id" a) exclude_set with
                       | Ok b => negb b
                       | Raise _ => false
                       end
                   | Raise _ => false
                   end
               | None => true
               end).
  set (p3 := fun a : dict value =>
               match f !! "domain" with
               | Some d =>
                   match Py.str_lower d, Py.str_lower (Py.get "domain" (VStr "") a) with
                   | Ok wanted, Ok ad => String.eqb ad wanted
                   | _, _ => false
                   end
               | None => true
               end).
  assert (Hpass : forall a, passes f a = p1 a && p2 a && p3 a) by reflexivity.
  rewrite (List.filter_ext _ _ Hpass). rewrite <- !filter_twice. fold l1.
  assert (H2 : exists l2,
             (match f !! "exclude_agents" with
              | Some excluded =>
                  elems ← Py.iter excluded;
                  exclude_set ← Py.set_of elems;
                  Py.filter_each
                    (fun a => b ← Py.set_mem (Py.get_none "agent_id" a) exclude_set;
                              Ok (negb b)) l1
              | None => Ok l1
              end) = Ok l2 /\ l2 = List.filter p2 l1).
  { unfold p2. destruct (f !! "exclude_agents") as [excluded |].
    - destruct (Py.iter excluded) as [elems |]; [| discriminate]. simpl in *.
      destruct (Py.set_of elems) as [exclude_set |]; [| discriminate]. simpl in *.
      destruct (Py.filter_each _ l1) as [l2 |] eqn:E; [| discriminate].
      exists l2. split; [reflexivity |].
      rewrite (filter_each_filter _ _ _ E). apply List.filter_ext.
      intros a. now destruct (Py.set_mem (Py.get_none "agent_id" a) exclude_set).
    - exists l1. split; [reflexivity |].
      clear. induction l1 as [| x l1 IH]; simpl; congruence. }
  destruct H2 as [l2 [E2 ->]]. rewrite E2 in H. simpl in H. clear E2.
  set (l2 := List.filter p2 l1) in *.
  unfold p3. destruct (f !! "domain") as [d |].
  - destruct (Py.str_lower d) as [wanted |]; [| discriminate]. simpl in H.
    rewrite (filter_each_filter _ _ _ H). apply List.filter_ext.
    intros a. now destruct (Py.str_lower (Py.get "domain" (VStr "") a)).
  - injection H as <-. clear. induction l2 as [| x l2 IH]; simpl; congruence.
Qed.

End Filters.
(** ** Records with list-valued fields *)

Section Unhashable.

Lemma insert_item_In kv kv' l :
  In kv (Py.insert_item kv' l) <-> kv = kv' \/ In kv l.
Proof.
  induction l as [| x l IH]; simpl; [intuition |].
  destruct (String.ltb (fst x) (fst kv')); simpl; [rewrite IH |]; intuition.
Qed.

Lemma sorted_items_In (a : dict value) k v :
  In (k, v) (Py.sorted_items a) <-> a !! k = Some v.
Proof.
  unfold Py.sorted_items. rewrite <- elem_of_map_to_list, list_elem_of_In.
  induction (map_to_list a) as [| x l IH]; simpl; [tauto |].
  rewrite insert_item_In, IH. intuition.
Qed.

(** A record that holds a list cannot be put in a set. *)
Lemma record_key_list_field (a : dict value) k l :
  a !! k = Some (VList l) -> record_key a = Raise TypeError.
Proof.
  intros H. unfold record_key.
  destruct (forallb _ (Py.sorted_items a)) eqn:E; [| reflexivity].
  rewrite forallb_forall in E. apply sorted_items_In in H.
  specialize (E _ H). discriminate.
Qed.

Lemma record_key_exn (a : dict value) e : record_key a = Raise e -> e = TypeError.
Proof.
  unfold record_key. destruct (forallb _ _); [discriminate | congruence].
Qed.

Lemma update_raises (records : list (dict value)) a :
  In a records -> record_key a = Raise TypeError ->
  forall agents, update agents records = Raise TypeError.
Proof.
  induction records as [| a' records IH]; intros Hin Hk agents; [destruct Hin |].
  simpl. destruct Hin as [-> | Hin].
  - now rewrite Hk.
  - destruct (record_key a') as [t | e] eqn:E; simpl.
    + now apply IH.
    + now rewrite (record_key_exn _ _ E).
Qed.

(** As soon as a search finds a record with a list-valued field, gathering
    raises, in every environment and under every filter. *)
Lemma get_relevant_agents_raises env registry task filters a k l :
  In a (found registry task) -> a !! k = Some (VList l) ->
  _get_relevant_agents env registry task filters = Raise TypeError.
Proof.
  intros Hin Hk. unfold _get_relevant_agents. rewrite gather_found.
  rewrite (update_raises _ a Hin (record_key_list_field a k l Hk)). reflexivity.
Qed.

End Unhashable.

(** C4 (the code departs from it). Agent A of the spec's scenario is scored
    without an exception, but when the registry's search returns it, with
    its list of capabilities, candidate gathering raises [TypeError] and so
    does [discover_agents]. *)
Theorem gathering_raises_on_agent_A :
  (exists s, _score_agent (env_at 0) agent_A task_A None = Ok s)
  /\ In agent_A (found registry_A task_A)
  /\ _get_relevant_agents (env_at 0) registry_A task_A None = Raise TypeError
  /\ discover_agents (env_at 0) registry_A ∅ task_A 5 0.3 None = Raise TypeError.
Proof.
  split; [eexists; vm_compute; reflexivity |].
  split; [now left |].
  split; vm_compute; reflexivity.
Qed.

(** ** Records, item tuples and back *)

Section RoundTrip.

Lemma insert_item_perm kv l : Permutation (kv :: l) (Py.insert_item kv l).
Proof.
  induction l as [| x l IH]; simpl; [reflexivity |].
  destruct (String.ltb (fst x) (fst kv)); [| reflexivity].
  rewrite perm_swap. now constructor.
Qed.

Lemma sorted_items_perm (a : dict value) :
  Permutation (map_to_list a) (Py.sorted_items a).
Proof.
  unfold Py.sorted_items. induction (map_to_list a) as [| x l IH]; simpl;
    [reflexivity |].
  rewrite <- insert_item_perm. now constructor.
Qed.

(** [dict(tuple(sorted(agent.items())))] is the record again. *)
Lemma list_to_map_sorted_items (a : dict value) :
  list_to_map (Py.sorted_items a) = a.
Proof.
  rewrite <- (list_to_map_to_list a) at 2.
  apply list_to_map_proper.
  - rewrite <- (sorted_items_perm a). apply NoDup_fst_map_to_list.
  - symmetry. apply sorted_items_perm.
Qed.

Lemma distinct_NoDup (agents : list (list (string * value))) :
  distinct agents ->
  (forall t, In t agents -> Py.items_eqb t t = true) ->
  List.NoDup agents.
Proof.
  induction agents as [| t agents IH] using rev_ind; intros Hd Hr; [constructor |].
  apply (Permutation_NoDup (Permutation_cons_append agents t)). constructor.
  - intros Hin. pose proof (Hd agents t [] eq_refl) as E.
    assert (Ht : existsb (Py.items_eqb t) agents = true).
    { apply existsb_exists. exists t. split; [exact Hin |].
      apply Hr. apply in_or_app. right. now left. }
    congruence.
  - apply IH.
    + intros l1 t' l2 E. apply (Hd l1 t' (l2 ++ [t])).
      rewrite E. now rewrite <- app_assoc.
    + intros t' Ht'. apply Hr. apply in_or_app. now left.
Qed.

End RoundTrip.

(** ** Hashing the found records *)

Section Hashing.

Lemma forallb_exists_false {A} (p : A -> bool) (l : list A) :
  forallb p l = false -> exists x, In x l /\ p x = false.
Proof.
  induction l as [| x l IH]; simpl; [discriminate |].
  destruct (p x) eqn:E; simpl.
  - intros H. destruct (IH H) as [y [Hy Ey]]. eauto.
  - eauto.
Qed.

Lemma record_key_ok (a : dict value) :
  (forall k v, a !! k = Some v -> Py.hashable v = true) ->
  record_key a = Ok (Py.sorted_items a).
Proof.
  intros H. unfold record_key.
  destruct (forallb _ (Py.sorted_items a)) eqn:E; [reflexivity |].
  apply forallb_exists_false in E.
  destruct E as [[k v] [Hin Hv]]. apply sorted_items_In in Hin.
  simpl in Hv. rewrite (H k v Hin) in Hv. discriminate.
Qed.

Lemma record_key_hashable (a : dict value) t :
  record_key a = Ok t -> forall k v, a !! k = Some v -> Py.hashable v = true.
Proof.
  unfold record_key.
  destruct (forallb _ (Py.sorted_items a)) eqn:E; [| discriminate].
  intros _ k v Hk. rewrite forallb_forall in E.
  apply sorted_items_In in Hk. exact (E _ Hk).
Qed.

Lemma update_total (records : list (dict value)) :
  (forall a, In a records -> forall k v, a !! k = Some v -> Py.hashable v = true) ->
  forall agents, exists agents', update agents records = Ok agents'.
Proof.
  induction records as [| a records IH]; intros H agents; simpl; [eauto |].
  rewrite (record_key_ok a (H a (or_introl eq_refl))). simpl.
  apply IH. intros a' Ha'. apply H. now right.
Qed.

Lemma update_ok_hashable (records : list (dict value)) :
  forall agents agents',
    update agents records = Ok agents' ->
    forall a, In a records -> forall k v, a !! k = Some v -> Py.hashable v = true.
Proof.
  induction records as [| a records IH]; intros agents agents' H a' Ha'; [destruct Ha' |].
  simpl in H. destruct (record_key a) as [t |] eqn:E; [| discriminate].
  simpl in H. destruct Ha' as [<- | Ha'].
  - exact (record_key_hashable a t E).
  - exact (IH _ _ H a' Ha').
Qed.

Lemma update_exn (records : list (dict value)) :
  forall agents e, update agents records = Raise e -> e = TypeError.
Proof.
  induction records as [| a records IH]; intros agents e H; simpl in H;
    [discriminate |].
  destruct (record_key a) as [t | e'] eqn:E; simpl in H.
  - exact (IH _ _ H).
  - injection H as <-. exact (record_key_exn _ _ E).
Qed.

(** A record that holds a value that cannot be hashed cannot be put in a
    set. *)
Lemma record_key_unhashable (a : dict value) k v :
  a !! k = Some v -> Py.hashable v = false -> record_key a = Raise TypeError.
Proof.
  intros H Hv. unfold record_key.
  destruct (forallb _ (Py.sorted_items a)) eqn:E; [| reflexivity].
  rewrite forallb_forall in E. apply sorted_items_In in H.
  specialize (E _ H). simpl in E. congruence.
Qed.

End Hashing.

(** ** The records listed from the set *)

Section Listed.

(** The list made from the set of item tuples holds the found records, each
    once: a listed record is a found record, unchanged by its passage through
    a sorted item tuple; a found record is listed, up to equality of its
    values; and no record is listed twice. *)
Lemma listed_union env registry task agents :
  env_ok env ->
  gather registry task = Ok agents ->
  let union : list (dict value) :=
    List.map (fun agent => list_to_map agent) (record_iter env agents) in
  List.NoDup union
  /\ (forall a, In a union -> In a (found registry task))
  /\ (forall a, In a (found registry task) ->
        exists a', In a' union
                   /\ Py.items_eqb (Py.sorted_items a) (Py.sorted_items a') = true).
Proof.
  intros [_ Hperm] Eg.
  destruct (gather_union _ _ _ Eg) as (Hfrom & Hall & Hdist).
  assert (Hhash : forall a, In a (found registry task) ->
                            forall k v, a !! k = Some v -> Py.hashable v = true).
  { rewrite gather_found in Eg. exact (update_ok_hashable _ _ _ Eg). }
  assert (Hrefl : forall t, In t agents -> Py.items_eqb t t = true).
  { intros t Ht. destruct (Hfrom t Ht) as [a [Ha ->]].
    apply items_eqb_refl. apply forallb_forall. intros [k v] Hkv.
    apply sorted_items_In in Hkv. exact (Hhash a Ha k v Hkv). }
  intros union.
  assert (Hin : forall a, In a union <->
                          exists t, In t agents /\ a = list_to_map t).
  { intros a. unfold union. rewrite in_map_iff. split.
    - intros [t [<- Ht]]. exists t. split; [| reflexivity].
      exact (Permutation_in _ (Hperm agents) Ht).
    - intros [t [Ht ->]]. exists t. split; [reflexivity |].
      exact (Permutation_in _ (Permutation_sym (Hperm agents)) Ht). }
  split; [| split].
  - unfold union.
    apply (Permutation_NoDup
             (l := List.map (fun agent : list (string * value) =>
                               (list_to_map agent : dict value)) agents)).
    + apply Permutation_map. symmetry. apply Hperm.
    + apply Finite.Injective_map_NoDup_in.
      * intros t t' Ht Ht' E. destruct (Hfrom t Ht) as [a [_ ->]].
        destruct (Hfrom t' Ht') as [a' [_ ->]].
        rewrite !list_to_map_sorted_items in E. now subst.
      * now apply distinct_NoDup.
  - intros a Ha. apply Hin in Ha. destruct Ha as [t [Ht ->]].
    destruct (Hfrom t Ht) as [a' [Ha' ->]].
    now rewrite list_to_map_sorted_items.
  - intros a Ha. destruct (Hall a Ha) as [m [Hm Em]].
    exists (list_to_map m). split; [apply Hin; eauto |].
    destruct (Hfrom m Hm) as [a' [_ ->]].
    now rewrite list_to_map_sorted_items.
Qed.

End Listed.
(** ** What candidate gathering returns *)

(** C6 (amended). Whenever candidate gathering returns: the set it builds is
    the deduplicated union of the results of the capability, domain and
    keyword searches, that is, every member is the item tuple of a found
    record, every found record has its item tuple in the set up to equality,
    and no two members are equal; the list made from the set holds the found
    records, each once; the caller's filters, when given, are applied to
    that union (exact status, exclusion by id, domain up to case); the
    registry's full listing is returned exactly when the filtered union is
    empty, which is the case in particular when the union itself is empty;
    and otherwise the filtered union is returned, every record of which
    passes the filters. *)
Theorem get_relevant_agents_spec env registry task filters result :
  _get_relevant_agents env registry task filters = Ok result ->
  exists agents,
    gather registry task = Ok agents
    /\ (forall m, In m agents ->
          exists a, In a (found registry task) /\ m = Py.sorted_items a)
    /\ (forall a, In a (found registry task) ->
          exists m, In m agents /\ Py.items_eqb (Py.sorted_items a) m = true)
    /\ distinct agents
    /\ let union : list (dict value) :=
         List.map (fun agent => list_to_map agent) (record_iter env agents) in
       let kept :=
         match given filters with
         | Some f => List.filter (passes f) union
         | None => union
         end in
       (env_ok env ->
        List.NoDup union
        /\ (forall a, In a union -> In a (found registry task))
        /\ (forall a, In a (found registry task) ->
              exists a', In a' union
                         /\ Py.items_eqb (Py.sorted_items a) (Py.sorted_items a')
                            = true))
       /\ (kept = [] -> result = list_agents registry)
       /\ (kept <> [] -> result = kept)
       /\ (env_ok env -> agents = [] -> kept = []).
Proof.
  unfold _get_relevant_agents. intros H.
  destruct (gather registry task) as [agents |] eqn:Eg; [| discriminate].
  simpl in H. exists agents. split; [reflexivity |].
  destruct (gather_union _ _ _ Eg) as (Hfrom & Hall & Hdist).
  split; [exact Hfrom |]. split; [exact Hall |]. split; [exact Hdist |].
  set (union := List.map (fun agent : list (string * value) => list_to_map agent)
                       (record_iter env agents) : list (dict value)) in *.
  set (kept := match given filters with
               | Some f => List.filter (passes f) union
               | None => union
               end).
  assert (Hkept : exists l, (match given filters with
                             | Some f => _apply_filters union f
                             | None => Ok union
                             end) = Ok l /\ l = kept).
  { unfold kept. destruct (given filters) as [f |].
    - destruct (_apply_filters union f) as [l |] eqn:E; [| discriminate].
      exists l. split; [reflexivity |]. now apply apply_filters_spec.
    - eauto. }
  destruct Hkept as [l [E ->]]. rewrite E in H. simpl in H. injection H as <-.
  split; [| split; [| split]].
  - intros Hok. exact (listed_union env registry task agents Hok Eg).
  - intros ->. reflexivity.
  - intros Hne. destruct kept; [congruence | reflexivity].
  - intros [_ Hperm] ->. unfold kept, union.
    rewrite (Permutation_nil (Permutation_sym (Hperm []))). simpl.
    now destruct (given filters).
Qed.

(** Two runs under the status filter.  The three searches of [task_mixed]
    find five records, three of them distinct; the filter keeps the one that
    is online, and it is returned.  The search of [task_search] finds one
    record, the filter removes it, and the full listing is returned. *)
Lemma get_relevant_agents_spec_witness :
  (_get_relevant_agents (env_at 0) registry_mixed task_mixed (Some only_online)
   = Ok [agent_online]
   /\ exists agents,
        gather registry_mixed task_mixed = Ok agents
        /\ (forall m, In m agents ->
              exists a, In a (found registry_mixed task_mixed)
                        /\ m = Py.sorted_items a)
        /\ (forall a, In a (found registry_mixed task_mixed) ->
              exists m, In m agents
                        /\ Py.items_eqb (Py.sorted_items a) m = true)
        /\ distinct agents
        /\ let union : list (dict value) :=
             List.map (fun agent => list_to_map agent)
                      (record_iter (env_at 0) agents) in
           let kept :=
             match given (Some only_online) with
             | Some f => List.filter (passes f) union
             | None => union
             end in
           (env_ok (env_at 0) ->
            List.NoDup union
            /\ (forall a, In a union -> In a (found registry_mixed task_mixed))
            /\ (forall a, In a (found registry_mixed task_mixed) ->
                  exists a', In a' union
                             /\ Py.items_eqb (Py.sorted_items a)
                                             (Py.sorted_items a') = true))
           /\ (kept = [] -> [agent_online] = list_agents registry_mixed)
           /\ (kept <> [] -> [agent_online] = kept)
           /\ (env_ok (env_at 0) -> agents = [] -> kept = []))
  /\ (_get_relevant_agents (env_at 0) registry_plain task_search (Some only_online)
      = Ok [agent_offline; agent_online]
      /\ exists agents,
           gather registry_plain task_search = Ok agents
           /\ (forall m, In m agents ->
                 exists a, In a (found registry_plain task_search)
                           /\ m = Py.sorted_items a)
           /\ (forall a, In a (found registry_plain task_search) ->
                 exists m, In m agents
                           /\ Py.items_eqb (Py.sorted_items a) m = true)
           /\ distinct agents
           /\ let union : list (dict value) :=
                List.map (fun agent => list_to_map agent)
                         (record_iter (env_at 0) agents) in
              let kept :=
                match given (Some only_online) with
                | Some f => List.filter (passes f) union
                | None => union
                end in
              (env_ok (env_at 0) ->
               List.NoDup union
               /\ (forall a, In a union -> In a (found registry_plain task_search))
               /\ (forall a, In a (found registry_plain task_search) ->
                     exists a', In a' union
                                /\ Py.items_eqb (Py.sorted_items a)
                                                (Py.sorted_items a') = true))
              /\ (kept = [] ->
                  [agent_offline; agent_online] = list_agents registry_plain)
              /\ (kept <> [] -> [agent_offline; agent_online] = kept)
              /\ (env_ok (env_at 0) -> agents = [] -> kept = [])).
Proof.
  split.
  - split; [vm_compute; reflexivity |].
    apply (get_relevant_agents_spec (env_at 0) registry_mixed task_mixed
             (Some only_online)).
    vm_compute. reflexivity.
  - split; [vm_compute; reflexivity |].
    apply (get_relevant_agents_spec (env_at 0) registry_plain task_search
             (Some only_online)).
    vm_compute. reflexivity.
Defined.

(** The union of the searches holds one record, the status filter removes
    it, and the full listing comes back: the fallback is taken although the
    union is not empty, and the result holds a record that fails the filter. *)
Lemma fallback_after_filters :
  gather registry_plain task_search = Ok [Py.sorted_items agent_offline]
  /\ _get_relevant_agents (env_at 0) registry_plain task_search (Some only_online)
     = Ok (list_agents registry_plain)
  /\ In agent_offline (list_agents registry_plain)
  /\ passes only_online agent_offline = false
  /\ gather_candidates_spec (env_at 0) registry_plain task_search (Some only_online)
     = Ok []
  /\ _get_relevant_agents (env_at 0) registry_plain task_search (Some only_online)
     <> gather_candidates_spec (env_at 0) registry_plain task_search
          (Some only_online).
Proof.
  split; [vm_compute; reflexivity |].
  split; [vm_compute; reflexivity |].
  split; [now left |].
  split; [vm_compute; reflexivity |].
  split; [vm_compute; reflexivity |].
  vm_compute. discriminate.
Qed.

(** ** More on the capability and keyword scores *)

Section Coverage.

Lemma dedup_str_In (l : list value) (s : string) :
  In (VStr s) l -> In (VStr s) (Py.dedup Py.py_eqb l).
Proof.
  induction l as [| v l IH]; simpl; [tauto |].
  destruct (existsb (Py.py_eqb v) l) eqn:E.
  - intros [-> | H]; [| now apply IH].
    apply IH. apply existsb_exists in E. destruct E as [y [Hy Ey]].
    apply py_eqb_str in Ey. now subst.
  - intros [-> | H]; [now left | right; now apply IH].
Qed.

Lemma holds_dedup (l : list value) (s : string) :
  existsb (Py.py_eqb (VStr s)) (Py.dedup Py.py_eqb l)
  = existsb (Py.py_eqb (VStr s)) l.
Proof.
  apply eq_true_iff_eq. rewrite !existsb_exists. split.
  - intros [v [Hv E]]. exists v. split; [now apply dedup_incl in Hv | exact E].
  - intros [v [Hv E]]. exists v. split; [| exact E].
    pose proof (py_eqb_str _ _ E) as ->. now apply dedup_str_In.
Qed.

Lemma dedup_nil {A} (eqb : A -> A -> bool) (l : list A) :
  Py.dedup eqb l = [] -> l = [].
Proof.
  induction l as [| x l IH]; [reflexivity |]. simpl.
  destruct (existsb (eqb x) l) eqn:E; [| discriminate].
  intros H. rewrite (IH H) in E. discriminate.
Qed.

Lemma intersection_covered (caps : list value) (required : list string) :
  intersection (Py.dedup Py.py_eqb caps) (Py.str_set required)
  = covered caps required.
Proof.
  unfold intersection, covered. apply List.filter_ext. intros s.
  apply holds_dedup.
Qed.

End Coverage.

(** X1. The capability score of a record whose capabilities are a list of
    hashable values is 0.7 when the task requires nothing, else 0.3 when the
    list is empty, and else exactly the fraction of the distinct required
    capabilities that the list holds: the bonus for extra capabilities never
    changes the score, since it is only added to a ratio that is already 1. *)
Theorem score_capabilities_is_coverage env agent task reasons caps :
  Py.get "capabilities" (VList []) agent = VList caps ->
  forallb Py.hashable caps = true ->
  exists q reasons',
    _score_capabilities env agent task reasons = Ok (q, reasons')
    /\ (Task.required_capabilities task = [] -> q = 0.7%Q)
    /\ (Task.required_capabilities task <> [] -> caps = [] -> q = 0.3%Q)
    /\ (Task.required_capabilities task <> [] -> caps <> [] ->
        (q == Py.len (covered caps (Task.required_capabilities task))
              / Py.len (Py.str_set (Task.required_capabilities task)))%Q).
Proof.
  intros Hget Hhash. unfold _score_capabilities. rewrite Hget. simpl.
  unfold Py.set_of. rewrite Hhash. simpl.
  pose proof (str_set_NoDup (Task.required_capabilities task)) as Hnd.
  destruct (Py.str_set (Task.required_capabilities task)) as [| r0 req'] eqn:Ereq.
  { apply (dedup_nil String.eqb) in Ereq.
    do 2 eexists. split; [reflexivity |]. split; [reflexivity |].
    split; intros Hne; exfalso; now apply Hne. }
  assert (Hreq : Task.required_capabilities task <> []).
  { intros E. rewrite E in Ereq. discriminate. }
  destruct (Py.dedup Py.py_eqb caps) as [| c0 caps'] eqn:Ecaps.
  { apply (dedup_nil Py.py_eqb) in Ecaps.
    do 2 eexists. split; [reflexivity |].
    split; [intros E; now apply Hreq in E |].
    split; [reflexivity |]. intros _ Hne. now apply Hne in Ecaps. }
  assert (Hcaps_ne : caps <> []) by (intros E; subst caps; discriminate).
  rewrite <- Ereq, <- Ecaps.
  pose (req := Py.str_set (Task.required_capabilities task)).
  assert (Hne : req <> []) by (unfold req; rewrite Ereq; discriminate).
  fold req. change (intersection (Py.dedup Py.py_eqb caps) req)
    with (intersection (Py.dedup Py.py_eqb caps)
            (Py.str_set (Task.required_capabilities task))).
  rewrite intersection_covered.
  set (matching := covered caps (Task.required_capabilities task)).
  assert (Hle : (length matching <= length req)%nat).
  { unfold matching. rewrite <- intersection_covered.
    apply intersection_length_req. }
  pose proof (ratio_bounds matching req Hne Hle) as Hratio.
  do 2 eexists. split; [reflexivity |].
  split; [intros E; now apply Hreq in E |].
  split; [intros _ E; now apply Hcaps_ne in E |].
  intros _ _.
  destruct (length matching =? length req)%nat eqn:Elen.
  - apply Nat.eqb_eq in Elen.
    pose proof (ratio_full matching req Hne Elen) as Hfull.
    assert (Hcaps : (length req <= length (Py.dedup Py.py_eqb caps))%nat).
    { rewrite <- Elen. unfold matching. rewrite <- intersection_covered.
      apply intersection_length_caps. apply str_set_NoDup. }
    assert (Hextra : (0 <= inject_Z (Z.of_nat (length (Py.dedup Py.py_eqb caps))
                                     - Z.of_nat (length req)))%Q).
    { change 0%Q with (inject_Z 0). rewrite <- Zle_Qle. lia. }
    match goal with
    | |- (Py.min 1.0 (_ + Py.min ?a ?b) == _)%Q =>
        destruct (min_cases a b) as [[-> _] | [-> _]]
    end;
      match goal with
      | |- (Py.min ?a ?b == _)%Q =>
          destruct (min_cases a b) as [[-> H] | [-> H]]; lra
      end.
  - match goal with
    | |- (Py.min ?a ?b == _)%Q =>
        destruct (min_cases a b) as [[-> H] | [-> H]]; lra
    end.
Qed.

Lemma score_capabilities_is_coverage_witness :
  Py.get "capabilities" (VList []) agent_A = VList [VStr "nlp"; VStr "search"]
  /\ forallb Py.hashable [VStr "nlp"; VStr "search"] = true
  /\ exists q reasons',
       _score_capabilities (env_at 0) agent_A task_A [] = Ok (q, reasons')
       /\ (Task.required_capabilities task_A = [] -> q = 0.7%Q)
       /\ (Task.required_capabilities task_A <> [] ->
           [VStr "nlp"; VStr "search"] = [] -> q = 0.3%Q)
       /\ (Task.required_capabilities task_A <> [] ->
           [VStr "nlp"; VStr "search"] <> [] ->
           (q == Py.len (covered [VStr "nlp"; VStr "search"]
                           (Task.required_capabilities task_A))
                 / Py.len (Py.str_set (Task.required_capabilities task_A)))%Q).
Proof.
  split; [reflexivity |]. split; [reflexivity |].
  apply (score_capabilities_is_coverage (env_at 0) agent_A task_A []
           [VStr "nlp"; VStr "search"]); reflexivity.
Defined.

(** ** The keyword score as a fraction *)

Section Keywords.

Lemma for_each_lower_strings (kws : list string) :
  Py.for_each Py.str_lower (List.map VStr kws) = Ok (List.map Py.lower kws).
Proof.
  induction kws as [| k kws IH]; simpl; [reflexivity |].
  rewrite IH. reflexivity.
Qed.

Lemma mem_str_set (k : string) (l : list string) :
  Py.mem k (Py.str_set l) = Py.mem k l.
Proof.
  apply eq_true_iff_eq. rewrite !mem_In. apply str_set_In.
Qed.

(** Two duplicate-free lists with the same members have the same length. *)
Lemma same_members_length {A} (l l' : list A) :
  List.NoDup l -> List.NoDup l' -> (forall x, In x l <-> In x l') ->
  length l = length l'.
Proof.
  intros Hl Hl' H. apply Nat.le_antisymm; apply List.NoDup_incl_length;
    try assumption; intros x Hx; now apply H.
Qed.

Lemma union_filter_length (p q : string -> bool) (l : list string) :
  List.NoDup l ->
  length (union (List.filter p l) (List.filter q l))
  = length (List.filter (fun x => p x || q x) l).
Proof.
  intros Hnd. apply same_members_length.
  - apply str_set_NoDup.
  - now apply List.NoDup_filter.
  - intros x. unfold union. rewrite str_set_In, in_app_iff, !filter_In.
    rewrite orb_true_iff. tauto.
Qed.

End Keywords.

(** X2. For a record whose keywords are a list of strings and whose
    description is a string, the keyword score is 0.7 when the task has no
    keywords, and otherwise exactly the fraction of the distinct lower-cased
    task keywords that are among the lower-cased agent keywords or occur
    inside the lower-cased description. *)
Theorem score_keywords_is_fraction env agent task reasons kws d :
  Py.get "keywords" (VList []) agent = VList (List.map VStr kws) ->
  Py.get "description" (VStr "") agent = VStr d ->
  exists q reasons',
    _score_keywords env agent task reasons = Ok (q, reasons')
    /\ (Task.keywords task = [] -> q = 0.7%Q)
    /\ (Task.keywords task <> [] ->
        (q == Py.len (keyword_hits kws d task) / Py.len (task_words task))%Q).
Proof.
  intros Hk Hd. unfold _score_keywords, lowered_set. rewrite Hk, Hd. simpl.
  rewrite for_each_lower_strings. simpl.
  pose proof (str_set_NoDup (List.map Py.lower (Task.keywords task))) as Hnd.
  fold (task_words task) in *.
  destruct (task_words task) as [| k0 tk'] eqn:Etk.
  { apply (dedup_nil String.eqb) in Etk. apply List.map_eq_nil in Etk.
    do 2 eexists. split; [reflexivity |]. split; [reflexivity |].
    intros Hne. now apply Hne in Etk. }
  assert (Hkw : Task.keywords task <> []).
  { intros E. unfold task_words in Etk. rewrite E in Etk. discriminate. }
  rewrite <- Etk in *.
  assert (Hne : task_words task <> []) by (rewrite Etk; discriminate).
  do 2 eexists. split; [reflexivity |].
  split; [intros E; now apply Hkw in E |]. intros _.
  assert (Hlen : length (union
                   (List.filter (fun k => Py.mem k (Py.str_set (List.map Py.lower kws)))
                                (task_words task))
                   (List.filter (fun keyword => Py.contains keyword (Py.lower d))
                                (task_words task)))
                 = length (keyword_hits kws d task)).
  { rewrite union_filter_length by exact Hnd. unfold keyword_hits.
    f_equal. apply List.filter_ext. intros x. now rewrite mem_str_set. }
  assert (Hle : (length (keyword_hits kws d task) <= length (task_words task))%nat)
    by apply List.filter_length_le.
  pose proof (ratio_bounds (keyword_hits kws d task) (task_words task) Hne Hle)
    as Hratio.
  unfold Py.len in *. rewrite Hlen.
  match goal with
  | |- (Py.min ?a ?b == _)%Q =>
      destruct (min_cases a b) as [[-> H] | [-> H]]; lra
  end.
Qed.

Lemma score_keywords_is_fraction_witness :
  Py.get "keywords" (VList []) agent_words = VList (List.map VStr ["Search"; "NLP"])
  /\ Py.get "description" (VStr "") agent_words = VStr "Finds Documents fast"
  /\ exists q reasons',
       _score_keywords (env_at 0) agent_words task_words3 [] = Ok (q, reasons')
       /\ (Task.keywords task_words3 = [] -> q = 0.7%Q)
       /\ (Task.keywords task_words3 <> [] ->
           (q == Py.len (keyword_hits ["Search"; "NLP"] "Finds Documents fast"
                           task_words3)
                 / Py.len (task_words task_words3))%Q).
Proof.
  split; [reflexivity |]. split; [reflexivity |].
  apply (score_keywords_is_fraction (env_at 0) agent_words task_words3 []
           ["Search"; "NLP"] "Finds Documents fast"); reflexivity.
Defined.

(** Two of the three keywords are found, one among the keywords and one in
    the description, whatever their case. *)
Example score_keywords_two_thirds :
  exists q reasons',
    _score_keywords (env_at 0) agent_words task_words3 [] = Ok (q, reasons')
    /\ (q == 2 / 3)%Q
    /\ reasons' = ["Keyword matches: search, document"].
Proof.
  do 2 eexists. split; [vm_compute; reflexivity |].
  split; reflexivity.
Qed.

(** ** Performance and confidence *)

Section Performance.

Lemma lookup_not_empty {V} (d : dict V) (k : string) (v : V) :
  d !! k = Some v -> Py.is_empty d = false.
Proof.
  intros H. unfold Py.is_empty.
  destruct (map_to_list d) as [| x l] eqn:E; [| reflexivity].
  apply map_to_list_empty_iff in E. subst d.
  rewrite lookup_empty in H. discriminate.
Qed.

(** The score of an agent that has an entry with numeric metrics. *)
Lemma score_performance_entry agent id pd perf sr t rel :
  Py.get_none "agent_id" agent = VStr id ->
  pd !! id = Some perf ->
  has_metrics perf sr t rel ->
  _score_performance agent (Some pd)
  = Ok (Py.min 1.0 (sr * 0.5 + Py.max 0.0 (1.0 - t / 30.0) * 0.3 + rel * 0.2))%Q.
Proof.
  intros Hid Hpd (Hsr & Ht & Hrel). unfold _score_performance.
  rewrite (lookup_not_empty pd id perf Hpd), Hid. simpl. rewrite Hpd.
  rewrite Hsr, Ht, Hrel. reflexivity.
Qed.

End Performance.

(** X3. The performance score is monotone in the metrics: for an agent with
    an entry in both of two snapshots, the entry with the higher success
    rate, the lower average response time and the higher reliability gets a
    score that is at least as high. *)
Theorem score_performance_monotone agent id pd1 pd2 perf1 perf2
    sr1 t1 rel1 sr2 t2 rel2 :
  Py.get_none "agent_id" agent = VStr id ->
  pd1 !! id = Some perf1 -> pd2 !! id = Some perf2 ->
  has_metrics perf1 sr1 t1 rel1 -> has_metrics perf2 sr2 t2 rel2 ->
  (sr1 <= sr2)%Q -> (t2 <= t1)%Q -> (rel1 <= rel2)%Q ->
  exists q1 q2,
    _score_performance agent (Some pd1) = Ok q1
    /\ _score_performance agent (Some pd2) = Ok q2
    /\ (q1 <= q2)%Q.
Proof.
  intros Hid H1 H2 Hm1 Hm2 Hsr Ht Hrel.
  rewrite (score_performance_entry agent id pd1 perf1 sr1 t1 rel1 Hid H1 Hm1).
  rewrite (score_performance_entry agent id pd2 perf2 sr2 t2 rel2 Hid H2 Hm2).
  do 2 eexists. split; [reflexivity |]. split; [reflexivity |].
  assert (Hdiv : (t2 / 30.0 <= t1 / 30.0)%Q).
  { unfold Qdiv. apply Qmult_le_compat_r; [exact Ht | vm_compute; discriminate]. }
  set (a1 := (t1 / 30.0)%Q) in *. set (a2 := (t2 / 30.0)%Q) in *.
  destruct (max_cases 0.0 (1.0 - a1)) as [[-> Ha] | [-> Ha]];
    destruct (max_cases 0.0 (1.0 - a2)) as [[-> Hb] | [-> Hb]];
    match goal with
    | |- (Py.min 1.0 ?a <= Py.min 1.0 ?b)%Q =>
        destruct (min_cases 1.0 a) as [[-> Hc] | [-> Hc]];
        destruct (min_cases 1.0 b) as [[-> Hd] | [-> Hd]]; lra
    end.
Qed.

Lemma score_performance_monotone_witness :
  Py.get_none "agent_id" agent_A_named = VStr "A"
  /\ exists q1 q2,
       _score_performance agent_A_named (Some {[ "A" := entry_slow ]}) = Ok q1
       /\ _score_performance agent_A_named (Some {[ "A" := entry_fast ]}) = Ok q2
       /\ (q1 <= q2)%Q.
Proof.
  split; [reflexivity |].
  apply (score_performance_monotone agent_A_named "A"
           {[ "A" := entry_slow ]} {[ "A" := entry_fast ]} entry_slow entry_fast
           0.5 20 0.6 0.9 3 0.95);
    try reflexivity; try (repeat split; reflexivity); vm_compute; discriminate.
Defined.

Section ConfidenceBounds.

Lemma calculate_confidence_cases agent task :
  let c := Task.confidence task in
  exists raw, (0.5 <= raw <= 1)%Q
    /\ _calculate_confidence agent task = Py.min 1.0 (raw * c)%Q
    /\ (forallb (described_by agent)
          ["capabilities"; "description"; "domain"; "last_seen"; "status"] = true ->
        (raw == 1)%Q)
    /\ (existsb (described_by agent)
          ["capabilities"; "description"; "domain"; "last_seen"; "status"] = false ->
        (raw == 0.5)%Q).
Proof.
  intros c. unfold _calculate_confidence, described_by. simpl. fold c.
  destruct (Py.truthy (Py.get_none "capabilities" agent));
    destruct (Py.truthy (Py.get_none "description" agent));
    destruct (Py.truthy (Py.get_none "domain" agent));
    destruct (Py.truthy (Py.get_none "last_seen" agent));
    destruct (Py.truthy (Py.get_none "status" agent));
    simpl; eexists; (split; [| split; [reflexivity |]]);
    try (split; intros H; try discriminate H; reflexivity);
    lra.
Qed.

End ConfidenceBounds.

(** X4. When the task confidence [c] lies in [0,1], the confidence of every
    agent lies between [c/2] and [c]; it is [c] for a record with
    capabilities, description, domain, last_seen and status, and [c/2] for a
    record with none of them. *)
Theorem calculate_confidence_bounds agent task :
  (0 <= Task.confidence task <= 1)%Q ->
  (0.5 * Task.confidence task <= _calculate_confidence agent task
   <= Task.confidence task)%Q
  /\ (forallb (described_by agent)
        ["capabilities"; "description"; "domain"; "last_seen"; "status"] = true ->
      (_calculate_confidence agent task == Task.confidence task)%Q)
  /\ (existsb (described_by agent)
        ["capabilities"; "description"; "domain"; "last_seen"; "status"] = false ->
      (_calculate_confidence agent task == 0.5 * Task.confidence task)%Q).
Proof.
  intros Hc.
  destruct (calculate_confidence_cases agent task) as (raw & Hraw & -> & Hall & Hnone).
  assert (Hprod : (0.5 * Task.confidence task <= raw * Task.confidence task
                   <= Task.confidence task)%Q) by nra.
  destruct (min_cases 1.0 (raw * Task.confidence task)) as [[-> H] | [-> H]].
  - split; [lra |]. split.
    + intros Ha. specialize (Hall Ha). nra.
    + intros Hn. specialize (Hnone Hn). nra.
  - split; [lra |]. split.
    + intros Ha. rewrite (Hall Ha). lra.
    + intros Hn. rewrite (Hnone Hn). lra.
Qed.

Lemma calculate_confidence_bounds_witness :
  (0 <= Task.confidence task_A <= 1)%Q
  /\ (0.5 * Task.confidence task_A <= _calculate_confidence agent_A task_A
      <= Task.confidence task_A)%Q.
Proof.
  split; [split; vm_compute; discriminate |].
  apply (calculate_confidence_bounds agent_A task_A).
  split; vm_compute; discriminate.
Defined.

(** ** The confidence floor *)

Section Floor.

Lemma confidence_below_floor agent task :
  (Task.confidence task < 0.4)%Q -> (_calculate_confidence agent task < 0.4)%Q.
Proof.
  intros Hc.
  destruct (calculate_confidence_cases agent task) as (raw & Hraw & -> & _).
  destruct (min_cases 1.0 (raw * Task.confidence task)) as [[-> H] | [-> H]]; nra.
Qed.

Lemma confidence_above_floor agent task :
  (0.8 <= Task.confidence task)%Q -> (0.4 <= _calculate_confidence agent task)%Q.
Proof.
  intros Hc.
  destruct (calculate_confidence_cases agent task) as (raw & Hraw & -> & _).
  destruct (min_cases 1.0 (raw * Task.confidence task)) as [[-> H] | [-> H]]; nra.
Qed.

Lemma ranked_from_agents env agents task pd ranked s :
  rank_agents env agents task pd = Ok ranked -> In s ranked ->
  exists a, In a agents /\ _score_agent env a task pd = Ok s.
Proof.
  intros H Hin. destruct (rank_agents_inv _ _ _ _ _ H) as [scores [Hs ->]].
  apply (Permutation_in _ (Permutation_sym (sort_desc_perm score scores))) in Hin.
  exact (Forall2_In_r _ _ _ _ Hs Hin).
Qed.

Lemma discover_agents_inv env registry cache task limit min_score filters r :
  discover_agents env registry cache task limit min_score filters = Ok r ->
  exists agents ranked,
    _get_relevant_agents env registry task filters = Ok agents
    /\ rank_agents env agents task (Some cache) = Ok ranked
    /\ r = {| task_analysis := task;
              recommended_agents := get_top_recommendations ranked limit min_score;
              total_agents_evaluated := length agents;
              search_time_seconds := elapsed env;
              suggestions :=
                _generate_suggestions task
                  (get_top_recommendations ranked limit min_score) |}.
Proof.
  unfold discover_agents. intros H.
  destruct (_get_relevant_agents env registry task filters) as [agents |] eqn:Eg;
    [| discriminate].
  simpl in H.
  destruct (rank_agents env agents task (Some cache)) as [ranked |] eqn:Er;
    [| discriminate].
  simpl in H. injection H as <-. exists agents, ranked. auto.
Qed.

End Floor.

(** X5. A task analysis of confidence below 0.4 never yields a
    recommendation: every result of [discover_agents] has an empty list of
    recommended agents and carries the four "no agents found" suggestions
    first, for every registry, cache, filter, limit and minimum score. *)
Theorem low_confidence_recommends_nothing env registry cache task limit
    min_score filters r :
  (Task.confidence task < 0.4)%Q ->
  discover_agents env registry cache task limit min_score filters = Ok r ->
  recommended_agents r = []
  /\ firstn 4 (suggestions r)
     = [ "No agents found matching your requirements";
         "Try searching for agents with '" +:+ Task.domain task
           +:+ "' domain expertise";
         "Consider breaking down your task into smaller components";
         "Check if your required capabilities are too specific" ].
Proof.
  intros Hc H.
  destruct (discover_agents_inv _ _ _ _ _ _ _ _ H) as (agents & ranked & _ & Hr & ->).
  simpl.
  assert (E : get_top_recommendations ranked limit min_score = []).
  { unfold get_top_recommendations. rewrite filter_none; [apply slice_to_nil |].
    intros s Hs. destruct (ranked_from_agents _ _ _ _ _ _ Hr Hs) as [a [_ Ha]].
    apply andb_false_intro2. apply not_true_is_false. intros Hle.
    apply Qle_bool_iff in Hle.
    rewrite (score_agent_confidence _ _ _ _ _ Ha) in Hle.
    pose proof (confidence_below_floor a task Hc). lra. }
  rewrite E. split; [reflexivity |].
  unfold _generate_suggestions. simpl.
  destruct (String.eqb (Task.task_type task) "data_analysis"); [reflexivity |].
  destruct (String.eqb (Task.task_type task) "automation"); reflexivity.
Qed.

Lemma low_confidence_recommends_nothing_witness :
  (Task.confidence task_unsure < 0.4)%Q
  /\ exists r,
       discover_agents (env_at 0) registry_plain ∅ task_unsure 5 0 None = Ok r
       /\ recommended_agents r = [].
Proof.
  split; [reflexivity |].
  eexists. split; [vm_compute; reflexivity |].
  apply (low_confidence_recommends_nothing (env_at 0) registry_plain ∅
           task_unsure 5 0 None); [reflexivity | vm_compute; reflexivity].
Defined.

(** X6. With a task confidence of at least 0.8 the confidence floor removes
    nobody: the recommendations drawn from a ranking are exactly its entries
    with [score >= min_score], cut by the limit. *)
Theorem high_confidence_keeps_floor env agents task pd ranked limit min_score :
  (0.8 <= Task.confidence task)%Q ->
  rank_agents env agents task pd = Ok ranked ->
  get_top_recommendations ranked limit min_score
  = Py.slice_to (List.filter (fun s => Qle_bool min_score (score s)) ranked) limit.
Proof.
  intros Hc Hr. unfold get_top_recommendations. f_equal.
  assert (Hall : forall s, In s ranked -> Qle_bool 0.4 (confidence s) = true).
  { intros s Hs. destruct (ranked_from_agents _ _ _ _ _ _ Hr Hs) as [a [_ Ha]].
    apply Qle_bool_iff. rewrite (score_agent_confidence _ _ _ _ _ Ha).
    now apply confidence_above_floor. }
  clear Hr. induction ranked as [| s l IH]; [reflexivity |]. simpl.
  rewrite (Hall s (or_introl eq_refl)), andb_true_r.
  rewrite IH; [reflexivity |]. intros x Hx. apply Hall. now right.
Qed.

Lemma high_confidence_keeps_floor_witness :
  (0.8 <= Task.confidence task_A)%Q
  /\ exists ranked,
       rank_agents (env_at 0) [agent_offline; agent_A] task_A None = Ok ranked
       /\ get_top_recommendations ranked 5 0.3
          = Py.slice_to
              (List.filter (fun s => Qle_bool 0.3 (score s)) ranked) 5.
Proof.
  split; [vm_compute; discriminate |].
  eexists. split; [vm_compute; reflexivity |].
  apply (high_confidence_keeps_floor (env_at 0) [agent_offline; agent_A] task_A
           None); [vm_compute; discriminate | vm_compute; reflexivity].
Defined.

(** ** What scoring reads from a record *)

Section Reads.

Variables a1 a2 : dict value.
Hypothesis Hagree : forall k, In k scored_fields -> a1 !! k = a2 !! k.

Lemma get_agree (k : string) (dflt : value) :
  In k scored_fields -> Py.get k dflt a1 = Py.get k dflt a2.
Proof. intros Hk. unfold Py.get. now rewrite (Hagree k Hk). Qed.

Lemma score_capabilities_agree env task reasons :
  _score_capabilities env a1 task reasons = _score_capabilities env a2 task reasons.
Proof.
  unfold _score_capabilities. rewrite (get_agree "capabilities"); [reflexivity |].
  field_in.
Qed.

Lemma score_domain_agree task reasons :
  _score_domain a1 task reasons = _score_domain a2 task reasons.
Proof.
  unfold _score_domain. rewrite (get_agree "domain"); [reflexivity | field_in].
Qed.

Lemma score_keywords_agree env task reasons :
  _score_keywords env a1 task reasons = _score_keywords env a2 task reasons.
Proof.
  unfold _score_keywords.
  rewrite (get_agree "keywords"), (get_agree "description");
    [reflexivity | field_in | field_in].
Qed.

Lemma score_performance_agree pd :
  _score_performance a1 pd = _score_performance a2 pd.
Proof.
  unfold _score_performance, Py.get_none.
  rewrite (get_agree "agent_id"); [reflexivity | field_in].
Qed.

Lemma score_availability_agree env :
  _score_availability env a1 = _score_availability env a2.
Proof.
  unfold _score_availability, Py.get_none.
  rewrite (get_agree "status"), (get_agree "last_seen");
    [reflexivity | field_in | field_in].
Qed.

Lemma score_load_agree : _score_load a1 = _score_load a2.
Proof.
  unfold _score_load. rewrite (get_agree "current_load"); [reflexivity | field_in].
Qed.

Lemma calculate_confidence_agree task :
  _calculate_confidence a1 task = _calculate_confidence a2 task.
Proof.
  unfold _calculate_confidence, Py.get_none.
  rewrite (get_agree "capabilities"), (get_agree "description"),
    (get_agree "domain"), (get_agree "last_seen"), (get_agree "status");
    [reflexivity | field_in ..].
Qed.

End Reads.

(** X7. Scoring reads eight fields of a record and nothing else: two records
    that agree on agent_id, capabilities, domain, keywords, description,
    status, last_seen and current_load get the same result, whatever other
    fields (tags, URLs, ...) they hold. *)
Theorem score_agent_reads_scored_fields env a1 a2 task pd :
  (forall k, In k scored_fields -> a1 !! k = a2 !! k) ->
  _score_agent env a1 task pd = _score_agent env a2 task pd.
Proof.
  intros H. unfold _score_agent.
  rewrite (score_capabilities_agree a1 a2 H).
  destruct (_score_capabilities env a2 task []) as [[q1 r1] |]; [| reflexivity].
  simpl. rewrite (score_domain_agree a1 a2 H).
  destruct (_score_domain a2 task r1) as [[q2 r2] |]; [| reflexivity].
  simpl. rewrite (score_keywords_agree a1 a2 H).
  destruct (_score_keywords env a2 task r2) as [[q3 r3] |]; [| reflexivity].
  simpl. rewrite (score_performance_agree a1 a2 H).
  destruct (_score_performance a2 pd) as [q4 |]; [| reflexivity].
  simpl. rewrite (score_availability_agree a1 a2 H).
  destruct (_score_availability env a2) as [q5 |]; [| reflexivity].
  simpl. rewrite (score_load_agree a1 a2 H).
  destruct (_score_load a2) as [q6 |]; [| reflexivity].
  simpl. rewrite (calculate_confidence_agree a1 a2 H).
  rewrite (get_agree a1 a2 H "agent_id"); [reflexivity |].
  unfold scored_fields. simpl. tauto.
Qed.

Lemma score_agent_reads_scored_fields_witness :
  (forall k, In k scored_fields -> agent_A_tagged !! k = agent_A !! k)
  /\ _score_agent (env_at 0) agent_A_tagged task_A None
     = _score_agent (env_at 0) agent_A task_A None.
Proof.
  assert (H : forall k, In k scored_fields -> agent_A_tagged !! k = agent_A !! k).
  { intros k Hk. unfold scored_fields in Hk. simpl in Hk.
    repeat (destruct Hk as [<- | Hk]; [vm_compute; reflexivity |]).
    destruct Hk. }
  split; [exact H |].
  exact (score_agent_reads_scored_fields (env_at 0) agent_A_tagged agent_A
           task_A None H).
Defined.

(** ** Failures while ranking *)

Section RankFailure.

Lemma for_each_raise {A B} (f : A -> result B) (l : list A) (e : exn) :
  Py.for_each f l = Raise e <->
  exists l1 a l2,
    l = l1 ++ a :: l2
    /\ List.Forall (fun x => exists y, f x = Ok y) l1
    /\ f a = Raise e.
Proof.
  induction l as [| x l IH]; simpl.
  - split; [discriminate |]. intros (l1 & a & l2 & E & _). now destruct l1.
  - split.
    + intros H. destruct (f x) as [y | e'] eqn:Ex; simpl in H.
      * destruct (Py.for_each f l) as [ys | e''] eqn:El; simpl in H;
          [discriminate |].
        injection H as ->. destruct (proj1 IH eq_refl) as (l1 & a & l2 & -> & Hl1 & Ha).
        exists (x :: l1), a, l2. split; [reflexivity |].
        split; [constructor; eauto | exact Ha].
      * injection H as ->. exists [], x, l. auto.
    + intros (l1 & a & l2 & E & Hl1 & Ha).
      destruct l1 as [| x' l1]; simpl in E; injection E as <- ->.
      * rewrite Ha. reflexivity.
      * inversion Hl1 as [| ? ? [y Hy] Hl1']; subst. rewrite Hy. simpl.
        assert (El : Py.for_each f (l1 ++ a :: l2) = Raise e).
        { apply IH. exists l1, a, l2. auto. }
        rewrite El. reflexivity.
Qed.

End RankFailure.

(** X8. Ranking is all or nothing.  When it returns, it returns as many
    scores as it was given agents; it raises exactly when some agent fails to
    score, and then with the exception of the first such agent in the input,
    whatever the agents after it are. *)
Theorem rank_agents_first_failure env agents task pd :
  (forall ranked, rank_agents env agents task pd = Ok ranked ->
                  length ranked = length agents)
  /\ (forall e,
        rank_agents env agents task pd = Raise e <->
        exists before a after,
          agents = before ++ a :: after
          /\ List.Forall (fun x => exists s, _score_agent env x task pd = Ok s) before
          /\ _score_agent env a task pd = Raise e).
Proof.
  split.
  - intros ranked H. destruct (rank_agents_inv _ _ _ _ _ H) as [scores [Hs ->]].
    rewrite <- (Permutation_length (sort_desc_perm score scores)).
    symmetry. exact (List.Forall2_length Hs).
  - intros e. rewrite <- (for_each_raise
                            (fun agent => _score_agent env agent task pd)).
    unfold rank_agents.
    destruct (Py.for_each _ agents) as [scores | e']; simpl;
      split; congruence.
Qed.

(** A record whose status is null stops the ranking of the records around
    it. *)
Example rank_agents_null_status :
  _score_agent (env_at 0) agent_null_status task_A None = Raise AttributeError
  /\ rank_agents (env_at 0) [agent_A; agent_null_status; agent_online] task_A None
     = Raise AttributeError.
Proof. split; vm_compute; reflexivity. Qed.

(** ** The result of a discovery *)

Section Result.

Lemma filter_sorted {A} (R : A -> A -> Prop) (p : A -> bool) (l : list A) :
  StronglySorted R l -> StronglySorted R (List.filter p l).
Proof.
  induction 1 as [| x l Hs IH Hx]; simpl; [constructor |].
  destruct (p x); [| exact IH]. constructor; [exact IH |].
  apply List.Forall_forall. intros y Hy. apply filter_In in Hy.
  rewrite List.Forall_forall in Hx. now apply Hx.
Qed.

Lemma firstn_sorted {A} (R : A -> A -> Prop) (n : nat) (l : list A) :
  StronglySorted R l -> StronglySorted R (firstn n l).
Proof.
  intros Hs. revert n. induction Hs as [| x l Hs IH Hx]; intros [| n]; simpl;
    try constructor.
  - apply IH.
  - apply List.Forall_forall. intros y Hy. apply firstn_incl in Hy.
    rewrite List.Forall_forall in Hx. now apply Hx.
Qed.

Lemma slice_to_sorted {A} (R : A -> A -> Prop) (n : Z) (l : list A) :
  StronglySorted R l -> StronglySorted R (Py.slice_to l n).
Proof.
  intros Hs. unfold Py.slice_to. destruct (0 <=? n)%Z; now apply firstn_sorted.
Qed.

Lemma slice_to_incl {A} (n : Z) (l : list A) (x : A) :
  In x (Py.slice_to l n) -> In x l.
Proof.
  unfold Py.slice_to. destruct (0 <=? n)%Z; apply firstn_incl.
Qed.

Lemma slice_to_length {A} (n : Z) (l : list A) :
  (length (Py.slice_to l n) <= length l)%nat
  /\ ((0 <= n)%Z -> (length (Py.slice_to l n) <= Z.to_nat n)%nat).
Proof.
  unfold Py.slice_to. split.
  - destruct (0 <=? n)%Z; rewrite List.length_firstn; lia.
  - intros Hn. apply Z.leb_le in Hn. rewrite Hn, List.length_firstn. lia.
Qed.

Lemma rank_agents_descending env agents task pd ranked :
  rank_agents env agents task pd = Ok ranked -> descending ranked.
Proof.
  intros H. destruct (rank_agents_inv _ _ _ _ _ H) as [scores [_ ->]].
  apply sort_desc_sorted.
Qed.

Lemma rank_agents_length env agents task pd ranked :
  rank_agents env agents task pd = Ok ranked -> length ranked = length agents.
Proof.
  intros H. destruct (rank_agents_inv _ _ _ _ _ H) as [scores [Hs ->]].
  rewrite <- (Permutation_length (sort_desc_perm score scores)).
  symmetry. exact (List.Forall2_length Hs).
Qed.

End Result.

(** X9. Every result of [discover_agents] is consistent: it carries the task
    analysis it was given; its recommended agents are sorted descending by
    score; each of them is the score of a gathered candidate, with
    [score >= min_score] and [confidence >= 0.4]; there are no more of them
    than candidates evaluated, and no more than [limit] when the limit is
    not negative. *)
Theorem discover_agents_result env registry cache task limit min_score filters r :
  discover_agents env registry cache task limit min_score filters = Ok r ->
  task_analysis r = task
  /\ descending (recommended_agents r)
  /\ (exists candidates,
        _get_relevant_agents env registry task filters = Ok candidates
        /\ total_agents_evaluated r = length candidates
        /\ forall s, In s (recommended_agents r) ->
             (exists a, In a candidates
                        /\ _score_agent env a task (Some cache) = Ok s)
             /\ (min_score <= score s)%Q /\ (0.4 <= confidence s)%Q)
  /\ (length (recommended_agents r) <= total_agents_evaluated r)%nat
  /\ ((0 <= limit)%Z -> (length (recommended_agents r) <= Z.to_nat limit)%nat).
Proof.
  intros H.
  destruct (discover_agents_inv _ _ _ _ _ _ _ _ H)
    as (agents & ranked & Hg & Hr & ->). simpl.
  pose proof (rank_agents_descending _ _ _ _ _ Hr) as Hd.
  pose proof (rank_agents_length env agents task (Some cache) ranked Hr)
    as Hsame.
  unfold get_top_recommendations.
  set (kept := List.filter _ ranked).
  destruct (slice_to_length limit kept) as [Hlen Hlim].
  split; [reflexivity |].
  split; [apply slice_to_sorted; now apply filter_sorted |].
  split.
  - exists agents. split; [exact Hg |]. split; [reflexivity |].
    intros s Hs. apply slice_to_incl in Hs. unfold kept in Hs.
    apply filter_In in Hs. destruct Hs as [Hin Hp].
    apply andb_prop in Hp. destruct Hp as [H1 H2].
    apply Qle_bool_iff in H1, H2.
    split; [exact (ranked_from_agents _ _ _ _ _ _ Hr Hin) | split; assumption].
  - split; [| exact Hlim].
    etransitivity; [exact Hlen |].
    unfold kept. etransitivity; [apply List.filter_length_le |]. lia.
Qed.

Lemma discover_agents_result_witness :
  exists r,
    discover_agents (env_at 0) registry_plain ∅ task_search 5 0.3 None = Ok r
    /\ total_agents_evaluated r = 1%nat
    /\ length (recommended_agents r) = 1%nat
    /\ descending (recommended_agents r)
    /\ ((0 <= 5)%Z -> (length (recommended_agents r) <= Z.to_nat 5)%nat).
Proof.
  eexists. split; [vm_compute; reflexivity |].
  split; [reflexivity |]. split; [reflexivity |].
  match goal with
  | |- descending (recommended_agents ?r) /\ _ =>
      destruct (discover_agents_result (env_at 0) registry_plain ∅ task_search
                  5 0.3 None r) as (_ & Hd & _ & _ & Hl);
        [vm_compute; reflexivity | exact (conj Hd Hl)]
  end.
Defined.

(** ** Suggestions *)

Section Suggestions.

Lemma eqb_false_neq (s t : string) : String.eqb s t = false -> s <> t.
Proof. intros E H. subst. rewrite String.eqb_refl in E. discriminate. Qed.

End Suggestions.

(** X10. Which suggestions are generated.  There are at most five.  The
    "no agents found" guidance appears exactly when there is no
    recommendation, the "only one agent found" hint exactly when there is
    one, and the advice for complex tasks exactly when the task is complex
    and there are at least two recommendations; the two task-type hints
    follow the task type alone; and the "moderate" warning appears exactly
    when there is a top recommendation with a score under 0.7. *)
Theorem generate_suggestions_rules task recs :
  let out := _generate_suggestions task recs in
  (length out <= 5)%nat
  /\ (In "No agents found matching your requirements" out <-> recs = [])
  /\ (In "Only one agent found - consider broadening your search criteria" out
      <-> length recs = 1%nat)
  /\ (In "This appears to be a complex task" out
      <-> Task.complexity task = "complex" /\ (2 <= length recs)%nat)
  /\ (In "For data analysis tasks, ensure agents have visualization capabilities" out
      <-> Task.task_type task = "data_analysis")
  /\ (In "For automation, look for agents with workflow management features" out
      <-> Task.task_type task = "automation")
  /\ (In "Match confidence is moderate - review agent details carefully" out
      <-> exists top rest, recs = top :: rest /\ (score top < 0.7)%Q).
Proof.
  unfold _generate_suggestions.
  destruct (String.eqb (Task.task_type task) "data_analysis") eqn:Edata;
    [apply String.eqb_eq in Edata | apply eqb_false_neq in Edata];
    (destruct (String.eqb (Task.task_type task) "automation") eqn:Eauto;
     [apply String.eqb_eq in Eauto | apply eqb_false_neq in Eauto]);
    try congruence;
    (destruct (String.eqb (Task.complexity task) "complex") eqn:Ecomplex;
     [apply String.eqb_eq in Ecomplex | apply eqb_false_neq in Ecomplex]);
    (destruct recs as [| top [| second rest]];
     [| destruct (Qle_bool 0.7 (score top)) eqn:Etop;
        [apply Qle_bool_iff in Etop | apply Qle_bool_false in Etop] ..]);
    simpl;
    (split; [lia |]);
    repeat match goal with
           | |- _ /\ _ => split
           | |- _ <-> _ => split; intros H
           end;
    try (in_list; fail);
    try (not_in H; fail);
    try congruence;
    try lia;
    try (destruct H as [? H]; try congruence; lia);
    try (destruct H as (t & r & E & Hlt); try discriminate E;
         injection E as <- <-; lra);
    try (do 2 eexists; split; [reflexivity | assumption]);
    try (split; [assumption | simpl; lia]).
Qed.

(** ** More on the filters *)

Section FilterFacts.

Lemma filter_each_total {A} (p : A -> result bool) (l : list A) :
  List.Forall (fun a => exists b, p a = Ok b) l ->
  exists l', Py.filter_each p l = Ok l'.
Proof.
  induction 1 as [| x l [b Hb] _ [l' Hl']]; simpl; [eauto |].
  rewrite Hb. simpl. rewrite Hl'. simpl. eauto.
Qed.

Lemma filter_incl_Forall {A} (P : A -> Prop) (p : A -> bool) (l : list A) :
  List.Forall P l -> List.Forall P (List.filter p l).
Proof.
  rewrite !List.Forall_forall. intros H x Hx. apply filter_In in Hx. now apply H.
Qed.

Lemma filterable_id a :
  filterable a = true -> Py.hashable (Py.get_none "agent_id" a) = true.
Proof.
  unfold filterable. intros H. apply andb_prop in H. destruct H as [H _].
  now apply (get_field _ _ VNone) in H.
Qed.

Lemma filterable_domain a :
  filterable a = true -> exists d, Py.get "domain" (VStr "") a = VStr d.
Proof.
  unfold filterable. intros H. apply andb_prop in H. destruct H as [_ H].
  apply (get_field _ _ (VStr "")) in H; [| reflexivity]. now apply is_str_inv.
Qed.

End FilterFacts.

(** X11. With well-formed filters (excluded ids a list of hashable values,
    domain a string) and records whose id is hashable and whose domain is a
    string or absent, [_apply_filters] returns, and returns exactly the
    records that have the wanted status, are not excluded and have the wanted
    domain up to case, in their original order. *)
Theorem apply_filters_total agents filters :
  filters_typed filters = true ->
  List.Forall (fun a => filterable a = true) agents ->
  _apply_filters agents filters = Ok (List.filter (passes filters) agents).
Proof.
  intros Hf Ha.
  assert (Hex : exists l', _apply_filters agents filters = Ok l').
  { unfold _apply_filters, filter_key. unfold filters_typed, field in Hf.
    apply andb_prop in Hf. destruct Hf as [Hex Hdom].
    set (l1 := match filters !! "status" with
               | Some wanted =>
                   List.filter (fun a => Py.py_eqb (Py.get_none "status" a) wanted)
                               agents
               | None => agents
               end).
    assert (H1 : List.Forall (fun a => filterable a = true) l1).
    { unfold l1. destruct (filters !! "status"); [now apply filter_incl_Forall | exact Ha]. }
    assert (E1 : (match filters !! "status" with
                  | Some wanted =>
                      Ok (List.filter
                            (fun a => Py.py_eqb (Py.get_none "status" a) wanted) agents)
                  | None => Ok agents
                  end) = Ok l1)
      by (unfold l1; now destruct (filters !! "status")).
    rewrite E1. simpl. clear E1.
    assert (H2 : exists l2,
               (match filters !! "exclude_agents" with
                | Some excluded =>
                    elems ← Py.iter excluded;
                    exclude_set ← Py.set_of elems;
                    Py.filter_each
                      (fun a => b ← Py.set_mem (Py.get_none "agent_id" a) exclude_set;
                                Ok (negb b)) l1
                | None => Ok l1
                end) = Ok l2 /\ List.Forall (fun a => filterable a = true) l2).
    { destruct (filters !! "exclude_agents") as [excluded |]; [| eauto].
      destruct excluded as [| | | | ex]; try discriminate. simpl.
      unfold Py.set_of. rewrite Hex. simpl.
      destruct (filter_each_total
                  (fun a => b ← Py.set_mem (Py.get_none "agent_id" a)
                                  (Py.dedup Py.py_eqb ex);
                            Ok (negb b)) l1) as [l2 E2].
      - apply List.Forall_impl with (2 := H1). intros a Hfa.
        unfold Py.set_mem. rewrite (filterable_id a Hfa). simpl. eauto.
      - exists l2. split; [exact E2 |].
        rewrite (filter_each_filter _ _ _ E2). now apply filter_incl_Forall. }
    destruct H2 as [l2 [-> H2]]. simpl.
    destruct (filters !! "domain") as [d |]; [| eauto].
    destruct (is_str_inv d Hdom) as [ds ->]. simpl.
    apply filter_each_total.
    apply List.Forall_impl with (2 := H2). intros a Hfa.
    destruct (filterable_domain a Hfa) as [ad ->]. simpl. eauto. }
  destruct Hex as [l' E]. rewrite E. f_equal. now apply apply_filters_spec.
Qed.

Lemma apply_filters_total_witness :
  filters_typed filters_sample = true
  /\ List.Forall (fun a => filterable a = true)
       [agent_finance; agent_finance_excluded; agent_A]
  /\ _apply_filters [agent_finance; agent_finance_excluded; agent_A] filters_sample
     = Ok (List.filter (passes filters_sample)
             [agent_finance; agent_finance_excluded; agent_A]).
Proof.
  split; [vm_compute; reflexivity |].
  split; [repeat constructor |].
  apply (apply_filters_total [agent_finance; agent_finance_excluded; agent_A]
           filters_sample); [vm_compute; reflexivity | repeat constructor].
Defined.

(** The sample filters keep the finance agent, whatever the case of its
    domain, and drop the excluded one and the one of another domain. *)
Example apply_filters_sample :
  _apply_filters [agent_finance; agent_finance_excluded; agent_A] filters_sample
  = Ok [agent_finance].
Proof. vm_compute. reflexivity. Qed.

(** X12. The filter key "min_score" is ignored: setting it to any value
    changes no outcome of [_apply_filters], and a filter dict that holds
    nothing else makes candidate gathering behave as without filters. *)
Theorem min_score_filter_ignored v :
  (forall agents filters,
      _apply_filters agents (<["min_score" := v]> filters)
      = _apply_filters agents filters)
  /\ (forall env registry task,
        _get_relevant_agents env registry task (Some {["min_score" := v]})
        = _get_relevant_agents env registry task None).
Proof.
  assert (H : forall agents filters,
             _apply_filters agents (<["min_score" := v]> filters)
             = _apply_filters agents filters).
  { intros agents filters. unfold _apply_filters, filter_key.
    rewrite !lookup_insert_ne by discriminate. reflexivity. }
  split; [exact H |].
  intros env registry task. unfold _get_relevant_agents.
  destruct (gather registry task) as [agents |]; [| reflexivity]. simpl.
  rewrite (lookup_not_empty ({["min_score" := v]} : dict value) "min_score" v)
    by apply lookup_singleton_eq.
  change ({["min_score" := v]} : dict value)
    with (<["min_score" := v]> (∅ : dict value)).
  rewrite H. unfold _apply_filters, filter_key. rewrite !lookup_empty.
  reflexivity.
Qed.

(** X13. A malformed filter makes [_apply_filters] raise whatever the
    agents are, also when there are none: excluded ids that cannot be
    iterated raise the exception of the iteration, an unhashable excluded id
    raises [TypeError], and, when the exclusion passes, a wanted domain that
    is not a string raises [AttributeError]. *)
Theorem apply_filters_malformed agents filters :
  (forall v e, filters !! "exclude_agents" = Some v -> Py.iter v = Raise e ->
               _apply_filters agents filters = Raise e)
  /\ (forall l, filters !! "exclude_agents" = Some (VList l) ->
                forallb Py.hashable l = false ->
                _apply_filters agents filters = Raise TypeError)
  /\ (forall d, filters !! "exclude_agents" = None ->
                filters !! "domain" = Some d -> is_str d = false ->
                _apply_filters agents filters = Raise AttributeError).
Proof.
  unfold _apply_filters, filter_key.
  split; [| split].
  - intros v e Hv He. rewrite Hv, He.
    now destruct (filters !! "status").
  - intros l Hv Hh. rewrite Hv. simpl. unfold Py.set_of. rewrite Hh.
    now destruct (filters !! "status").
  - intros d Hex Hd Hs. rewrite Hex, Hd.
    destruct (filters !! "status"); simpl;
      destruct d; simpl in *; congruence.
Qed.

Lemma apply_filters_malformed_witness :
  ({["exclude_agents" := VNone]} : dict value) !! "exclude_agents" = Some VNone
  /\ Py.iter VNone = Raise TypeError
  /\ _apply_filters [] {["exclude_agents" := VNone]} = Raise TypeError.
Proof.
  split; [reflexivity |]. split; [reflexivity |].
  apply (proj1 (apply_filters_malformed [] {["exclude_agents" := VNone]})
           VNone TypeError); reflexivity.
Defined.

(** ** The outcome of gathering *)

(** X14. Given the records the searches of the registry answer with: as soon
    as one found record holds under some field a value that cannot be
    hashed, candidate gathering raises [TypeError], in every environment and
    under every filter; a list is such a value, an empty one too; and
    without filters, gathering returns exactly when every value of every
    found record can be hashed. *)
Theorem gather_outcome env registry task :
  (forall filters a k v,
      In a (found registry task) -> a !! k = Some v -> Py.hashable v = false ->
      _get_relevant_agents env registry task filters = Raise TypeError)
  /\ (forall filters a k l,
        In a (found registry task) -> a !! k = Some (VList l) ->
        _get_relevant_agents env registry task filters = Raise TypeError)
  /\ ((exists result, _get_relevant_agents env registry task None = Ok result)
      <-> (forall a k v, In a (found registry task) -> a !! k = Some v ->
                         Py.hashable v = true)).
Proof.
  assert (Hraise : forall filters a k v,
             In a (found registry task) -> a !! k = Some v ->
             Py.hashable v = false ->
             _get_relevant_agents env registry task filters = Raise TypeError).
  { intros filters a k v Hin Hk Hv. unfold _get_relevant_agents.
    rewrite gather_found.
    now rewrite (update_raises _ a Hin (record_key_unhashable a k v Hk Hv)). }
  split; [exact Hraise |]. split.
  - intros filters a k l Hin Hk. exact (Hraise filters a k (VList l) Hin Hk eq_refl).
  - split.
    + intros [result H] a k v Hin Hk.
      destruct (Py.hashable v) eqn:Hv; [reflexivity |].
      rewrite (Hraise None a k v Hin Hk Hv) in H. discriminate.
    + intros Hall. unfold _get_relevant_agents. rewrite gather_found.
      destruct (update_total (found registry task)
                  (fun a Ha k v Hk => Hall a k v Ha Hk) []) as [agents ->].
      simpl. eauto.
Qed.
(** ** The unfiltered candidates *)

(** X15. Without filters, when the searches find records none of which
    holds a list, candidate gathering returns the distinct found records:
    every returned record is a found record, unchanged by its passage
    through a sorted item tuple; every found record is returned, up to
    equality of its values; and no record is returned twice. *)
Theorem get_relevant_agents_unfiltered env registry task result :
  env_ok env ->
  found registry task <> [] ->
  _get_relevant_agents env registry task None = Ok result ->
  List.NoDup result
  /\ (forall a, In a result -> In a (found registry task))
  /\ (forall a, In a (found registry task) ->
        exists a', In a' result
                   /\ Py.items_eqb (Py.sorted_items a) (Py.sorted_items a') = true).
Proof.
  intros [_ Hperm] Hne H. unfold _get_relevant_agents in H.
  destruct (gather registry task) as [agents |] eqn:Eg; [| discriminate].
  simpl in H.
  destruct (gather_union _ _ _ Eg) as (Hfrom & Hall & Hdist).
  assert (Hhash : forall a, In a (found registry task) ->
                            forall k v, a !! k = Some v -> Py.hashable v = true).
  { rewrite gather_found in Eg. exact (update_ok_hashable _ _ _ Eg). }
  assert (Hrefl : forall t, In t agents -> Py.items_eqb t t = true).
  { intros t Ht. destruct (Hfrom t Ht) as [a [Ha ->]].
    apply items_eqb_refl. apply forallb_forall. intros [k v] Hkv.
    apply sorted_items_In in Hkv. exact (Hhash a Ha k v Hkv). }
  set (listed := List.map (fun agent : list (string * value) => list_to_map agent)
                          (record_iter env agents) : list (dict value)) in *.
  assert (Hin : forall a, In a listed <->
                          exists t, In t agents /\ a = list_to_map t).
  { intros a. unfold listed. rewrite in_map_iff. split.
    - intros [t [<- Ht]]. exists t. split; [| reflexivity].
      exact (Permutation_in _ (Hperm agents) Ht).
    - intros [t [Ht ->]]. exists t. split; [reflexivity |].
      exact (Permutation_in _ (Permutation_sym (Hperm agents)) Ht). }
  assert (Hres : result = listed).
  { destruct listed as [| a0 l0] eqn:El; [| now injection H as <-].
    exfalso. destruct (found registry task) as [| a rest]; [now apply Hne |].
    destruct (Hall a (or_introl eq_refl)) as [m [Hm _]].
    assert (Ha : In (list_to_map m : dict value) []).
    { apply Hin. eauto. }
    destruct Ha. }
  subst result. split; [| split].
  - unfold listed.
    apply (Permutation_NoDup
             (l := List.map (fun agent : list (string * value) =>
                               (list_to_map agent : dict value)) agents)).
    + apply Permutation_map. symmetry. apply Hperm.
    + apply Finite.Injective_map_NoDup_in.
      * intros t t' Ht Ht' E. destruct (Hfrom t Ht) as [a [_ ->]].
        destruct (Hfrom t' Ht') as [a' [_ ->]].
        rewrite !list_to_map_sorted_items in E. now subst.
      * now apply distinct_NoDup.
  - intros a Ha. apply Hin in Ha. destruct Ha as [t [Ht ->]].
    destruct (Hfrom t Ht) as [a' [Ha' ->]].
    now rewrite list_to_map_sorted_items.
  - intros a Ha. destruct (Hall a Ha) as [m [Hm Em]].
    exists (list_to_map m). split; [apply Hin; eauto |].
    destruct (Hfrom m Hm) as [a' [_ ->]].
    now rewrite list_to_map_sorted_items.
Qed.

Lemma get_relevant_agents_unfiltered_witness :
  env_ok (env_at 0)
  /\ found registry_plain task_search <> []
  /\ _get_relevant_agents (env_at 0) registry_plain task_search None
     = Ok [agent_offline]
  /\ List.NoDup [agent_offline]
  /\ (forall a, In a [agent_offline] -> In a (found registry_plain task_search)).
Proof.
  assert (Hok : env_ok (env_at 0)) by (split; intros l; reflexivity).
  assert (Hne : found registry_plain task_search <> []) by (vm_compute; discriminate).
  assert (E : _get_relevant_agents (env_at 0) registry_plain task_search None
              = Ok [agent_offline]) by (vm_compute; reflexivity).
  destruct (get_relevant_agents_unfiltered (env_at 0) registry_plain task_search
              [agent_offline] Hok Hne E) as (Hnd & Hin & _).
  auto.
Defined.

(** ** The performance cache *)

Section Cache.

Lemma is_empty_true {V} (d : dict V) : Py.is_empty d = true -> d = ∅.
Proof.
  unfold Py.is_empty. destruct (map_to_list d) eqn:E; [| discriminate].
  intros _. now apply map_to_list_empty_iff.
Qed.

Lemma update_not_empty cache id m :
  Py.is_empty (update_performance_data cache id m) = false.
Proof.
  apply (lookup_not_empty _ id m). unfold update_performance_data.
  apply lookup_insert_eq.
Qed.

End Cache.

(** X16. Recording performance data for an agent id changes the
    performance score of the records with that id and of no other record:
    a record with the id is scored on the recorded metrics alone, and a
    record with another hashable id (or none) keeps its score.  A record
    whose id is a list scores the neutral 0.7 while the cache is empty and
    raises [TypeError] once anything has been recorded. *)
Theorem update_performance_data_scoring cache id metrics agent :
  (Py.get_none "agent_id" agent = VStr id ->
   _score_performance agent (Some (update_performance_data cache id metrics))
   = _score_performance agent (Some {[ id := metrics ]}))
  /\ (Py.hashable (Py.get_none "agent_id" agent) = true ->
      Py.get_none "agent_id" agent <> VStr id ->
      _score_performance agent (Some (update_performance_data cache id metrics))
      = _score_performance agent (Some (_get_performance_data cache)))
  /\ (Py.hashable (Py.get_none "agent_id" agent) = false ->
      _score_performance agent (Some ∅) = Ok 0.7%Q
      /\ _score_performance agent (Some (update_performance_data cache id metrics))
         = Raise TypeError).
Proof.
  unfold _score_performance, _get_performance_data.
  rewrite update_not_empty. split; [| split].
  - intros Hid. rewrite Hid.
    rewrite (lookup_not_empty ({[ id := metrics ]} : dict (dict value)) id metrics)
      by apply lookup_singleton_eq.
    simpl. unfold update_performance_data.
    now rewrite lookup_insert_eq, lookup_singleton_eq.
  - intros Hh Hne. unfold Py.lookup_value. rewrite Hh.
    assert (Hlook : match Py.get_none "agent_id" agent with
                    | VStr s => update_performance_data cache id metrics !! s
                    | _ => None
                    end
                    = match Py.get_none "agent_id" agent with
                      | VStr s => cache !! s
                      | _ => None
                      end).
    { destruct (Py.get_none "agent_id" agent) as [| | | s |]; try reflexivity.
      unfold update_performance_data. apply lookup_insert_ne. congruence. }
    rewrite Hlook. destruct (Py.is_empty cache) eqn:Ee; [| reflexivity].
    apply is_empty_true in Ee. subst cache. simpl.
    destruct (Py.get_none "agent_id" agent); reflexivity.
  - intros Hh. split; [reflexivity |].
    unfold Py.lookup_value. now rewrite Hh.
Qed.

Lemma update_performance_data_scoring_witness :
  Py.get_none "agent_id" agent_A_named = VStr "A"
  /\ _score_performance agent_A_named
       (Some (update_performance_data snapshot_A "A" entry_slow))
     = _score_performance agent_A_named (Some {[ "A" := entry_slow ]})
  /\ Py.hashable (Py.get_none "agent_id" agent_list_id) = false
  /\ _score_performance agent_list_id (Some ∅) = Ok 0.7%Q
  /\ _score_performance agent_list_id
       (Some (update_performance_data ∅ "A" entry_slow)) = Raise TypeError.
Proof.
  destruct (update_performance_data_scoring snapshot_A "A" entry_slow agent_A_named)
    as (H1 & _ & _).
  destruct (update_performance_data_scoring ∅ "A" entry_slow agent_list_id)
    as (_ & _ & H3).
  split; [reflexivity |]. split; [apply H1; reflexivity |].
  split; [reflexivity |]. apply H3. reflexivity.
Defined.

(** ** Similar agents *)

Section Similar.

Lemma get_agent_metadata_none info id :
  Registry.get_agent_metadata info id = None <-> info = None \/ info = Some ∅.
Proof.
  unfold Registry.get_agent_metadata. destruct info as [d |]; [| tauto].
  destruct (Py.is_empty d) eqn:E.
  - apply is_empty_true in E. subst. tauto.
  - split; [discriminate |]. intros [H | H]; [discriminate |].
    injection H as ->. discriminate.
Qed.

(** The description of the pseudo-task reads the capabilities of the
    looked-up record and nothing else. *)
Lemma similar_task_description_metadata fmt info id target :
  Registry.get_agent_metadata (Some info) id = Some target ->
  similar_task_description fmt target
  = (let task_desc :=
       "Task requiring " +:+ str_of fmt (VStr "general") +:+ " domain expertise" in
     if Py.truthy (Py.get "capabilities" (VList []) info) then
       caps ← join_field ", " (Py.get "capabilities" (VList []) info);
       Ok (task_desc +:+ " with capabilities: " +:+ caps)
     else Ok task_desc).
Proof.
  unfold Registry.get_agent_metadata. destruct (Py.is_empty info); [discriminate |].
  intros H. injection H as <-. reflexivity.
Qed.

Lemma get_similar_agents_inv env fmt registry cache analyze info id limit out :
  get_similar_agents env fmt registry cache analyze info id limit = Ok out ->
  out = []
  \/ exists task r,
       discover_agents env registry cache task (limit + 1)%Z 0.3%Q None = Ok r
       /\ out = Py.slice_to
                  (List.filter
                     (fun agent => negb (Py.py_eqb (agent_id agent) (VStr id)))
                     (recommended_agents r)) limit.
Proof.
  unfold get_similar_agents.
  destruct (Registry.get_agent_metadata info id) as [target |];
    [| intros H; injection H as <-; now left].
  destruct (similar_task_description fmt target) as [d |]; [| discriminate].
  simpl. destruct (discover_agents _ _ _ _ _ _ _) as [r |] eqn:E; [| discriminate].
  simpl. intros H. injection H as <-. right. eauto.
Qed.

End Similar.

(** X17. What [get_similar_agents] returns.  For an agent the registry does
    not know (no answer, or an empty one) it returns the empty list.
    Whenever it returns, no returned entry has the id of the target agent,
    the entries are sorted descending by score, each has a score of at least
    0.3 and a confidence of at least 0.4, and there are at most [limit] of
    them when the limit is not negative. *)
Theorem get_similar_agents_result env fmt registry cache analyze info id limit :
  (info = None \/ info = Some ∅ ->
   get_similar_agents env fmt registry cache analyze info id limit = Ok [])
  /\ (forall out,
        get_similar_agents env fmt registry cache analyze info id limit = Ok out ->
        (forall s, In s out -> Py.py_eqb (agent_id s) (VStr id) = false
                               /\ (0.3 <= score s)%Q /\ (0.4 <= confidence s)%Q)
        /\ descending out
        /\ ((0 <= limit)%Z -> (length out <= Z.to_nat limit)%nat)).
Proof.
  split.
  - intros H. apply get_agent_metadata_none with (id := id) in H.
    unfold get_similar_agents. now rewrite H.
  - intros out H. apply get_similar_agents_inv in H.
    destruct H as [-> | (task & r & Hd & ->)].
    + split; [intros s [] |]. split; [constructor | simpl; lia].
    + destruct (discover_agents_inv _ _ _ _ _ _ _ _ Hd)
        as (agents & ranked & _ & Hr & ->). simpl.
      pose proof (rank_agents_descending _ _ _ _ _ Hr) as Hdesc.
      split; [| split].
      * intros s Hs. apply slice_to_incl in Hs. apply filter_In in Hs.
        destruct Hs as [Hs Hne]. apply negb_true_iff in Hne.
        split; [exact Hne |].
        unfold get_top_recommendations in Hs. apply slice_to_incl in Hs.
        apply filter_In in Hs. destruct Hs as [_ Hp].
        apply andb_prop in Hp. destruct Hp as [H1 H2].
        split; now apply Qle_bool_iff.
      * apply slice_to_sorted, filter_sorted.
        unfold get_top_recommendations.
        apply slice_to_sorted, filter_sorted. exact Hdesc.
      * apply slice_to_length.
Qed.

Lemma get_similar_agents_result_witness :
  get_similar_agents (env_at 0) format_plain registry_plain ∅ analyze_sample
    (Some ∅) "a1" 3 = Ok []
  /\ get_similar_agents (env_at 0) format_plain registry_plain ∅ analyze_sample
       (Some info_sample) "a1" 3 = Ok []
  /\ exists out,
       get_similar_agents (env_at 0) format_plain registry_plain ∅ analyze_sample
         (Some info_sample) "zz" 3 = Ok out
       /\ length out = 1%nat
       /\ ((0 <= 3)%Z -> (length out <= Z.to_nat 3)%nat).
Proof.
  split.
  - apply (proj1 (get_similar_agents_result (env_at 0) format_plain registry_plain
                    ∅ analyze_sample (Some ∅) "a1" 3)). now right.
  - split; [vm_compute; reflexivity |].
    eexists. split; [vm_compute; reflexivity |]. split; [reflexivity |].
    match goal with
    | |- _ -> (length ?out <= _)%nat =>
        apply (proj2 (get_similar_agents_result (env_at 0) format_plain
                        registry_plain ∅ analyze_sample (Some info_sample) "zz" 3)
                 out)
    end.
    vm_compute. reflexivity.
Defined.

(** X18. [get_similar_agents] uses nothing of the target agent but its id
    and its capabilities: the registry's domain, description, status and
    every other field of the looked-up record are dropped, so two non-empty
    answers of the registry with the same capabilities give the same result.
    With a formatter that prints strings as they are, the pseudo-task always
    asks for "general" domain expertise. *)
Theorem get_similar_agents_reads_capabilities env fmt registry cache analyze
    info1 info2 id limit :
  info1 <> ∅ -> info2 <> ∅ ->
  info1 !! "capabilities" = info2 !! "capabilities" ->
  get_similar_agents env fmt registry cache analyze (Some info1) id limit
  = get_similar_agents env fmt registry cache analyze (Some info2) id limit
  /\ (format_ok fmt ->
      forall target d,
        Registry.get_agent_metadata (Some info1) id = Some target ->
        similar_task_description fmt target = Ok d ->
        String.prefix "Task requiring general domain expertise" d = true).
Proof.
  intros H1 H2 Hcaps.
  assert (Hmeta : forall info, info <> ∅ ->
            exists target, Registry.get_agent_metadata (Some info) id = Some target).
  { intros info Hne.
    destruct (Registry.get_agent_metadata (Some info) id) as [t |] eqn:E; [eauto |].
    apply get_agent_metadata_none in E. destruct E as [E | E]; congruence. }
  destruct (Hmeta info1 H1) as [t1 E1]. destruct (Hmeta info2 H2) as [t2 E2].
  assert (Hget : Py.get "capabilities" (VList []) info1
                 = Py.get "capabilities" (VList []) info2).
  { unfold Py.get. now rewrite Hcaps. }
  split.
  - unfold get_similar_agents. rewrite E1, E2.
    rewrite (similar_task_description_metadata fmt info1 id t1 E1).
    rewrite (similar_task_description_metadata fmt info2 id t2 E2).
    now rewrite Hget.
  - intros Hfmt target d Et Hd. rewrite Et in E1. injection E1 as ->.
    rewrite (similar_task_description_metadata fmt info1 id t1 Et) in Hd.
    rewrite (Hfmt "general") in Hd. simpl in Hd.
    destruct (Py.truthy _).
    + destruct (join_field ", " _) as [caps |]; [| discriminate].
      simpl in Hd. injection Hd as <-. reflexivity.
    + injection Hd as <-. reflexivity.
Qed.

Lemma get_similar_agents_reads_capabilities_witness :
  info_sample <> ∅
  /\ <["domain" := VStr "health"]> info_sample <> ∅
  /\ info_sample !! "capabilities"
     = <["domain" := VStr "health"]> info_sample !! "capabilities"
  /\ get_similar_agents (env_at 0) format_plain registry_plain ∅ analyze_sample
       (Some info_sample) "zz" 3
     = get_similar_agents (env_at 0) format_plain registry_plain ∅ analyze_sample
         (Some (<["domain" := VStr "health"]> info_sample)) "zz" 3.
Proof.
  assert (H1 : info_sample <> ∅) by (vm_compute; discriminate).
  assert (H2 : <["domain" := VStr "health"]> info_sample <> ∅)
    by (vm_compute; discriminate).
  assert (H3 : info_sample !! "capabilities"
               = <["domain" := VStr "health"]> info_sample !! "capabilities")
    by reflexivity.
  split; [exact H1 |]. split; [exact H2 |]. split; [exact H3 |].
  exact (proj1 (get_similar_agents_reads_capabilities (env_at 0) format_plain
                  registry_plain ∅ analyze_sample info_sample
                  (<["domain" := VStr "health"]> info_sample) "zz" 3 H1 H2 H3)).
Defined.

(** ** The registry client *)

Section LocalFilter.

Lemma wanted_in_container (wanted : option (list string)) (v : value) :
  container v = true ->
  match wanted with
  | Some (w :: ws) => Registry.any_in (w :: ws) v
  | _ => Ok true
  end = Ok (has_any wanted v).
Proof.
  intros Hc. destruct wanted as [[| w ws] |]; try reflexivity.
  destruct v; simpl in *; try discriminate; reflexivity.
Qed.

Lemma matches_locally_searchable fmt query capabilities tags a :
  searchable a = true ->
  Registry.matches_locally fmt query capabilities tags a
  = Ok (matches_all fmt query capabilities tags a).
Proof.
  intros Hs. unfold searchable in Hs. apply andb_prop in Hs.
  destruct Hs as [Hc Ht].
  apply (get_field _ _ (VList [])) in Hc; [| reflexivity].
  apply (get_field _ _ (VList [])) in Ht; [| reflexivity].
  unfold Registry.matches_locally, matches_all, query_matches.
  rewrite (wanted_in_container capabilities _ Hc).
  rewrite (wanted_in_container tags _ Ht).
  destruct (String.eqb query "") eqn:Eq; simpl.
  - destruct (has_any capabilities _); reflexivity.
  - destruct (Py.contains _ _); simpl; [| reflexivity].
    destruct (has_any capabilities _); reflexivity.
Qed.

Lemma filter_each_pure {A} (p : A -> result bool) (q : A -> bool) (l : list A) :
  List.Forall (fun a => p a = Ok (q a)) l ->
  Py.filter_each p l = Ok (List.filter q l).
Proof.
  induction 1 as [| x l Hx _ IH]; simpl; [reflexivity |].
  rewrite Hx. simpl. rewrite IH. reflexivity.
Qed.

Lemma filter_each_raises {A} (p : A -> result bool) (l : list A) a e :
  In a l -> p a = Raise e -> exists e', Py.filter_each p l = Raise e'.
Proof.
  induction l as [| x l IH]; intros Hin Ha; [destruct Hin |]. simpl.
  destruct Hin as [-> | Hin].
  - rewrite Ha. simpl. eauto.
  - destruct (p x) as [b | e1]; simpl; [| eauto].
    destruct (IH Hin Ha) as [e' ->]. simpl. eauto.
Qed.

End LocalFilter.

(** X19. Local filtering of the listing.  When the capabilities and tags of
    every listed record are lists or strings (or absent), it returns exactly
    the listed records, in the order of the listing, that contain the query
    in "id description" whatever the case, hold one of the wanted
    capabilities and hold one of the wanted tags; absent or empty criteria
    let every record pass, so that without criteria the whole listing comes
    back. *)
Theorem filter_agents_locally_spec fmt listing query capabilities tags :
  List.Forall (fun a => searchable a = true) (Registry.list_agents listing) ->
  Registry._filter_agents_locally fmt listing query capabilities tags
  = Ok (List.filter (matches_all fmt query capabilities tags)
          (Registry.list_agents listing))
  /\ Registry._filter_agents_locally fmt listing "" None None
     = Ok (Registry.list_agents listing)
  /\ Registry._filter_agents_locally fmt listing "" (Some []) (Some [])
     = Ok (Registry.list_agents listing).
Proof.
  intros Hs. unfold Registry._filter_agents_locally.
  split; [| split].
  - apply filter_each_pure. apply List.Forall_impl with (2 := Hs).
    intros a Ha. now apply matches_locally_searchable.
  - rewrite (filter_each_pure _ (fun _ => true)).
    + f_equal. clear. induction (Registry.list_agents listing); simpl; congruence.
    + apply List.Forall_forall. reflexivity.
  - rewrite (filter_each_pure _ (fun _ => true)).
    + f_equal. clear. induction (Registry.list_agents listing); simpl; congruence.
    + apply List.Forall_forall. reflexivity.
Qed.

Lemma filter_agents_locally_spec_witness :
  List.Forall (fun a => searchable a = true) (Registry.list_agents listing_sample)
  /\ Registry._filter_agents_locally format_plain listing_sample "TRANSLAT"
       (Some ["nlp"]) None
     = Ok (List.filter (matches_all format_plain "TRANSLAT" (Some ["nlp"]) None)
             (Registry.list_agents listing_sample)).
Proof.
  split; [repeat constructor |].
  apply (filter_agents_locally_spec format_plain listing_sample "TRANSLAT"
           (Some ["nlp"]) None). repeat constructor.
Defined.

(** A query in capitals finds the translator by its description; agent A has
    the capability but neither id nor description. *)
Example filter_agents_locally_sample :
  Registry._filter_agents_locally format_plain listing_sample "TRANSLAT"
    (Some ["nlp"]) None = Ok [agent_translator]
  /\ Registry._filter_agents_locally format_plain listing_sample ""
       (Some ["nlp"]) None = Ok [agent_translator; agent_A].
Proof. split; vm_compute; reflexivity. Qed.

(** X20. The outcomes of [search_agents].  A reply 200 with a decodable body
    is returned as it is, unchecked against the criteria.  In every other
    case the result is that of local filtering of the listing: the empty list
    when the listing fails too, and an exception, which escapes to the
    caller, as soon as local filtering raises on a listed record, as it does
    on a record whose capabilities are null when capabilities are wanted. *)
Theorem search_agents_outcomes fmt search listing query capabilities tags :
  (forall agents, search = Registry.Reply 200 (Some agents) ->
     Registry.search_agents fmt search listing query capabilities tags = Ok agents)
  /\ (unanswered search = true ->
      Registry.search_agents fmt search listing query capabilities tags
      = Registry._filter_agents_locally fmt listing query capabilities tags)
  /\ (unanswered search = true -> Registry.list_agents listing = [] ->
      Registry.search_agents fmt search listing query capabilities tags = Ok [])
  /\ (unanswered search = true ->
      forall a e, In a (Registry.list_agents listing) ->
        Registry.matches_locally fmt query capabilities tags a = Raise e ->
        exists e', Registry.search_agents fmt search listing query capabilities tags
                   = Raise e')
  /\ (forall a c cs, a !! "capabilities" = Some VNone ->
        Registry.matches_locally fmt "" (Some (c :: cs)) tags a = Raise TypeError).
Proof.
  assert (Hun : unanswered search = true ->
                Registry.search_agents fmt search listing query capabilities tags
                = Registry._filter_agents_locally fmt listing query capabilities tags).
  { unfold unanswered, Registry.search_agents.
    destruct search as [status [agents |] |]; try reflexivity.
    intros H. apply negb_true_iff in H. now rewrite H. }
  split; [intros agents ->; reflexivity |].
  split; [exact Hun |]. split; [| split].
  - intros Hu Hl. rewrite (Hun Hu). unfold Registry._filter_agents_locally.
    now rewrite Hl.
  - intros Hu a e Hin Ha. rewrite (Hun Hu).
    unfold Registry._filter_agents_locally.
    exact (filter_each_raises _ _ a e Hin Ha).
  - intros a c cs Ha. unfold Registry.matches_locally, Py.get. rewrite Ha.
    reflexivity.
Qed.

Lemma search_agents_outcomes_witness :
  unanswered Registry.Failed = true
  /\ In agent_null_caps (Registry.list_agents listing_legacy)
  /\ Registry.matches_locally format_plain "" (Some ["nlp"]) None agent_null_caps
     = Raise TypeError
  /\ exists e', Registry.search_agents format_plain Registry.Failed listing_legacy
                  "" (Some ["nlp"]) None = Raise e'.
Proof.
  assert (Hin : In agent_null_caps (Registry.list_agents listing_legacy))
    by (right; now left).
  assert (Hr : Registry.matches_locally format_plain "" (Some ["nlp"]) None
                 agent_null_caps = Raise TypeError) by reflexivity.
  split; [reflexivity |]. split; [exact Hin |]. split; [exact Hr |].
  destruct (search_agents_outcomes format_plain Registry.Failed listing_legacy ""
              (Some ["nlp"]) None) as (_ & _ & _ & H & _).
  exact (H eq_refl agent_null_caps TypeError Hin Hr).
Defined.

(** ** Explanations *)

Section Text.

Lemma prefix_refl (s : string) : String.prefix s s = true.
Proof.
  induction s as [| c s IH]; simpl; [reflexivity |].
  destruct (ascii_dec c c); [exact IH | congruence].
Qed.

Lemma prefix_app (sub a b : string) :
  String.prefix sub a = true -> String.prefix sub (a +:+ b) = true.
Proof.
  revert a. induction sub as [| c sub IH]; intros a H;
    [now destruct (a +:+ b) |].
  destruct a as [| c' a]; simpl in *; [discriminate |].
  destruct (ascii_dec c c'); [now apply IH | discriminate].
Qed.

Lemma contains_refl (s : string) : Py.contains s s = true.
Proof.
  destruct s as [| c s]; [reflexivity |].
  cbn [Py.contains]. now rewrite prefix_refl.
Qed.

Lemma contains_app_l (sub a b : string) :
  Py.contains sub a = true -> Py.contains sub (a +:+ b) = true.
Proof.
  induction a as [| c a IH]; simpl; intros H.
  - rewrite orb_false_r in H. destruct sub; [| discriminate].
    destruct b; reflexivity.
  - apply orb_prop in H. apply orb_true_iff. destruct H as [H | H].
    + left. exact (prefix_app sub (String c a) b H).
    + right. now apply IH.
Qed.

Lemma contains_app_r (sub a b : string) :
  Py.contains sub b = true -> Py.contains sub (a +:+ b) = true.
Proof.
  intros H. induction a as [| c a IH]; simpl; [exact H |].
  apply orb_true_iff. now right.
Qed.

(** A line of a joined text is a part of the text. *)
Lemma contains_join (sep x : string) (l : list string) :
  In x l -> Py.contains x (Py.join sep l) = true.
Proof.
  unfold Py.join. induction l as [| y l IH]; intros Hin; [destruct Hin |].
  destruct l as [| z l].
  - destruct Hin as [-> | []]. simpl. apply contains_refl.
  - change (String.concat sep (y :: z :: l))
      with (y +:+ (sep +:+ String.concat sep (z :: l))).
    destruct Hin as [-> | Hin].
    + apply contains_app_l, contains_refl.
    + apply contains_app_r, contains_app_r. now apply IH.
Qed.

Lemma numbered_lines_reason fmt i agents s reason :
  In s agents -> In reason (match_reasons s) ->
  In ("     - " +:+ reason) (numbered_lines fmt i agents).
Proof.
  revert i. induction agents as [| a agents IH]; intros i Hs Hr; [destruct Hs |].
  cbn [numbered_lines]. apply in_or_app.
  destruct Hs as [-> | Hs]; [left | right; now apply IH].
  unfold agent_lines. apply in_or_app. right.
  destruct (match_reasons s) as [| r rs] eqn:E; [destruct Hr |].
  right. apply in_map_iff. exists reason. auto.
Qed.

End Text.

(** X21. The text of [explain_recommendations] shows what the result holds:
    it contains the header "=== No Agents Found ===" when no agent is
    recommended and the header "=== Recommended Agents ===" otherwise, every
    suggestion after a dash, and every match reason of every recommended
    agent. *)
Theorem explain_recommendations_contents fmt r :
  let text := explain_recommendations fmt r in
  (recommended_agents r = [] ->
   Py.contains "=== No Agents Found ===" text = true)
  /\ (recommended_agents r <> [] ->
      Py.contains "=== Recommended Agents ===" text = true)
  /\ (forall suggestion, In suggestion (suggestions r) ->
        Py.contains ("- " +:+ suggestion) text = true)
  /\ (forall s reason, In s (recommended_agents r) -> In reason (match_reasons s) ->
        Py.contains ("     - " +:+ reason) text = true).
Proof.
  unfold explain_recommendations.
  assert (Hsugg : forall body suggestion, In suggestion (suggestions r) ->
            In ("- " +:+ suggestion)
               (match suggestions r with
                | [] => body
                | some => (body ++ [newline +:+ "=== Suggestions ==="])
                          ++ List.map (fun x => "- " +:+ x) some
                end)).
  { intros body suggestion Hin. destruct (suggestions r) as [| x l] eqn:E;
      [destruct Hin |].
    apply in_or_app. right. apply in_map_iff. exists suggestion. auto. }
  assert (Hbody : forall (body : list string) x, In x body ->
            In x (match suggestions r with
                  | [] => body
                  | some => (body ++ [newline +:+ "=== Suggestions ==="])
                            ++ List.map (fun x => "- " +:+ x) some
                  end)).
  { intros body x Hin. destruct (suggestions r); [exact Hin |].
    apply in_or_app. left. apply in_or_app. now left. }
  split; [| split; [| split]].
  - intros E. apply contains_join. unfold explanation_lines. rewrite E.
    apply Hbody. apply in_or_app. right. now left.
  - intros Hne. apply contains_join. unfold explanation_lines.
    destruct (recommended_agents r) as [| a l]; [congruence |].
    apply Hbody. apply in_or_app. left. apply in_or_app. right. now left.
  - intros suggestion Hin. apply contains_join. unfold explanation_lines.
    now apply Hsugg.
  - intros s reason Hs Hr. apply contains_join. unfold explanation_lines.
    destruct (recommended_agents r) as [| a l] eqn:E; [destruct Hs |].
    apply Hbody. apply in_or_app. right.
    now apply (numbered_lines_reason fmt 1 (a :: l) s reason).
Qed.

Lemma explain_recommendations_contents_witness :
  exists r,
    discover_agents (env_at 0) registry_plain ∅ task_unsure 5 0 None = Ok r
    /\ recommended_agents r = []
    /\ Py.contains "=== No Agents Found ==="
         (explain_recommendations format_plain r) = true
    /\ Py.contains "- No agents found matching your requirements"
         (explain_recommendations format_plain r) = true.
Proof.
  eexists. split; [vm_compute; reflexivity |]. split; [reflexivity |].
  match goal with
  | |- Py.contains _ (explain_recommendations _ ?r) = true /\ _ =>
      destruct (explain_recommendations_contents format_plain r) as (H1 & _ & H3 & _)
  end.
  split; [apply H1; reflexivity |].
  apply (H3 "No agents found matching your requirements"). now left.
Defined.

(** X22. [explain_ranking] and [_score_agent] agree on the names of the
    sub-scores: for every score that [_score_agent] returns, each of the six
    entries the explanation looks up is present in the metadata, so that the
    fall-back value 0 is never printed and the breakdown shows the six
    sub-scores that were combined. *)
Theorem explain_ranking_of_score env fmt agent task pd s :
  _score_agent env agent task pd = Ok s ->
  exists q1 q2 q3 q4 q5 q6,
    metadata s = [ ("capability_score", q1); ("domain_score", q2);
                   ("keyword_score", q3); ("performance_score", q4);
                   ("availability_score", q5); ("load_score", q6) ]
    /\ (score s == q1 * 0.35 + q2 * 0.25 + q3 * 0.20 + q4 * 0.10
                   + q5 * 0.05 + q6 * 0.05)%Q
    /\ forall line,
         In line [ "Score breakdown:";
                   "  - Capability match: " +:+ fixed2 fmt q1;
                   "  - Domain expertise: " +:+ fixed2 fmt q2;
                   "  - Keyword relevance: " +:+ fixed2 fmt q3;
                   "  - Performance: " +:+ fixed2 fmt q4;
                   "  - Availability: " +:+ fixed2 fmt q5;
                   "  - Load: " +:+ fixed2 fmt q6 ] ->
         Py.contains line (explain_ranking fmt s) = true.
Proof.
  intros H.
  destruct (score_agent_inv _ _ _ _ _ H)
    as (q1 & r1 & q2 & r2 & q3 & r3 & q4 & q5 & q6 & E1 & E2 & E3 & E4 & E5 & E6).
  rewrite (score_agent_eq _ _ _ _ _ _ _ _ _ _ _ _ _ E1 E2 E3 E4 E5 E6) in H.
  injection H as <-. exists q1, q2, q3, q4, q5, q6.
  split; [reflexivity |]. split; [reflexivity |].
  intros line Hin. unfold explain_ranking. apply contains_join. simpl.
  destruct r3 as [| r rs]; simpl;
    [right; exact Hin | do 3 right; apply in_or_app; right; exact Hin].
Qed.

Lemma explain_ranking_of_score_witness :
  exists s,
    _score_agent (env_at 0) agent_A task_A None = Ok s
    /\ Py.contains "Score breakdown:" (explain_ranking format_plain s) = true.
Proof.
  eexists. split; [vm_compute; reflexivity |].
  match goal with
  | |- Py.contains _ (explain_ranking _ ?s) = true =>
      destruct (explain_ranking_of_score (env_at 0) format_plain agent_A task_A
                  None s) as (q1 & q2 & q3 & q4 & q5 & q6 & _ & _ & H);
        [vm_compute; reflexivity |]
  end.
  apply H. now left.
Defined.

